(** * EasySalon booking workflow: a shallow embedding and its properties

    The development follows [src/booking_workflow.py] (the LangGraph booking
    dialogue) and the session handling of [src/chatbot.py].

    - Python strings are byte strings ([string]); [lower], [strip] and the
      [in] operator are written out for ASCII text.
    - [BookingState] (a [TypedDict]) is a record; the step names, intents
      and router results stay strings, as in the source.
    - The LLM extractor, the catalogue and booking gateways, [dateparser],
      the clock and [uuid4] are the fields of a class of collaborators.
    - The compiled graph is a step function on (node, state); a turn is a
      bounded run of it, with the list of visited nodes as its trace.
    - [active_booking_sessions] is a [gmap] from session keys to sessions. *)

From stdpp Require Import base strings gmap.
From Stdlib Require Import Ascii String ZArith DecimalString Lia.

Open Scope string_scope.

(** ** Python string primitives *)

Module Py.

(** [c.lower()] on an ASCII letter. *)
Definition lower_ascii (c : ascii) : ascii :=
  let n := nat_of_ascii c in
  if (65 <=? n)%nat && (n <=? 90)%nat then ascii_of_nat (n + 32) else c.

(** [s.lower()]. *)
Fixpoint lower (s : string) : string :=
  match s with
  | EmptyString => EmptyString
  | String c s' => String (lower_ascii c) (lower s')
  end.

(** [c.upper()] on an ASCII letter. *)
Definition upper_ascii (c : ascii) : ascii :=
  let n := nat_of_ascii c in
  if (97 <=? n)%nat && (n <=? 122)%nat then ascii_of_nat (n - 32) else c.

Definition is_alpha (c : ascii) : bool :=
  let n := nat_of_ascii c in
  ((65 <=? n)%nat && (n <=? 90)%nat) || ((97 <=? n)%nat && (n <=? 122)%nat).

(** The ASCII characters for which [str.isspace] holds: tab, LF, VT, FF,
    CR, the separators 28..31 and the blank. *)
Definition isspace (c : ascii) : bool :=
  let n := nat_of_ascii c in
  ((9 <=? n)%nat && (n <=? 13)%nat) || ((28 <=? n)%nat && (n <=? 32)%nat).

Fixpoint lstrip (s : string) : string :=
  match s with
  | EmptyString => EmptyString
  | String c s' => if isspace c then lstrip s' else s
  end.

(** [s.rstrip()]: the blank suffix is dropped. *)
Fixpoint rstrip (s : string) : string :=
  match s with
  | EmptyString => EmptyString
  | String c s' =>
      match rstrip s' with
      | EmptyString => if isspace c then EmptyString else String c EmptyString
      | r => String c r
      end
  end.

(** [s.strip()]. *)
Definition strip (s : string) : string := rstrip (lstrip s).

(** [pat in s] on strings: [pat] occurs in [s] as a contiguous block. *)
Fixpoint contains (pat s : string) : bool :=
  if String.prefix pat s then true
  else match s with
       | EmptyString => false
       | String _ s' => contains pat s'
       end.

(** [any(w in s for w in words)]. *)
Fixpoint any_in (words : list string) (s : string) : bool :=
  match words with
  | [] => false
  | w :: ws => if contains w s then true else any_in ws s
  end.

(** [x in words] for a list of strings. *)
Fixpoint mem (x : string) (words : list string) : bool :=
  match words with
  | [] => false
  | w :: ws => if String.eqb x w then true else mem x ws
  end.

(** [sep.join(parts)]. *)
Fixpoint join (sep : string) (parts : list string) : string :=
  match parts with
  | [] => ""
  | [p] => p
  | p :: ps => p ++ sep ++ join sep ps
  end.

(** [s.replace("_", " ")]. *)
Fixpoint replace_underscore (s : string) : string :=
  match s with
  | EmptyString => EmptyString
  | String c s' =>
      String (if Ascii.eqb c "_" then " "%char else c) (replace_underscore s')
  end.

(** [s.title()]: a letter that follows a non-letter is upper-cased, any
    other letter lower-cased. *)
Fixpoint title_from (prev_alpha : bool) (s : string) : string :=
  match s with
  | EmptyString => EmptyString
  | String c s' =>
      String (if prev_alpha then lower_ascii c else upper_ascii c)
             (title_from (is_alpha c) s')
  end.

Definition title (s : string) : string := title_from false s.

(** [str(i)] for an [int]. *)
Definition str_of_Z (z : Z) : string := NilZero.string_of_int (Z.to_int z).

(** [str(i)] for a loop counter. *)
Definition str_of_nat (n : nat) : string := NilZero.string_of_uint (Nat.to_uint n).

(** [int(s)] for a decimal literal with an optional sign, blanks around it
    allowed; [None] stands for [ValueError]. *)
Definition int_of_str (s : string) : option Z :=
  let t := strip s in
  let digits := match t with
                | String "+" r => match r with
                                  | String "-" _ | String "+" _ => ""
                                  | _ => r
                                  end
                | _ => t
                end in
  match NilZero.int_of_string digits with
  | Some d => Some (Z.of_int d)
  | None => None
  end.

(** [str(x)] of an optional string, as an f-string prints it. *)
Definition str_of_opt (o : option string) : string :=
  match o with
  | Some s => s
  | None => "None"
  end.

(** Truth value of an optional string: [None] and [""] are falsy. *)
Definition truthy (o : option string) : bool :=
  match o with
  | Some (String _ _) => true
  | _ => false
  end.

End Py.

(** ** The intent classifier *)

(** [detect_user_intent]: the checks are tried in the order of the source,
    the first that holds returns. *)
Definition detect_user_intent (user_message : string) : string :=
  let message_lower := Py.strip (Py.lower user_message) in
  if Py.any_in ["edit"; "change"; "modify"; "update"] message_lower then
    "edit"
  else if Py.any_in ["summary"; "status"; "show"; "review"; "details"]
            message_lower then
    "show_summary"
  else if Py.any_in ["start over"; "restart"; "begin again"; "reset"]
            message_lower then
    "start_over"
  else if Py.any_in ["confirm booking"; "confirm appointment"; "yes confirm";
                     "proceed with booking"] message_lower then
    "confirm"
  else if Py.mem message_lower ["confirm"; "yes"; "ok"; "proceed"; "go ahead"]
  then
    "confirm"
  else if Py.any_in ["cancel"; "stop"; "quit"; "exit"] message_lower then
    "cancel"
  else
    "provide_info".


(** ** The data model *)

(** One entry of [conversation_history]. *)
Record message := Message {
  role : string;
  content : string;
  timestamp : string
}.

(** A branch or service record as the catalogue returns it: the id, the
    name, and the display attributes ([address], [mobile], [price],
    [time]) already rendered as text. *)
Record choice := Choice {
  choice_id : Z;
  choice_name : string;
  choice_attrs : list (string * string)
}.

(** [BookingState]: every key of the [TypedDict], with its declared type. *)
Record BookingState := mkState {
  customer_mobile : option string;
  customer_name : option string;
  total_customer : option Z;
  branch_id : option string;
  service_id : option string;
  booking_date : option string;
  booking_time : option string;
  branch_options : list choice;
  service_options : list choice;
  conversation_history : list message;
  current_step : string;
  missing_fields : list string;
  is_complete : bool;
  error_message : option string;
  session_id : option string;
  edit_mode : bool;
  last_user_intent : option string;
  booking_summary_shown : bool
}.

(** Assignment [state[key] = v], one function per key. *)
Definition set_customer_mobile (v : option string) (s : BookingState) : BookingState :=
  {| customer_mobile := v;
     customer_name := customer_name s;
     total_customer := total_customer s;
     branch_id := branch_id s;
     service_id := service_id s;
     booking_date := booking_date s;
     booking_time := booking_time s;
     branch_options := branch_options s;
     service_options := service_options s;
     conversation_history := conversation_history s;
     current_step := current_step s;
     missing_fields := missing_fields s;
     is_complete := is_complete s;
     error_message := error_message s;
     session_id := session_id s;
     edit_mode := edit_mode s;
     last_user_intent := last_user_intent s;
     booking_summary_shown := booking_summary_shown s |}.

Definition set_customer_name (v : option string) (s : BookingState) : BookingState :=
  {| customer_mobile := customer_mobile s;
     customer_name := v;
     total_customer := total_customer s;
     branch_id := branch_id s;
     service_id := service_id s;
     booking_date := booking_date s;
     booking_time := booking_time s;
     branch_options := branch_options s;
     service_options := service_options s;
     conversation_history := conversation_history s;
     current_step := current_step s;
     missing_fields := missing_fields s;
     is_complete := is_complete s;
     error_message := error_message s;
     session_id := session_id s;
     edit_mode := edit_mode s;
     last_user_intent := last_user_intent s;
     booking_summary_shown := booking_summary_shown s |}.

Definition set_total_customer (v : option Z) (s : BookingState) : BookingState :=
  {| customer_mobile := customer_mobile s;
     customer_name := customer_name s;
     total_customer := v;
     branch_id := branch_id s;
     service_id := service_id s;
     booking_date := booking_date s;
     booking_time := booking_time s;
     branch_options := branch_options s;
     service_options := service_options s;
     conversation_history := conversation_history s;
     current_step := current_step s;
     missing_fields := missing_fields s;
     is_complete := is_complete s;
     error_message := error_message s;
     session_id := session_id s;
     edit_mode := edit_mode s;
     last_user_intent := last_user_intent s;
     booking_summary_shown := booking_summary_shown s |}.

Definition set_branch_id (v : option string) (s : BookingState) : BookingState :=
  {| customer_mobile := customer_mobile s;
     customer_name := customer_name s;
     total_customer := total_customer s;
     branch_id := v;
     service_id := service_id s;
     booking_date := booking_date s;
     booking_time := booking_time s;
     branch_options := branch_options s;
     service_options := service_options s;
     conversation_history := conversation_history s;
     current_step := current_step s;
     missing_fields := missing_fields s;
     is_complete := is_complete s;
     error_message := error_message s;
     session_id := session_id s;
     edit_mode := edit_mode s;
     last_user_intent := last_user_intent s;
     booking_summary_shown := booking_summary_shown s |}.

Definition set_service_id (v : option string) (s : BookingState) : BookingState :=
  {| customer_mobile := customer_mobile s;
     customer_name := customer_name s;
     total_customer := total_customer s;
     branch_id := branch_id s;
     service_id := v;
     booking_date := booking_date s;
     booking_time := booking_time s;
     branch_options := branch_options s;
     service_options := service_options s;
     conversation_history := conversation_history s;
     current_step := current_step s;
     missing_fields := missing_fields s;
     is_complete := is_complete s;
     error_message := error_message s;
     session_id := session_id s;
     edit_mode := edit_mode s;
     last_user_intent := last_user_intent s;
     booking_summary_shown := booking_summary_shown s |}.

Definition set_booking_date (v : option string) (s : BookingState) : BookingState :=
  {| customer_mobile := customer_mobile s;
     customer_name := customer_name s;
     total_customer := total_customer s;
     branch_id := branch_id s;
     service_id := service_id s;
     booking_date := v;
     booking_time := booking_time s;
     branch_options := branch_options s;
     service_options := service_options s;
     conversation_history := conversation_history s;
     current_step := current_step s;
     missing_fields := missing_fields s;
     is_complete := is_complete s;
     error_message := error_message s;
     session_id := session_id s;
     edit_mode := edit_mode s;
     last_user_intent := last_user_intent s;
     booking_summary_shown := booking_summary_shown s |}.

Definition set_booking_time (v : option string) (s : BookingState) : BookingState :=
  {| customer_mobile := customer_mobile s;
     customer_name := customer_name s;
     total_customer := total_customer s;
     branch_id := branch_id s;
     service_id := service_id s;
     booking_date := booking_date s;
     booking_time := v;
     branch_options := branch_options s;
     service_options := service_options s;
     conversation_history := conversation_history s;
     current_step := current_step s;
     missing_fields := missing_fields s;
     is_complete := is_complete s;
     error_message := error_message s;
     session_id := session_id s;
     edit_mode := edit_mode s;
     last_user_intent := last_user_intent s;
     booking_summary_shown := booking_summary_shown s |}.

Definition set_branch_options (v : list choice) (s : BookingState) : BookingState :=
  {| customer_mobile := customer_mobile s;
     customer_name := customer_name s;
     total_customer := total_customer s;
     branch_id := branch_id s;
     service_id := service_id s;
     booking_date := booking_date s;
     booking_time := booking_time s;
     branch_options := v;
     service_options := service_options s;
     conversation_history := conversation_history s;
     current_step := current_step s;
     missing_fields := missing_fields s;
     is_complete := is_complete s;
     error_message := error_message s;
     session_id := session_id s;
     edit_mode := edit_mode s;
     last_user_intent := last_user_intent s;
     booking_summary_shown := booking_summary_shown s |}.

Definition set_service_options (v : list choice) (s : BookingState) : BookingState :=
  {| customer_mobile := customer_mobile s;
     customer_name := customer_name s;
     total_customer := total_customer s;
     branch_id := branch_id s;
     service_id := service_id s;
     booking_date := booking_date s;
     booking_time := booking_time s;
     branch_options := branch_options s;
     service_options := v;
     conversation_history := conversation_history s;
     current_step := current_step s;
     missing_fields := missing_fields s;
     is_complete := is_complete s;
     error_message := error_message s;
     session_id := session_id s;
     edit_mode := edit_mode s;
     last_user_intent := last_user_intent s;
     booking_summary_shown := booking_summary_shown s |}.

Definition set_conversation_history (v : list message) (s : BookingState) : BookingState :=
  {| customer_mobile := customer_mobile s;
     customer_name := customer_name s;
     total_customer := total_customer s;
     branch_id := branch_id s;
     service_id := service_id s;
     booking_date := booking_date s;
     booking_time := booking_time s;
     branch_options := branch_options s;
     service_options := service_options s;
     conversation_history := v;
     current_step := current_step s;
     missing_fields := missing_fields s;
     is_complete := is_complete s;
     error_message := error_message s;
     session_id := session_id s;
     edit_mode := edit_mode s;
     last_user_intent := last_user_intent s;
     booking_summary_shown := booking_summary_shown s |}.

Definition set_current_step (v : string) (s : BookingState) : BookingState :=
  {| customer_mobile := customer_mobile s;
     customer_name := customer_name s;
     total_customer := total_customer s;
     branch_id := branch_id s;
     service_id := service_id s;
     booking_date := booking_date s;
     booking_time := booking_time s;
     branch_options := branch_options s;
     service_options := service_options s;
     conversation_history := conversation_history s;
     current_step := v;
     missing_fields := missing_fields s;
     is_complete := is_complete s;
     error_message := error_message s;
     session_id := session_id s;
     edit_mode := edit_mode s;
     last_user_intent := last_user_intent s;
     booking_summary_shown := booking_summary_shown s |}.

Definition set_missing_fields (v : list string) (s : BookingState) : BookingState :=
  {| customer_mobile := customer_mobile s;
     customer_name := customer_name s;
     total_customer := total_customer s;
     branch_id := branch_id s;
     service_id := service_id s;
     booking_date := booking_date s;
     booking_time := booking_time s;
     branch_options := branch_options s;
     service_options := service_options s;
     conversation_history := conversation_history s;
     current_step := current_step s;
     missing_fields := v;
     is_complete := is_complete s;
     error_message := error_message s;
     session_id := session_id s;
     edit_mode := edit_mode s;
     last_user_intent := last_user_intent s;
     booking_summary_shown := booking_summary_shown s |}.

Definition set_is_complete (v : bool) (s : BookingState) : BookingState :=
  {| customer_mobile := customer_mobile s;
     customer_name := customer_name s;
     total_customer := total_customer s;
     branch_id := branch_id s;
     service_id := service_id s;
     booking_date := booking_date s;
     booking_time := booking_time s;
     branch_options := branch_options s;
     service_options := service_options s;
     conversation_history := conversation_history s;
     current_step := current_step s;
     missing_fields := missing_fields s;
     is_complete := v;
     error_message := error_message s;
     session_id := session_id s;
     edit_mode := edit_mode s;
     last_user_intent := last_user_intent s;
     booking_summary_shown := booking_summary_shown s |}.

Definition set_error_message (v : option string) (s : BookingState) : BookingState :=
  {| customer_mobile := customer_mobile s;
     customer_name := customer_name s;
     total_customer := total_customer s;
     branch_id := branch_id s;
     service_id := service_id s;
     booking_date := booking_date s;
     booking_time := booking_time s;
     branch_options := branch_options s;
     service_options := service_options s;
     conversation_history := conversation_history s;
     current_step := current_step s;
     missing_fields := missing_fields s;
     is_complete := is_complete s;
     error_message := v;
     session_id := session_id s;
     edit_mode := edit_mode s;
     last_user_intent := last_user_intent s;
     booking_summary_shown := booking_summary_shown s |}.

Definition set_session_id (v : option string) (s : BookingState) : BookingState :=
  {| customer_mobile := customer_mobile s;
     customer_name := customer_name s;
     total_customer := total_customer s;
     branch_id := branch_id s;
     service_id := service_id s;
     booking_date := booking_date s;
     booking_time := booking_time s;
     branch_options := branch_options s;
     service_options := service_options s;
     conversation_history := conversation_history s;
     current_step := current_step s;
     missing_fields := missing_fields s;
     is_complete := is_complete s;
     error_message := error_message s;
     session_id := v;
     edit_mode := edit_mode s;
     last_user_intent := last_user_intent s;
     booking_summary_shown := booking_summary_shown s |}.

Definition set_edit_mode (v : bool) (s : BookingState) : BookingState :=
  {| customer_mobile := customer_mobile s;
     customer_name := customer_name s;
     total_customer := total_customer s;
     branch_id := branch_id s;
     service_id := service_id s;
     booking_date := booking_date s;
     booking_time := booking_time s;
     branch_options := branch_options s;
     service_options := service_options s;
     conversation_history := conversation_history s;
     current_step := current_step s;
     missing_fields := missing_fields s;
     is_complete := is_complete s;
     error_message := error_message s;
     session_id := session_id s;
     edit_mode := v;
     last_user_intent := last_user_intent s;
     booking_summary_shown := booking_summary_shown s |}.

Definition set_last_user_intent (v : option string) (s : BookingState) : BookingState :=
  {| customer_mobile := customer_mobile s;
     customer_name := customer_name s;
     total_customer := total_customer s;
     branch_id := branch_id s;
     service_id := service_id s;
     booking_date := booking_date s;
     booking_time := booking_time s;
     branch_options := branch_options s;
     service_options := service_options s;
     conversation_history := conversation_history s;
     current_step := current_step s;
     missing_fields := missing_fields s;
     is_complete := is_complete s;
     error_message := error_message s;
     session_id := session_id s;
     edit_mode := edit_mode s;
     last_user_intent := v;
     booking_summary_shown := booking_summary_shown s |}.

Definition set_booking_summary_shown (v : bool) (s : BookingState) : BookingState :=
  {| customer_mobile := customer_mobile s;
     customer_name := customer_name s;
     total_customer := total_customer s;
     branch_id := branch_id s;
     service_id := service_id s;
     booking_date := booking_date s;
     booking_time := booking_time s;
     branch_options := branch_options s;
     service_options := service_options s;
     conversation_history := conversation_history s;
     current_step := current_step s;
     missing_fields := missing_fields s;
     is_complete := is_complete s;
     error_message := error_message s;
     session_id := session_id s;
     edit_mode := edit_mode s;
     last_user_intent := last_user_intent s;
     booking_summary_shown := v |}.

(** ** Module-level helpers of [booking_workflow.py] *)

(** [state.get(field)] for the keys that hold an optional string; the six
    required fields are among them. *)
Definition state_get (s : BookingState) (field : string) : option string :=
  if String.eqb field "customer_mobile" then customer_mobile s
  else if String.eqb field "customer_name" then customer_name s
  else if String.eqb field "branch_id" then branch_id s
  else if String.eqb field "service_id" then service_id s
  else if String.eqb field "booking_date" then booking_date s
  else if String.eqb field "booking_time" then booking_time s
  else if String.eqb field "error_message" then error_message s
  else if String.eqb field "session_id" then session_id s
  else if String.eqb field "last_user_intent" then last_user_intent s
  else if String.eqb field "current_step" then Some (current_step s)
  else None.

(** [state[key] = value] for a string [value]. Keys whose declared type is
    not a string are not written: the extractor's contract (strings for
    booking fields) does not reach them. *)
Definition state_set (key value : string) (s : BookingState) : BookingState :=
  if String.eqb key "customer_mobile" then set_customer_mobile (Some value) s
  else if String.eqb key "customer_name" then set_customer_name (Some value) s
  else if String.eqb key "branch_id" then set_branch_id (Some value) s
  else if String.eqb key "service_id" then set_service_id (Some value) s
  else if String.eqb key "booking_date" then set_booking_date (Some value) s
  else if String.eqb key "booking_time" then set_booking_time (Some value) s
  else if String.eqb key "error_message" then set_error_message (Some value) s
  else if String.eqb key "session_id" then set_session_id (Some value) s
  else if String.eqb key "last_user_intent" then
    set_last_user_intent (Some value) s
  else if String.eqb key "current_step" then set_current_step value s
  else s.

(** [state[field] = None] for the fields an edit can name. *)
Definition clear_field (field : string) (s : BookingState) : BookingState :=
  if String.eqb field "customer_mobile" then set_customer_mobile None s
  else if String.eqb field "customer_name" then set_customer_name None s
  else if String.eqb field "branch_id" then set_branch_id None s
  else if String.eqb field "service_id" then set_service_id None s
  else if String.eqb field "booking_date" then set_booking_date None s
  else if String.eqb field "booking_time" then set_booking_time None s
  else if String.eqb field "total_customer" then set_total_customer None s
  else s.

Definition required_fields : list string :=
  ["customer_mobile"; "customer_name"; "branch_id";
   "service_id"; "booking_date"; "booking_time"].

(** The loop of [get_missing_fields]: a field is appended when
    [not state.get(field)]. *)
Fixpoint missing_among (s : BookingState) (fields : list string)
  : list string :=
  match fields with
  | [] => []
  | field :: rest =>
      if negb (Py.truthy (state_get s field))
      then field :: missing_among s rest
      else missing_among s rest
  end.

Definition get_missing_fields (s : BookingState) : list string :=
  missing_among s required_fields.

Definition update_missing_fields (s : BookingState) : BookingState :=
  let s1 := set_missing_fields (get_missing_fields s) s in
  set_is_complete (Nat.eqb (List.length (missing_fields s1)) 0) s1.

(** [next((m for m in reversed(history) if m["role"] == r), None)]. *)
Fixpoint first_with_role (r : string) (msgs : list message) : option message :=
  match msgs with
  | [] => None
  | m :: rest => if String.eqb (role m) r then Some m
                 else first_with_role r rest
  end.

Definition latest_message (r : string) (s : BookingState) : option message :=
  first_with_role r (rev (conversation_history s)).

(** The name shown for an id: the first cached record whose [str(id)]
    equals it, [default] when the loop ends without a hit. *)
Fixpoint name_of_id (ident : string) (opts : list choice) (default : string)
  : string :=
  match opts with
  | [] => default
  | c :: rest =>
      if String.eqb (Py.str_of_Z (choice_id c)) ident then choice_name c
      else name_of_id ident rest default
  end.

(** [c.get(key, 'N/A')] on a catalogue record. *)
Fixpoint attr_or_na (key : string) (attrs : list (string * string)) : string :=
  match attrs with
  | [] => "N/A"
  | (k, v) :: rest => if String.eqb k key then v else attr_or_na key rest
  end.

Definition str_of_people (o : option Z) : string :=
  match o with
  | Some n => Py.str_of_Z n
  | None => "None"
  end.

Definition NL : string := String (ascii_of_nat 10) EmptyString.

Fixpoint bullet_lines (fields : list string) : string :=
  match fields with
  | [] => ""
  | field :: rest =>
      "• " ++ Py.title (Py.replace_underscore field) ++ NL ++ bullet_lines rest
  end.

Definition generate_booking_summary (s : BookingState) : string :=
  let branch_name :=
    if Py.truthy (branch_id s) && negb (Nat.eqb (List.length (branch_options s)) 0)
    then name_of_id (Py.str_of_opt (branch_id s)) (branch_options s)
                    "Not selected"
    else "Not selected" in
  let service_name :=
    if Py.truthy (service_id s) && negb (Nat.eqb (List.length (service_options s)) 0)
    then name_of_id (Py.str_of_opt (service_id s)) (service_options s)
                    "Not selected"
    else "Not selected" in
  "📋 **Current Booking Information:**" ++ NL ++ NL
  ++ "👤 **Customer:** " ++ Py.str_of_opt (customer_name s) ++ NL
  ++ "📱 **Phone:** " ++ Py.str_of_opt (customer_mobile s) ++ NL
  ++ "🏪 **Branch:** " ++ branch_name ++ NL
  ++ "💅 **Service:** " ++ service_name ++ NL
  ++ "📅 **Date:** " ++ Py.str_of_opt (booking_date s) ++ NL
  ++ "⏰ **Time:** " ++ Py.str_of_opt (booking_time s) ++ NL
  ++ "👥 **People:** " ++ str_of_people (total_customer s) ++ NL ++ NL
  ++ (match missing_fields s with
      | [] => ""
      | fields => "⚠️ **Missing Information:**" ++ NL
                  ++ bullet_lines fields ++ NL
      end)
  ++ "📝 **How to make changes:**" ++ NL
  ++ "• Say 'edit name' to change your name" ++ NL
  ++ "• Say 'edit phone' to change your phone number" ++ NL
  ++ "• Say 'edit branch' to select a different branch" ++ NL
  ++ "• Say 'edit service' to select a different service" ++ NL
  ++ "• Say 'edit date' to change the date" ++ NL
  ++ "• Say 'edit time' to change the time" ++ NL
  ++ "• Say 'start over' to restart the booking" ++ NL
  ++ "• Say 'confirm' when everything looks correct" ++ NL.

(** The keyword table of [handle_edit_command], in insertion order. *)
Definition edit_mappings : list (string * (string * string)) :=
  [("name", ("customer_name", "collect_customer_info"));
   ("phone", ("customer_mobile", "collect_customer_info"));
   ("mobile", ("customer_mobile", "collect_customer_info"));
   ("branch", ("branch_id", "query_branches"));
   ("location", ("branch_id", "query_branches"));
   ("salon", ("branch_id", "query_branches"));
   ("service", ("service_id", "query_services"));
   ("treatment", ("service_id", "query_services"));
   ("date", ("booking_date", "collect_customer_info"));
   ("time", ("booking_time", "collect_customer_info"));
   ("people", ("total_customer", "collect_customer_info"));
   ("customer", ("total_customer", "collect_customer_info"))].

Fixpoint first_keyword (table : list (string * (string * string)))
  (message_lower : string) : option (string * string) :=
  match table with
  | [] => None
  | (keyword, target) :: rest =>
      if Py.contains keyword message_lower then Some target
      else first_keyword rest message_lower
  end.

(** [handle_edit_command]: the field to clear (if any) and the next step. *)
Definition handle_edit_command (user_message : string)
  : option string * string :=
  match first_keyword edit_mappings (Py.lower user_message) with
  | Some (field, next_step) => (Some field, next_step)
  | None => (None, "show_edit_options")
  end.

(** ** The selection matcher *)

(** The patterns built for position [i]. *)
Definition ordinal_patterns (i : nat) : list string :=
  let n := Py.str_of_nat i in
  [" " ++ n ++ " "; " " ++ n ++ "."; " " ++ n ++ ","; "option " ++ n;
   "choice " ++ n; "number " ++ n; "#" ++ n; "(" ++ n ++ ")"].

(** The inner loop over the patterns of one position. *)
Fixpoint pattern_hit (patterns : list string) (user_msg : string) : bool :=
  match patterns with
  | [] => false
  | pattern :: rest =>
      if Py.contains pattern user_msg then true else pattern_hit rest user_msg
  end.

(** The loop [for i, option in enumerate(options[:5], 1)]. *)
Fixpoint select_by_number (user_msg : string) (i : nat) (opts : list choice)
  : option choice :=
  match opts with
  | [] => None
  | option :: rest =>
      if String.eqb (Py.strip user_msg) (Py.str_of_nat i) then Some option
      else if pattern_hit (ordinal_patterns i) user_msg then Some option
      else select_by_number user_msg (S i) rest
  end.

(** The loop [for option in options] over the names. *)
Fixpoint select_by_name (user_msg : string) (opts : list choice)
  : option choice :=
  match opts with
  | [] => None
  | option :: rest =>
      if Py.contains (Py.lower (choice_name option)) user_msg then Some option
      else select_by_name user_msg rest
  end.

Definition _parse_selection (user_message : string) (options : list choice)
  : option choice :=
  let user_msg := Py.lower user_message in
  match select_by_number user_msg 1 (firstn 5 options) with
  | Some option => Some option
  | None => select_by_name user_msg options
  end.


(** ** Values exchanged with the booking gateway *)

(** A scalar of the gateway's JSON answer. *)
Inductive jval :=
| JNull
| JBool (b : bool)
| JInt (z : Z)
| JStr (s : string).

(** [d.get(key)] on a JSON object kept as its list of members. *)
Fixpoint dict_get (key : string) (d : list (string * jval)) : option jval :=
  match d with
  | [] => None
  | (k, v) :: rest => if String.eqb k key then Some v else dict_get key rest
  end.

(** [v == True]: holds for [True] and for the number one. *)
Definition eq_True (v : jval) : bool :=
  match v with
  | JBool b => b
  | JInt z => Z.eqb z 1
  | _ => false
  end.

Definition str_of_jval (v : jval) : string :=
  match v with
  | JNull => "None"
  | JBool true => "True"
  | JBool false => "False"
  | JInt z => Py.str_of_Z z
  | JStr s => s
  end.

(** The dictionary handed to [Easysalon.book_appointment]. *)
Record booking_request := BookingRequest {
  req_customer_name : option string;
  req_customer_mobile : option string;
  req_total_customer : option Z;
  req_branch_id : Z;
  req_service_id : Z;
  req_booking_date : option string;
  req_booking_time : option string
}.

(** The fallback ids written in [_create_booking]. *)
Definition default_branch_id : Z := 8850.
Definition default_service_id : Z := 257170.

(** ** External collaborators *)

(** What the workflow consumes from outside the dialogue logic. *)
Class Collaborators := {
  (** [datetime.now().isoformat()] and [str(uuid.uuid4())]. *)
  now : string;
  fresh_uuid : string;
  (** The LLM chain followed by [json.loads]: the members of the decoded
      object, or [None] when the chain or the decoding raises. *)
  llm_extract : string -> BookingState -> option (list (string * string));
  (** [AvailabilityChecker._fetch_salon_branches] (argument: the service
      type put in the query) and [Easysalon.get_services]: the records, or
      the text of the exception raised. An answer of [None] is the empty
      list. *)
  fetch_salon_branches : option string -> string + list choice;
  get_services : string + list choice;
  (** [Easysalon.book_appointment]: the decoded [data] object, or [None]
      when the HTTP layer failed ([APIService._post] swallows the error). *)
  book_appointment : booking_request -> option (list (string * jval));
  (** [dateparser.parse] followed by [strftime], for dates and for times. *)
  dateparser_date : string -> option string;
  dateparser_time : string -> option string
}.

(** ** The workflow *)

Section Workflow.

Context {world : Collaborators}.

Definition add_message (s : BookingState) (r c : string) : BookingState :=
  set_conversation_history (conversation_history s ++ [Message r c now]) s.

(** [session_id or str(uuid.uuid4())]. *)
Definition session_or_fresh (sid : option string) : option string :=
  if Py.truthy sid then sid else Some fresh_uuid.

Definition initialize_booking_state (sid : option string) : BookingState :=
  {| customer_mobile := None;
     customer_name := None;
     total_customer := Some 1%Z;
     branch_id := None;
     service_id := None;
     booking_date := None;
     booking_time := None;
     branch_options := [];
     service_options := [];
     conversation_history := [];
     current_step := "start";
     missing_fields := [];
     is_complete := false;
     error_message := None;
     session_id := session_or_fresh sid;
     edit_mode := false;
     last_user_intent := None;
     booking_summary_shown := false |}.

(** *** Nodes *)

Definition _start_node (s : BookingState) : BookingState :=
  let s := set_current_step "start" s in
  let s := if negb (Py.truthy (session_id s))
           then set_session_id (Some fresh_uuid) s else s in
  add_message s "system"
    ("Starting the appointment booking process. I'll help you book an appointment at EasySalon. "
     ++ "Please provide information like your name, phone number, preferred branch, service, date and time.").

Definition _handle_user_intent (s : BookingState) : BookingState :=
  let s := set_current_step "handle_user_intent" s in
  match latest_message "user" s with
  | Some latest_user_message =>
      let intent := detect_user_intent (content latest_user_message) in
      let s := set_last_user_intent (Some intent) s in
      if String.eqb intent "show_summary" then
        set_current_step "show_summary" s
      else if String.eqb intent "edit" then
        set_edit_mode true (set_current_step "handle_edit" s)
      else if String.eqb intent "start_over" then
        let sid := session_id s in
        let history := conversation_history s in
        let s := set_conversation_history history
                   (initialize_booking_state sid) in
        let s := add_message s "assistant"
                   "Let's start over with your booking. What would you like to book?" in
        set_current_step "start" s
      else if String.eqb intent "confirm" then
        set_current_step "confirm_details" s
      else if String.eqb intent "cancel" then
        let s := add_message s "assistant"
                   "Your booking has been cancelled. Feel free to start a new booking anytime!" in
        set_current_step "cancelled" s
      else s
  | None => s
  end.

Definition _show_summary (s : BookingState) : BookingState :=
  let s := set_current_step "show_summary" s in
  let summary := generate_booking_summary s in
  let s := add_message s "assistant" summary in
  set_booking_summary_shown true s.

Definition edit_options_text : string :=
  "I can help you edit any of the following:" ++ NL
  ++ "• Name - say 'edit name'" ++ NL
  ++ "• Phone - say 'edit phone'" ++ NL
  ++ "• Branch - say 'edit branch'" ++ NL
  ++ "• Service - say 'edit service'" ++ NL
  ++ "• Date - say 'edit date'" ++ NL
  ++ "• Time - say 'edit time'" ++ NL ++ NL
  ++ "What would you like to change?".

Definition _handle_edit (s : BookingState) : BookingState :=
  let s := set_current_step "handle_edit" s in
  match latest_message "user" s with
  | Some latest_user_message =>
      match handle_edit_command (content latest_user_message) with
      | (Some field_to_edit, next_step) =>
          let s := clear_field field_to_edit s in
          let s := if String.eqb field_to_edit "branch_id"
                   then set_branch_options [] s
                   else if String.eqb field_to_edit "service_id"
                   then set_service_options [] s
                   else s in
          let s := set_current_step next_step s in
          let field_display := Py.title (Py.replace_underscore field_to_edit) in
          let s := add_message s "assistant"
                     ("I'll help you update your " ++ field_display ++ ".") in
          update_missing_fields s
      | (None, _) =>
          let s := add_message s "assistant" edit_options_text in
          set_current_step "show_summary" s
      end
  | None => s
  end.

(** [for key, value in extraction_data.items()]: a member is stored unless
    it is [next_step], empty, or the text [Unknown]. *)
Fixpoint merge_extraction (data : list (string * string)) (s : BookingState)
  : BookingState :=
  match data with
  | [] => s
  | (key, value) :: rest =>
      if negb (String.eqb key "next_step") && Py.truthy (Some value)
         && negb (String.eqb value "Unknown")
      then merge_extraction rest (state_set key value s)
      else merge_extraction rest s
  end.

(** [_extract_with_llm]. When the chain or the decoding raises, the handler
    calls [self._extract_manually], which the class does not define: the
    [AttributeError] leaves the node, hence [None]. *)
Definition _extract_with_llm (s : BookingState) (user_message : string)
  : option BookingState :=
  match llm_extract user_message s with
  | Some extraction_data =>
      let s := merge_extraction extraction_data s in
      let s := update_missing_fields s in
      Some (update_missing_fields s)
  | None => None
  end.

Definition nonempty {A} (l : list A) : bool :=
  match l with
  | [] => false
  | _ :: _ => true
  end.

Definition _extract_booking_info (s : BookingState) : option BookingState :=
  let s := set_current_step "extract_info" s in
  match latest_message "user" s with
  | None => Some (add_message s "system" "No user message found.")
  | Some latest_user_message =>
      let user_message := content latest_user_message in
      let branch_pick :=
        if nonempty (branch_options s) && negb (Py.truthy (branch_id s))
        then _parse_selection user_message (branch_options s) else None in
      match branch_pick with
      | Some selection =>
          let s := set_branch_id (Some (Py.str_of_Z (choice_id selection))) s in
          let s := add_message s "system"
                     ("Selected branch: " ++ choice_name selection) in
          Some (update_missing_fields s)
      | None =>
          let service_pick :=
            if nonempty (service_options s) && negb (Py.truthy (service_id s))
            then _parse_selection user_message (service_options s)
            else None in
          match service_pick with
          | Some selection =>
              let s := set_service_id
                         (Some (Py.str_of_Z (choice_id selection))) s in
              let s := add_message s "system"
                         ("Selected service: " ++ choice_name selection) in
              Some (update_missing_fields s)
          | None => _extract_with_llm s user_message
          end
      end
  end.

(** The listing of at most five records, numbered from [i]. *)
Fixpoint branch_lines (i : nat) (branches : list choice) : string :=
  match branches with
  | [] => ""
  | branch :: rest =>
      "**" ++ Py.str_of_nat i ++ ". " ++ choice_name branch ++ "**" ++ NL
      ++ "   • Address: " ++ attr_or_na "address" (choice_attrs branch) ++ NL
      ++ "   • Phone: " ++ attr_or_na "mobile" (choice_attrs branch) ++ NL
      ++ "   • ID: " ++ Py.str_of_Z (choice_id branch) ++ NL
      ++ branch_lines (S i) rest
  end.

Fixpoint service_lines (i : nat) (services : list choice) : string :=
  match services with
  | [] => ""
  | service :: rest =>
      "**" ++ Py.str_of_nat i ++ ". " ++ choice_name service ++ "**" ++ NL
      ++ "   • Price: " ++ attr_or_na "price" (choice_attrs service) ++ " VND" ++ NL
      ++ "   • Duration: " ++ attr_or_na "time" (choice_attrs service)
      ++ " minutes" ++ NL
      ++ "   • ID: " ++ Py.str_of_Z (choice_id service) ++ NL
      ++ service_lines (S i) rest
  end.

Definition _query_branches (s : BookingState) : BookingState :=
  let s := set_current_step "query_branches" s in
  let pick :=
    if nonempty (branch_options s) && negb (Py.truthy (branch_id s)) then
      match latest_message "user" s with
      | Some latest_user_message =>
          _parse_selection (content latest_user_message) (branch_options s)
      | None => None
      end
    else None in
  match pick with
  | Some selection =>
      let s := set_branch_id (Some (Py.str_of_Z (choice_id selection))) s in
      let s := add_message s "system"
                 ("Selected branch: " ++ choice_name selection) in
      update_missing_fields s
  | None =>
      let service_type :=
        if Py.truthy (service_id s) then service_id s else None in
      match fetch_salon_branches service_type with
      | inr ((_ :: _) as branches) =>
          let s := set_branch_options branches s in
          let branch_info :=
            NL ++ NL ++ "**Available Branches:**" ++ NL
            ++ branch_lines 1 (firstn 5 branches) in
          add_message s "assistant"
            ("Here are some salon branches you can choose from: " ++ branch_info
             ++ NL ++ NL
             ++ "Please let me know which branch you'd prefer by name or number.")
      | inr [] =>
          add_message s "assistant"
            ("I couldn't find any salon branches. Could you please provide a location "
             ++ "or branch name you're interested in?")
      | inl e => add_message s "system" ("Error querying branches: " ++ e)
      end
  end.

Definition _query_services (s : BookingState) : BookingState :=
  let s := set_current_step "query_services" s in
  let pick :=
    if nonempty (service_options s) && negb (Py.truthy (service_id s)) then
      match latest_message "user" s with
      | Some latest_user_message =>
          _parse_selection (content latest_user_message) (service_options s)
      | None => None
      end
    else None in
  match pick with
  | Some selection =>
      let s := set_service_id (Some (Py.str_of_Z (choice_id selection))) s in
      let s := add_message s "system"
                 ("Selected service: " ++ choice_name selection) in
      update_missing_fields s
  | None =>
      match get_services with
      | inr ((_ :: _) as services) =>
          let s := set_service_options services s in
          let service_info :=
            NL ++ NL ++ "**Available Services:**" ++ NL
            ++ service_lines 1 (firstn 5 services) in
          add_message s "assistant"
            ("Here are some services you can choose from: " ++ service_info
             ++ NL ++ NL
             ++ "Please let me know which service you'd like by name or number.")
      | inr [] =>
          add_message s "assistant"
            ("I couldn't find any services. Could you please tell me what kind of "
             ++ "beauty service you're interested in?")
      | inl e => add_message s "system" ("Error querying services: " ++ e)
      end
  end.

Definition _collect_customer_info (s : BookingState) : BookingState :=
  let s := set_current_step "collect_customer_info" s in
  let missing :=
    List.app (if negb (Py.truthy (customer_name s)) then ["name"] else [])
      (if negb (Py.truthy (customer_mobile s)) then ["phone number"] else []) in
  match missing with
  | _ :: _ =>
      let missing_str := Py.join " and " missing in
      add_message s "assistant"
        ("To book your appointment, I need your " ++ missing_str ++ ". "
         ++ "Could you please provide this information?")
  | [] => set_current_step "confirm_details" s
  end.

(** The name looked up for a confirmation text: the cached list is
    searched only when the id and the list are both truthy. *)
Definition display_name (ident : option string) (opts : list choice)
  (default : string) : string :=
  if Py.truthy ident && nonempty opts
  then name_of_id (Py.str_of_opt ident) opts default
  else default.

Definition _confirm_details (s : BookingState) : BookingState :=
  let s := set_current_step "confirm_details" s in
  let s := update_missing_fields s in
  let branch_name :=
    display_name (branch_id s) (branch_options s) "Unknown branch" in
  let service_name :=
    display_name (service_id s) (service_options s) "Unknown service" in
  let confirmation_text :=
    "**Please confirm your booking details:**" ++ NL ++ NL
    ++ "• Name: " ++ Py.str_of_opt (customer_name s) ++ NL
    ++ "• Phone: " ++ Py.str_of_opt (customer_mobile s) ++ NL
    ++ "• Branch: " ++ branch_name
    ++ " (ID: " ++ Py.str_of_opt (branch_id s) ++ ")" ++ NL
    ++ "• Service: " ++ service_name
    ++ " (ID: " ++ Py.str_of_opt (service_id s) ++ ")" ++ NL
    ++ "• Date: " ++ Py.str_of_opt (booking_date s) ++ NL
    ++ "• Time: " ++ Py.str_of_opt (booking_time s) ++ NL
    ++ "• Number of people: " ++ str_of_people (total_customer s) ++ NL ++ NL
    ++ (match missing_fields s with
        | _ :: _ =>
            "⚠️ **The following information is still needed:** "
            ++ Py.join ", " (missing_fields s) ++ NL ++ NL
            ++ "Please provide the missing information so I can complete your booking."
        | [] =>
            "If everything looks correct, please type 'confirm' to book your appointment."
            ++ NL
            ++ "If you want to make changes, please let me know what you'd like to change."
        end) in
  add_message s "assistant" confirmation_text.

(** [convert_to_api_date] and [convert_to_api_time]. *)
Definition convert_to_api_date (date_str : option string) : option string :=
  match date_str with
  | Some (String _ _ as d) => dateparser_date d
  | _ => None
  end.

Definition convert_to_api_time (time_str : option string) : option string :=
  match time_str with
  | Some (String _ _ as t) => dateparser_time t
  | _ => None
  end.

(** [int(state[key]) if state[key] else fallback]; the left injection is
    the text of the [ValueError]. *)
Definition id_or_default (ident : option string) (fallback : Z) : string + Z :=
  match ident with
  | Some (String _ _ as i) =>
      match Py.int_of_str i with
      | Some z => inr z
      | None => inl ("invalid literal for int() with base 10: '" ++ i ++ "'")
      end
  | _ => inr fallback
  end.

(** The payload built at the top of [_create_booking], or the text of the
    exception raised before the gateway is called. *)
Definition build_booking_request (s : BookingState) : string + booking_request :=
  let api_date := convert_to_api_date (booking_date s) in
  let api_time := convert_to_api_time (booking_time s) in
  match id_or_default (branch_id s) default_branch_id with
  | inl e => inl e
  | inr branch =>
      match id_or_default (service_id s) default_service_id with
      | inl e => inl e
      | inr service =>
          inr {| req_customer_name := customer_name s;
                 req_customer_mobile := customer_mobile s;
                 req_total_customer := total_customer s;
                 req_branch_id := branch;
                 req_service_id := service;
                 req_booking_date := api_date;
                 req_booking_time := api_time |}
      end
  end.

(** The test [api_response and api_response.get("bookingCode", False) == True]. *)
Definition response_ok (api_response : option (list (string * jval))) : bool :=
  match api_response with
  | Some ((_ :: _) as d) =>
      match dict_get "bookingCode" d with
      | Some v => eq_True v
      | None => false
      end
  | _ => false
  end.

(** The value stored in [error_message] on the failure branch; a message
    that is not text is kept by its printed form. *)
Definition failure_message (api_response : option (list (string * jval)))
  : option string :=
  match api_response with
  | Some ((_ :: _) as d) =>
      match dict_get "message" d with
      | Some JNull => None
      | Some v => Some (str_of_jval v)
      | None => Some "Unknown error occurred"
      end
  | _ => Some "Failed to connect to booking service"
  end.

Definition confirmation_message (s : BookingState) (d : list (string * jval))
  : string :=
  "✅ **Booking Confirmed!**" ++ NL ++ NL
  ++ (match dict_get "id" d with
      | Some v => "• Booking ID: " ++ str_of_jval v ++ NL
      | None => ""
      end)
  ++ (match dict_get "bookingCode" d with
      | Some v => "• Confirmation Code: " ++ str_of_jval v ++ NL
      | None => ""
      end)
  ++ "• Customer: " ++ Py.str_of_opt (customer_name s) ++ NL
  ++ "• Phone: " ++ Py.str_of_opt (customer_mobile s) ++ NL
  ++ "• Branch: "
  ++ (if nonempty (branch_options s)
      then name_of_id (Py.str_of_opt (branch_id s)) (branch_options s)
                      "Unknown branch"
      else "Unknown branch") ++ NL
  ++ "• Service: "
  ++ (if nonempty (service_options s)
      then name_of_id (Py.str_of_opt (service_id s)) (service_options s)
                      "Unknown service"
      else "Unknown service") ++ NL
  ++ "• Date: " ++ Py.str_of_opt (booking_date s) ++ NL
  ++ "• Time: " ++ Py.str_of_opt (booking_time s) ++ NL ++ NL
  ++ "Thank you for booking with EasySalon! We look forward to seeing you.".

Definition failed_message (error_message : option string) : string :=
  "❌ **Booking Failed:** " ++ Py.str_of_opt error_message ++ NL ++ NL
  ++ "Let me help you fix the issue and try again.".

Definition error_message_text (e : string) : string :=
  "❌ **Booking Error:** I encountered an error while creating your booking."
  ++ NL ++ NL ++ "Error details: " ++ e ++ NL ++ NL
  ++ "Let me help you try again.".

Definition _create_booking (s : BookingState) : BookingState :=
  let s := set_current_step "create_booking" s in
  match build_booking_request s with
  | inr booking_request =>
      let api_response := book_appointment booking_request in
      if response_ok api_response then
        let d := match api_response with Some d => d | None => [] end in
        let s := add_message s "assistant" (confirmation_message s d) in
        set_is_complete true s
      else
        let error_message := failure_message api_response in
        let s := set_error_message error_message s in
        let s := add_message s "assistant" (failed_message error_message) in
        set_current_step "handle_error" s
  | inl e =>
      let s := set_error_message (Some e) s in
      let s := add_message s "assistant" (error_message_text e) in
      set_current_step "handle_error" s
  end.

(** [_handle_error]. [state.get("error_message", "Unknown error")] is
    [None] when the key holds [None], and [None.lower()] raises: [None]. *)
Definition _handle_error (s : BookingState) : option BookingState :=
  let s := set_current_step "handle_error" s in
  match error_message s with
  | None => None
  | Some error_msg =>
      let s :=
        if Py.contains "service" (Py.lower error_msg) then
          let s := add_message s "assistant"
                     ("It seems there was an issue with the service selection. "
                      ++ "Let me help you choose an available service.") in
          set_current_step "query_services" s
        else if Py.contains "branch" (Py.lower error_msg) then
          let s := add_message s "assistant"
                     ("It seems there was an issue with the branch selection. "
                      ++ "Let me help you choose an available branch.") in
          set_current_step "query_branches" s
        else if Py.contains "date" (Py.lower error_msg)
                || Py.contains "time" (Py.lower error_msg) then
          let s := add_message s "assistant"
                     ("It seems there was an issue with the booking date or time. "
                      ++ "Please provide a different date or time for your appointment.") in
          let s := set_booking_date None s in
          let s := set_booking_time None s in
          let s := update_missing_fields s in
          set_current_step "collect_customer_info" s
        else
          let s := add_message s "assistant"
                     ("Let's try again with your booking. "
                      ++ "Please confirm your information again.") in
          set_current_step "confirm_details" s in
      Some (set_error_message None s)
  end.

(** *** Conditional routing functions *)

Definition control_intents : list string :=
  ["edit"; "show_summary"; "start_over"; "confirm"; "cancel"].

Definition selection_words : list string :=
  ["1"; "2"; "3"; "4"; "5"; "first"; "second"; "third"].

(** A list was shown for the field and no id has been picked yet. *)
Definition branch_pending (s : BookingState) : bool :=
  nonempty (branch_options s) && negb (Py.truthy (branch_id s)).

Definition service_pending (s : BookingState) : bool :=
  nonempty (service_options s) && negb (Py.truthy (service_id s)).

(** The tail of [_route_after_extraction]: "logic based on missing
    information". *)
Definition route_by_missing (s : BookingState) : string :=
  if negb (Py.truthy (branch_id s)) then "query_branches"
  else if negb (Py.truthy (service_id s)) then "query_services"
  else if negb (Py.truthy (customer_name s))
          || negb (Py.truthy (customer_mobile s)) then "collect_customer_info"
  else "confirm_details".

Definition _route_after_extraction (s : BookingState) : string :=
  match latest_message "user" s with
  | Some latest_user_message =>
      let intent := detect_user_intent (content latest_user_message) in
      if Py.mem intent control_intents then "handle_user_intent"
      else
        let content := Py.lower (content latest_user_message) in
        if service_pending s && Py.any_in selection_words content then
          "query_services"
        else if branch_pending s && Py.any_in selection_words content then
          "query_branches"
        else if negb (branch_pending s || service_pending s)
                && (Py.contains "branch" content || Py.contains "salon" content
                    || Py.contains "location" content) then
          "query_branches"
        else if negb (branch_pending s || service_pending s)
                && (Py.contains "service" content
                    || Py.contains "treatment" content) then
          "query_services"
        else route_by_missing s
  | None => route_by_missing s
  end.

(** [state.get("last_user_intent", "provide_info")]: the key is always
    present, so an unset intent reads as [None] and takes the last branch. *)
Definition _route_user_intent (s : BookingState) : string :=
  match last_user_intent s with
  | Some intent =>
      if String.eqb intent "show_summary" then "show_summary"
      else if String.eqb intent "edit" then "handle_edit"
      else if String.eqb intent "start_over" then "start_over"
      else if String.eqb intent "confirm" then "confirm_details"
      else if String.eqb intent "cancel" then "end"
      else "extract_info"
  | None => "extract_info"
  end.

Definition _route_after_edit (s : BookingState) : string :=
  if String.eqb (current_step s) "query_branches" then "query_branches"
  else if String.eqb (current_step s) "query_services" then "query_services"
  else if String.eqb (current_step s) "collect_customer_info"
  then "collect_customer_info"
  else "show_summary".

Definition _check_if_options_shown (s : BookingState) : string :=
  match latest_message "assistant" s with
  | Some latest_assistant_message =>
      let content := content latest_assistant_message in
      if Py.contains "Available Branches:" content
         || Py.contains "Available Services:" content
         || Py.contains "Please let me know which" content
      then "end" else "end"
  | None => "end"
  end.

Definition _check_if_customer_info_collected (s : BookingState) : string :=
  match latest_message "assistant" s with
  | Some latest_assistant_message =>
      let content := content latest_assistant_message in
      if Py.contains "I need your" content
         && (Py.contains "name" content || Py.contains "phone" content)
      then "end" else "end"
  | None => "end"
  end.

(** [_check_booking_completeness] recomputes the missing fields in the
    state it is given, so it returns the state with its answer. *)
Definition _check_booking_completeness (s : BookingState)
  : BookingState * string :=
  let s := update_missing_fields s in
  match latest_message "user" s with
  | Some latest_user_message =>
      let user_content := Py.lower (content latest_user_message) in
      if Py.contains "confirm" user_content then
        match missing_fields s with
        | [] => (s, "create_booking")
        | _ :: _ => (s, "end")
        end
      else (s, "end")
  | None => (s, "end")
  end.

Definition _check_booking_success (s : BookingState) : string :=
  if is_complete s then "end" else "handle_error".

(** *** The compiled graph *)

Inductive node :=
| N_start
| N_extract_info
| N_handle_user_intent
| N_show_summary
| N_handle_edit
| N_query_branches
| N_query_services
| N_collect_customer_info
| N_confirm_details
| N_create_booking
| N_handle_error.

Inductive target :=
| Goto (n : node)
| END.

(** Result of running one node and choosing its outgoing edge. *)
Inductive step_result :=
| Next (n : node) (s : BookingState)
| Done (s : BookingState)
| Raised.

Fixpoint edge_lookup (key : string) (mapping : list (string * target))
  : option target :=
  match mapping with
  | [] => None
  | (k, t) :: rest => if String.eqb k key then Some t else edge_lookup key rest
  end.

(** A conditional edge: the router's answer is looked up in the mapping
    given to [add_conditional_edges]; an answer outside it is an error. *)
Definition follow (mapping : list (string * target)) (key : string)
  (s : BookingState) : step_result :=
  match edge_lookup key mapping with
  | Some (Goto n) => Next n s
  | Some END => Done s
  | None => Raised
  end.

Definition after_extraction_edges : list (string * target) :=
  [("handle_user_intent", Goto N_handle_user_intent);
   ("query_branches", Goto N_query_branches);
   ("query_services", Goto N_query_services);
   ("collect_customer_info", Goto N_collect_customer_info);
   ("confirm_details", Goto N_confirm_details)].

Definition user_intent_edges : list (string * target) :=
  [("show_summary", Goto N_show_summary);
   ("handle_edit", Goto N_handle_edit);
   ("start_over", Goto N_start);
   ("confirm_details", Goto N_confirm_details);
   ("extract_info", Goto N_extract_info);
   ("end", END)].

Definition after_edit_edges : list (string * target) :=
  [("query_branches", Goto N_query_branches);
   ("query_services", Goto N_query_services);
   ("collect_customer_info", Goto N_collect_customer_info);
   ("show_summary", Goto N_show_summary)].

Definition end_only_edges : list (string * target) := [("end", END)].

Definition completeness_edges : list (string * target) :=
  [("create_booking", Goto N_create_booking); ("end", END)].

Definition booking_success_edges : list (string * target) :=
  [("end", END); ("handle_error", Goto N_handle_error)].

(** One node of [_create_workflow_graph] followed by its edge. *)
Definition graph_step (n : node) (s : BookingState) : step_result :=
  match n with
  | N_start => Next N_extract_info (_start_node s)
  | N_extract_info =>
      match _extract_booking_info s with
      | Some s' => follow after_extraction_edges (_route_after_extraction s') s'
      | None => Raised
      end
  | N_handle_user_intent =>
      let s' := _handle_user_intent s in
      follow user_intent_edges (_route_user_intent s') s'
  | N_show_summary => Done (_show_summary s)
  | N_handle_edit =>
      let s' := _handle_edit s in
      follow after_edit_edges (_route_after_edit s') s'
  | N_query_branches =>
      let s' := _query_branches s in
      follow end_only_edges (_check_if_options_shown s') s'
  | N_query_services =>
      let s' := _query_services s in
      follow end_only_edges (_check_if_options_shown s') s'
  | N_collect_customer_info =>
      let s' := _collect_customer_info s in
      follow end_only_edges (_check_if_customer_info_collected s') s'
  | N_confirm_details =>
      let '(s', answer) := _check_booking_completeness (_confirm_details s) in
      follow completeness_edges answer s'
  | N_create_booking =>
      let s' := _create_booking s in
      follow booking_success_edges (_check_booking_success s') s'
  | N_handle_error =>
      match _handle_error s with
      | Some s' => Next N_extract_info s'
      | None => Raised
      end
  end.

(** A bounded run from node [n]: the nodes entered, each with the state it
    was entered in, and the final state. No final state means that a node
    raised or that the bound was reached before [END]. *)
Fixpoint run (fuel : nat) (n : node) (s : BookingState)
  : list (node * BookingState) * option BookingState :=
  match fuel with
  | O => ([], None)
  | S fuel' =>
      match graph_step n s with
      | Next n' s' =>
          let '(visited, final) := run fuel' n' s' in ((n, s) :: visited, final)
      | Done s' => ([(n, s)], Some s')
      | Raised => ([(n, s)], None)
      end
  end.

(** The graph library's default bound on the steps of one invocation. *)
Definition recursion_limit : nat := 25.

(** [self.workflow.invoke(state)]: a run from the entry point. *)
Definition invoke (s : BookingState) : list (node * BookingState) * option BookingState :=
  run recursion_limit N_start s.

(** The gateway calls of a run: one per visit of [create_booking] whose
    payload could be built. *)
Fixpoint gateway_calls (visited : list (node * BookingState))
  : list booking_request :=
  match visited with
  | [] => []
  | (N_create_booking, s) :: rest =>
      match build_booking_request (set_current_step "create_booking" s) with
      | inr request => request :: gateway_calls rest
      | inl _ => gateway_calls rest
      end
  | _ :: rest => gateway_calls rest
  end.

(** *** Public API *)

Record workflow_result := WorkflowResult {
  wr_state : BookingState;
  wr_response : option string;
  wr_is_complete : bool
}.

Definition result_of (final : BookingState) : workflow_result :=
  {| wr_state := final;
     wr_response := option_map content (latest_message "assistant" final);
     wr_is_complete := is_complete final |}.

(** [for key, value in initial_info.items(): if value: ...]. *)
Fixpoint prepopulate (initial_info : list (string * string)) (s : BookingState)
  : BookingState :=
  match initial_info with
  | [] => s
  | (key, value) :: rest =>
      if Py.truthy (Some value) then prepopulate rest (state_set key value s)
      else prepopulate rest s
  end.

Definition start_workflow (user_query : string)
  (initial_info : list (string * string)) : option workflow_result :=
  let initial_state := initialize_booking_state None in
  let initial_state := prepopulate initial_info initial_state in
  let initial_state := add_message initial_state "user" user_query in
  option_map result_of (snd (invoke initial_state)).

Definition continue_workflow (state : BookingState) (user_message : string)
  : option workflow_result :=
  let current_state := add_message state "user" user_message in
  let current_state := set_current_step "extract_info" current_state in
  option_map result_of (snd (invoke current_state)).

(** ** Session handling of [chatbot.py] *)

(** The marker looked for by [_is_booking_truly_complete], byte for byte
    as [chatbot.py] has it. *)
Definition confirmed_marker : string := "‚úÖ **Booking Confirmed!**".

Fixpoint has_confirmation (msgs : list message) : bool :=
  match msgs with
  | [] => false
  | msg :: rest =>
      if String.eqb (role msg) "assistant"
         && Py.contains confirmed_marker (content msg)
      then true else has_confirmation rest
  end.

Definition _is_booking_truly_complete (workflow_result : workflow_result)
  : bool :=
  if negb (wr_is_complete workflow_result) then false
  else
    let state := wr_state workflow_result in
    if has_confirmation (rev (conversation_history state)) then true
    else if String.eqb (current_step state) "create_booking"
            && is_complete state then true
    else false.

(** An entry of [active_booking_sessions]. *)
Record session_data := SessionData {
  state : BookingState;
  started_at : string
}.

Definition apology : string :=
  "Sorry, I encountered an error. Please try rephrasing your question.".

(** The booking branch of [handle_question], taken when the message is a
    booking request or the key has a session: the registry after the turn
    and the reply. A workflow that raises reaches the outer handler, which
    deletes the session and apologises. *)
Definition handle_booking_question (sessions : gmap string session_data)
  (user_session_id user_input : string)
  (extracted_info : list (string * string)) (friendly_prompt : string)
  : gmap string session_data * option string :=
  match sessions !! user_session_id with
  | None =>
      match start_workflow user_input extracted_info with
      | Some workflow_result =>
          let sessions :=
            <[user_session_id :=
                {| state := wr_state workflow_result; started_at := now |}]>
              sessions in
          let response :=
            match wr_response workflow_result with
            | Some (String _ _ as r) =>
                if Py.truthy (Some friendly_prompt)
                then Some (friendly_prompt ++ NL ++ NL ++ r) else Some r
            | _ => Some friendly_prompt
            end in
          if _is_booking_truly_complete workflow_result
          then (delete user_session_id sessions, response)
          else (sessions, response)
      | None => (delete user_session_id sessions, Some apology)
      end
  | Some data =>
      match continue_workflow (state data) user_input with
      | Some workflow_result =>
          let sessions :=
            <[user_session_id :=
                {| state := wr_state workflow_result;
                   started_at := started_at data |}]> sessions in
          let response := wr_response workflow_result in
          if _is_booking_truly_complete workflow_result
          then (delete user_session_id sessions, response)
          else (sessions, response)
      | None => (delete user_session_id sessions, Some apology)
      end
  end.



(** *** Sweeping and clearing the registry *)

(** [cleanup_inactive_sessions]. The first loop collects the keys whose
    session is older than the limit; [age_exceeds started_at limit] stands
    for the comparison of [(now - fromisoformat(started_at))] in minutes
    with the limit, [None] when [fromisoformat] raises. An exception
    leaves the loop before anything is deleted and the function returns
    zero. *)
Fixpoint scan_inactive (older : string -> option bool)
  (items : list (string * session_data)) : option (list string) :=
  match items with
  | [] => Some []
  | (session_id, data) :: rest =>
      match older (started_at data) with
      | None => None
      | Some old =>
          match scan_inactive older rest with
          | None => None
          | Some sessions_to_remove =>
              Some (if old then session_id :: sessions_to_remove
                    else sessions_to_remove)
          end
      end
  end.

Definition cleanup_inactive_sessions (age_exceeds : string -> Z -> option bool)
  (max_age_minutes : Z) (sessions : gmap string session_data)
  : gmap string session_data * nat :=
  match scan_inactive (fun t => age_exceeds t max_age_minutes)
          (map_to_list sessions) with
  | Some sessions_to_remove =>
      (foldl (fun m session_id => delete session_id m) sessions
         sessions_to_remove,
       List.length sessions_to_remove)
  | None => (sessions, 0)
  end.

(** [clear_booking_session]: the registry and the text returned. *)
Definition clear_booking_session (session_id : option string)
  (sessions : gmap string session_data)
  : gmap string session_data * string :=
  match session_id with
  | Some (String _ _ as sid) =>
      match sessions !! sid with
      | Some _ => (delete sid sessions, "Cleared booking session: " ++ sid)
      | None => (sessions, "No active session found: " ++ sid)
      end
  | _ =>
      (∅, "Cleared " ++ Py.str_of_nat (size sessions) ++ " booking session(s)")
  end.

(** ** Specification-side definitions *)

(** The classifier as the specification words it: an ordered list of
    rules, each a test on the trimmed lower-cased message with the intent
    it yields; the first rule that holds wins, [provide_info] otherwise. *)
Definition keyword_rule (keywords : list string) (t : string) : bool :=
  existsb (fun w => Py.contains w t) keywords.

Definition exact_rule (tokens : list string) (t : string) : bool :=
  existsb (String.eqb t) tokens.

Definition intent_priority : list ((string -> bool) * string) :=
  [(keyword_rule ["edit"; "change"; "modify"; "update"], "edit");
   (keyword_rule ["summary"; "status"; "show"; "review"; "details"],
    "show_summary");
   (keyword_rule ["start over"; "restart"; "begin again"; "reset"],
    "start_over");
   (keyword_rule ["confirm booking"; "confirm appointment"; "yes confirm";
                  "proceed with booking"], "confirm");
   (exact_rule ["confirm"; "yes"; "ok"; "proceed"; "go ahead"], "confirm");
   (keyword_rule ["cancel"; "stop"; "quit"; "exit"], "cancel")].

Fixpoint first_match (rules : list ((string -> bool) * string)) (t : string)
  (default : string) : string :=
  match rules with
  | [] => default
  | (test, intent) :: rest =>
      if test t then intent else first_match rest t default
  end.

Definition classify_spec (text : string) : string :=
  first_match intent_priority (Py.strip (Py.lower text)) "provide_info".

Definition six_intents : list string :=
  ["edit"; "show_summary"; "start_over"; "confirm"; "cancel"; "provide_info"].

(** The selection matcher as the specification words it: the first
    position among the first five whose ordinal test holds, else the first
    option whose lower-cased name occurs in the lower-cased message. *)
Definition ordinal_test (user_msg : string) (i : nat) : bool :=
  String.eqb (Py.strip user_msg) (Py.str_of_nat i)
  || existsb (fun pattern => Py.contains pattern user_msg) (ordinal_patterns i).

Definition match_spec (text : string) (options : list choice)
  : option choice :=
  let user_msg := Py.lower text in
  match find (ordinal_test user_msg)
             (seq 1 (Nat.min 5 (List.length options))) with
  | Some i => nth_error options (i - 1)
  | None =>
      find (fun option => Py.contains (Py.lower (choice_name option)) user_msg)
           options
  end.

(** The message test of [_check_booking_completeness]. *)
Definition confirmation_trigger (user_message : string) : bool :=
  Py.contains "confirm" (Py.lower user_message).

(** A sequence of field-clearing edits, applied left to right. *)
Definition clear_fields (fields : list string) (s : BookingState)
  : BookingState :=
  fold_left (fun acc field => clear_field field acc) fields s.

(** The frame of an edit of [field]: every booking field other than
    [field], each options cache not paired with it, and the session and
    control flags keep their values. *)
Definition edit_frame (field : string) (s s' : BookingState) : Prop :=
  (field <> "customer_mobile" -> customer_mobile s' = customer_mobile s)
  /\ (field <> "customer_name" -> customer_name s' = customer_name s)
  /\ (field <> "total_customer" -> total_customer s' = total_customer s)
  /\ (field <> "branch_id" ->
      branch_id s' = branch_id s /\ branch_options s' = branch_options s)
  /\ (field <> "service_id" ->
      service_id s' = service_id s /\ service_options s' = service_options s)
  /\ (field <> "booking_date" -> booking_date s' = booking_date s)
  /\ (field <> "booking_time" -> booking_time s' = booking_time s)
  /\ error_message s' = error_message s
  /\ session_id s' = session_id s
  /\ edit_mode s' = edit_mode s
  /\ last_user_intent s' = last_user_intent s
  /\ booking_summary_shown s' = booking_summary_shown s.

(** What an edit of [field] clears: the field, and for a branch or a
    service its options cache. *)
Definition edit_cleared (field : string) (s' : BookingState) : Prop :=
  (field = "customer_mobile" -> customer_mobile s' = None)
  /\ (field = "customer_name" -> customer_name s' = None)
  /\ (field = "total_customer" -> total_customer s' = None)
  /\ (field = "branch_id" -> branch_id s' = None /\ branch_options s' = [])
  /\ (field = "service_id" -> service_id s' = None /\ service_options s' = [])
  /\ (field = "booking_date" -> booking_date s' = None)
  /\ (field = "booking_time" -> booking_time s' = None).

(** The fields the keyword table can name. *)
Definition editable_fields : list string :=
  ["customer_name"; "customer_mobile"; "branch_id"; "service_id";
   "booking_date"; "booking_time"; "total_customer"].

(** The two message-driven rules that [_route_after_extraction] tries
    before the precedence on missing fields: a selection word while a
    shown list awaits its pick, and a catalogue word outside that mode. *)
Definition selection_reply (s : BookingState) (text : string) : bool :=
  (service_pending s || branch_pending s)
  && Py.any_in selection_words (Py.lower text).

Definition catalogue_request (s : BookingState) (text : string) : bool :=
  negb (branch_pending s || service_pending s)
  && Py.any_in ["branch"; "salon"; "location"; "service"; "treatment"]
       (Py.lower text).

(** The state in which [create_booking] may be entered: nothing is
    missing, the flag derived from it is set, and the latest user message
    carries the confirmation trigger. *)
Definition ready (s : BookingState) : Prop :=
  is_complete s = true
  /\ missing_fields s = []
  /\ get_missing_fields s = []
  /\ exists m, latest_message "user" s = Some m
              /\ confirmation_trigger (content m) = true.

(** The trigger test on the latest user message, false without one. *)
Definition confirmed_by_user (s : BookingState) : bool :=
  match latest_message "user" s with
  | Some m => confirmation_trigger (content m)
  | None => false
  end.

(** The state leaving the confirmation step. *)
Definition after_confirmation (s : BookingState) : BookingState :=
  update_missing_fields (_confirm_details s).

(** The property kept along a run: the error node is not entered, and
    [create_booking] is entered only in a ready state. *)
Definition well_entered (n : node) (s : BookingState) : Prop :=
  n <> N_handle_error /\ (n = N_create_booking -> ready s).

(** The workflow call made by [handle_booking_question] for a key. *)
Definition turn_result (sessions : gmap string session_data)
  (user_session_id user_input : string)
  (extracted_info : list (string * string)) : option workflow_result :=
  match sessions !! user_session_id with
  | None => start_workflow user_input extracted_info
  | Some data => continue_workflow (state data) user_input
  end.

(** The state handed to the graph in a turn: a fresh pre-populated state
    for a new key ([start_workflow]), the stored one reset to
    [extract_info] otherwise ([continue_workflow]), the user message
    appended in both cases. *)
Definition turn_input (sessions : gmap string session_data)
  (user_session_id user_input : string)
  (extracted_info : list (string * string)) : BookingState :=
  match sessions !! user_session_id with
  | None =>
      add_message (prepopulate extracted_info (initialize_booking_state None))
        "user" user_input
  | Some data =>
      set_current_step "extract_info"
        (add_message (state data) "user" user_input)
  end.

(** Successive turns of one key through [handle_booking_question], with
    nothing pre-extracted and no friendly prompt: the registry at the end. *)
Fixpoint converse (sessions : gmap string session_data)
  (user_session_id : string) (texts : list string)
  : gmap string session_data :=
  match texts with
  | [] => sessions
  | text :: rest =>
      converse
        (fst (handle_booking_question sessions user_session_id text [] ""))
        user_session_id rest
  end.

(** The gateway calls made during those turns, in order. *)
Fixpoint calls_during (sessions : gmap string session_data)
  (user_session_id : string) (texts : list string) : list booking_request :=
  match texts with
  | [] => []
  | text :: rest =>
      (gateway_calls
         (fst (invoke (turn_input sessions user_session_id text [])))
       ++ calls_during
            (fst (handle_booking_question sessions user_session_id text [] ""))
            user_session_id rest)%list
  end.

(** The log of [s'] is the log of [s] followed by messages of the
    workflow's own (none of them a user message). *)
Definition log_extends (s s' : BookingState) : Prop :=
  exists added,
    conversation_history s' = (conversation_history s ++ added)%list
    /\ List.Forall (fun msg => role msg <> "user") added.

(** The booking data of two states agree: the seven booking fields, both
    option caches, the derived missing list and flag, and the stored
    error text. *)
Definition same_booking_data (s s' : BookingState) : Prop :=
  customer_mobile s' = customer_mobile s
  /\ customer_name s' = customer_name s
  /\ total_customer s' = total_customer s
  /\ branch_id s' = branch_id s
  /\ service_id s' = service_id s
  /\ booking_date s' = booking_date s
  /\ booking_time s' = booking_time s
  /\ branch_options s' = branch_options s
  /\ service_options s' = service_options s
  /\ missing_fields s' = missing_fields s
  /\ is_complete s' = is_complete s
  /\ error_message s' = error_message s
  /\ session_id s' = session_id s.

(** The latest user message of [s] is classified as [intent]. *)
Definition latest_intent (s : BookingState) (intent : string) : Prop :=
  exists m, latest_message "user" s = Some m
            /\ detect_user_intent (content m) = intent.

(** The part of the graph a start-over message stays in. *)
Definition start_over_cycle (n : node) (s : BookingState) : Prop :=
  (n = N_start \/ n = N_extract_info \/ n = N_handle_user_intent)
  /\ latest_intent s "start_over".

(** The session is older than the limit. *)
Definition expired (age_exceeds : string -> Z -> option bool)
  (max_age_minutes : Z) (data : session_data) : bool :=
  match age_exceeds (started_at data) max_age_minutes with
  | Some true => true
  | _ => false
  end.

(** No character of the string is a blank. *)
Fixpoint no_blank (s : string) : bool :=
  match s with
  | EmptyString => true
  | String c s' => negb (Py.isspace c) && no_blank s'
  end.

(** Every member of the extraction is [next_step], empty, or the text
    [Unknown]. *)
Definition nothing_usable (data : list (string * string)) : Prop :=
  List.Forall (fun member => fst member = "next_step" \/ snd member = ""
                             \/ snd member = "Unknown") data.

(** The ids of a list of catalogue records, as the workflow stores them. *)
Definition stored_ids (options : list choice) : list (option string) :=
  map (fun o => Some (Py.str_of_Z (choice_id o))) options.

(** The seven booking fields of two states agree. *)
Definition same_booking_fields (s s' : BookingState) : Prop :=
  customer_mobile s' = customer_mobile s
  /\ customer_name s' = customer_name s
  /\ total_customer s' = total_customer s
  /\ branch_id s' = branch_id s
  /\ service_id s' = service_id s
  /\ booking_date s' = booking_date s
  /\ booking_time s' = booking_time s.

(** The booking fields other than the branch, with the service cache. *)
Definition booking_fields_but_branch (s s' : BookingState) : Prop :=
  customer_mobile s' = customer_mobile s
  /\ customer_name s' = customer_name s
  /\ total_customer s' = total_customer s
  /\ service_id s' = service_id s
  /\ service_options s' = service_options s
  /\ booking_date s' = booking_date s
  /\ booking_time s' = booking_time s.

(** The booking fields other than the service, with the branch cache. *)
Definition booking_fields_but_service (s s' : BookingState) : Prop :=
  customer_mobile s' = customer_mobile s
  /\ customer_name s' = customer_name s
  /\ total_customer s' = total_customer s
  /\ branch_id s' = branch_id s
  /\ branch_options s' = branch_options s
  /\ booking_date s' = booking_date s
  /\ booking_time s' = booking_time s.

(** ** Examples used below *)

Definition two_branches : list choice :=
  [Choice 1 "Downtown" []; Choice 2 "Uptown" []].

(** All six required fields are filled and the session sits at the
    confirmation step. *)
Definition filled_state : BookingState :=
  {| customer_mobile := Some "555-1234";
     customer_name := Some "Jane";
     total_customer := Some 1%Z;
     branch_id := Some "1";
     service_id := Some "7";
     booking_date := Some "2026-12-01";
     booking_time := Some "14:00";
     branch_options := two_branches;
     service_options := [Choice 7 "Classic Haircut" []];
     conversation_history := [];
     current_step := "confirm_details";
     missing_fields := [];
     is_complete := false;
     error_message := None;
     session_id := Some "session-1";
     edit_mode := false;
     last_user_intent := None;
     booking_summary_shown := false |}.

(** A user message appended to the log. *)
Definition said (text : string) (s : BookingState) : BookingState :=
  set_conversation_history
    (conversation_history s ++ [Message "user" text "2026-11-30T10:00:00"])
    s.

(** Collaborators for the examples: an extractor that finds nothing or
    one that reads Jane's details, a catalogue with two branches and one
    service, a parser that returns its input, and three gateways. *)
Definition quiet_llm (text : string) (s : BookingState)
  : option (list (string * string)) := Some [].

Definition jane_llm (text : string) (s : BookingState)
  : option (list (string * string)) :=
  Some [("customer_name", "Jane"); ("customer_mobile", "555-1234");
        ("booking_date", "2026-12-01"); ("booking_time", "14:00");
        ("next_step", "collect_customer_info")].

Definition sample_branches (service_type : option string)
  : string + list choice := inr two_branches.

Definition sample_services : string + list choice :=
  inr [Choice 7 "Classic Haircut" []].

Definition same_text (text : string) : option string := Some text.

(** Answers with a booking id and a confirmation code. *)
Definition gateway_with_code (request : booking_request)
  : option (list (string * jval)) :=
  Some [("id", JInt 42); ("bookingCode", JStr "BK001")].

(** Answers with the boolean [true] under [bookingCode]. *)
Definition gateway_with_flag (request : booking_request)
  : option (list (string * jval)) :=
  Some [("id", JInt 42); ("bookingCode", JBool true)].

(** Rejects the booking with a message about the date. *)
Definition gateway_rejecting_date (request : booking_request)
  : option (list (string * jval)) :=
  Some [("message", JStr "Invalid date")].

Definition sample_world
  (extractor : string -> BookingState -> option (list (string * string)))
  (gateway : booking_request -> option (list (string * jval)))
  : Collaborators :=
  {| now := "2026-11-30T10:00:00";
     fresh_uuid := "3f2b8c1e-0000-4000-8000-000000000001";
     llm_extract := extractor;
     fetch_salon_branches := sample_branches;
     get_services := sample_services;
     book_appointment := gateway;
     dateparser_date := same_text;
     dateparser_time := same_text |}.

(** The user's side of the happy-path dialogue, up to the summary. *)
Definition jane_until_summary : list string :=
  ["I'd like a haircut tomorrow at 2pm, I'm Jane, 555-1234"; "1";
   "Classic Haircut"].

(** A registry with two sessions, and a clock for which only the start
    time "2026-11-30T09:00:00" is older than the limit. *)
Definition two_sessions : gmap string session_data :=
  <["ann" := SessionData filled_state "2026-11-30T09:00:00"]>
    (<["bob" := SessionData filled_state "2026-11-30T09:55:00"]> ∅).

Definition early_start_is_old (started_at : string) (max_age_minutes : Z)
  : option bool :=
  Some (String.eqb started_at "2026-11-30T09:00:00").

(** An extractor whose answer has nothing usable. *)
Definition vague_llm (text : string) (s : BookingState)
  : option (list (string * string)) :=
  Some [("customer_name", "Unknown"); ("booking_date", "");
        ("next_step", "collect_customer_info")].

(** ** Properties *)

(** *** Missing-field tracking *)

Lemma state_get_update_missing_fields (s : BookingState) (field : string) :
  In field required_fields ->
  state_get (update_missing_fields s) field = state_get s field.
Proof.
  intros Hin. unfold required_fields in Hin. simpl in Hin.
  repeat (destruct Hin as [<- | Hin]; [reflexivity |]). contradiction.
Qed.

Lemma in_missing_among (s : BookingState) (fields : list string)
  (field : string) :
  In field (missing_among s fields) <->
  In field fields /\ Py.truthy (state_get s field) = false.
Proof.
  induction fields as [| f rest IH]; simpl.
  - tauto.
  - destruct (Py.truthy (state_get s f)) eqn:Hf; simpl; rewrite IH.
    + split.
      * intros [Hin Hfalse]. auto.
      * intros [[-> | Hin] Hfalse]; [congruence | auto].
    + split.
      * intros [-> | [Hin Hfalse]]; auto.
      * intros [[-> | Hin] Hfalse]; auto.
Qed.

Lemma NoDup_missing_among (s : BookingState) (fields : list string) :
  List.NoDup fields -> List.NoDup (missing_among s fields).
Proof.
  induction 1 as [| f rest Hnotin Hnodup IH]; simpl.
  - constructor.
  - destruct (Py.truthy (state_get s f)); simpl; [exact IH |].
    constructor; [| exact IH].
    intros Hin. apply in_missing_among in Hin. tauto.
Qed.

Lemma NoDup_required_fields : List.NoDup required_fields.
Proof.
  unfold required_fields.
  repeat (constructor; [simpl; intros H; repeat (destruct H as [H | H]; [discriminate |]); exact H |]).
  constructor.
Qed.

Lemma missing_fields_update (s : BookingState) :
  missing_fields (update_missing_fields s) = get_missing_fields s.
Proof. reflexivity. Qed.

Lemma is_complete_update (s : BookingState) :
  is_complete (update_missing_fields s)
  = Nat.eqb (List.length (get_missing_fields s)) 0.
Proof. reflexivity. Qed.

(** C5. After [update_missing_fields], whatever sequence of field-clearing
    edits produced the state, [missing_fields] holds exactly the required
    fields whose value is falsy in that state, each once: nothing stale,
    nothing omitted. *)
Theorem C5_missing_fields_exact (s : BookingState) (edits : list string)
  (field : string) :
  let s' := update_missing_fields (clear_fields edits s) in
  (In field (missing_fields s') <->
   In field required_fields /\ Py.truthy (state_get s' field) = false)
  /\ List.NoDup (missing_fields s').
Proof.
  intros s'. subst s'. rewrite missing_fields_update. unfold get_missing_fields.
  split.
  - rewrite in_missing_among. split.
    + intros [Hin Hfalse]. split; [exact Hin |].
      rewrite state_get_update_missing_fields by exact Hin. exact Hfalse.
    + intros [Hin Hfalse]. split; [exact Hin |].
      rewrite state_get_update_missing_fields in Hfalse by exact Hin.
      exact Hfalse.
  - apply NoDup_missing_among, NoDup_required_fields.
Qed.

(** *** Intent classification *)

Lemma any_in_existsb (words : list string) (t : string) :
  Py.any_in words t = existsb (fun w => Py.contains w t) words.
Proof.
  induction words as [| w ws IH]; simpl; [reflexivity |].
  destruct (Py.contains w t); [reflexivity | exact IH].
Qed.

Lemma mem_existsb (t : string) (tokens : list string) :
  Py.mem t tokens = existsb (String.eqb t) tokens.
Proof.
  induction tokens as [| w ws IH]; simpl; [reflexivity |].
  destruct (String.eqb t w); [reflexivity | exact IH].
Qed.

Lemma detect_user_intent_spec (text : string) :
  detect_user_intent text = classify_spec text.
Proof.
  unfold detect_user_intent, classify_spec, intent_priority, first_match,
    keyword_rule, exact_rule.
  rewrite !any_in_existsb, mem_existsb. reflexivity.
Qed.

Lemma detect_user_intent_range (text : string) :
  In (detect_user_intent text) six_intents.
Proof.
  unfold detect_user_intent, six_intents.
  repeat match goal with
         | |- context [if ?c then _ else _] => destruct c
         end; simpl; tauto.
Qed.

(** C7. The classifier is a total function into the six intents that
    agrees, on every message, with the first-match evaluation of the rules
    in the order edit, show-summary, start-over, confirm phrases, exact
    confirm tokens (compared with the whole trimmed lower-cased message),
    cancel, and [provide_info] when no rule holds; the four sample
    messages get the stated intents. *)
Theorem C7_intent_classifier (text : string) :
  detect_user_intent text = classify_spec text
  /\ In (detect_user_intent text) six_intents
  /\ detect_user_intent "I want to book a haircut" = "provide_info"
  /\ detect_user_intent "confirm" = "confirm"
  /\ detect_user_intent "edit phone" = "edit"
  /\ detect_user_intent "show me the summary" = "show_summary".
Proof.
  split; [apply detect_user_intent_spec |].
  split; [apply detect_user_intent_range |].
  repeat split; vm_compute; reflexivity.
Qed.

(** *** Selection matching *)

Lemma pattern_hit_existsb (patterns : list string) (user_msg : string) :
  pattern_hit patterns user_msg
  = existsb (fun pattern => Py.contains pattern user_msg) patterns.
Proof.
  induction patterns as [| p ps IH]; simpl; [reflexivity |].
  destruct (Py.contains p user_msg); [reflexivity | exact IH].
Qed.

(** The numbered loop started at position [i] finds the first position of
    [seq i (length opts)] that passes the ordinal test. *)
Lemma select_by_number_find (user_msg : string) (opts : list choice) :
  forall i,
    select_by_number user_msg i opts
    = match find (ordinal_test user_msg) (seq i (List.length opts)) with
      | Some j => nth_error opts (j - i)
      | None => None
      end.
Proof.
  induction opts as [| o rest IH]; intros i; [reflexivity |].
  cbn [select_by_number List.length seq find].
  unfold ordinal_test at 1. rewrite <- pattern_hit_existsb.
  destruct (String.eqb (Py.strip user_msg) (Py.str_of_nat i)); cbn [orb].
  - rewrite Nat.sub_diag. reflexivity.
  - destruct (pattern_hit (ordinal_patterns i) user_msg).
    + rewrite Nat.sub_diag. reflexivity.
    + rewrite IH.
      destruct (find (ordinal_test user_msg) (seq (S i) (List.length rest)))
        as [j |] eqn:Hfind; [| reflexivity].
      apply find_some in Hfind. destruct Hfind as [Hin _].
      apply in_seq in Hin.
      replace (j - i) with (S (j - S i)) by lia. reflexivity.
Qed.

Lemma select_by_name_find (user_msg : string) (opts : list choice) :
  select_by_name user_msg opts
  = find (fun option => Py.contains (Py.lower (choice_name option)) user_msg)
         opts.
Proof.
  induction opts as [| o rest IH]; simpl; [reflexivity |].
  destruct (Py.contains (Py.lower (choice_name o)) user_msg);
    [reflexivity | exact IH].
Qed.

Lemma nth_error_firstn_lt {A} (n k : nat) (l : list A) :
  k < n -> nth_error (firstn n l) k = nth_error l k.
Proof.
  revert k l. induction n as [| n IH]; intros k l Hlt; [lia |].
  destruct l as [| x l]; [reflexivity |].
  destruct k as [| k]; simpl; [reflexivity |]. apply IH. lia.
Qed.

Lemma _parse_selection_spec (text : string) (options : list choice) :
  _parse_selection text options = match_spec text options.
Proof.
  unfold _parse_selection, match_spec.
  rewrite select_by_number_find, select_by_name_find, length_firstn.
  destruct (find (ordinal_test (Py.lower text))
              (seq 1 (Nat.min 5 (List.length options)))) as [j |] eqn:Hfind.
  - apply find_some in Hfind. destruct Hfind as [Hin _].
    apply in_seq in Hin.
    rewrite nth_error_firstn_lt by lia.
    destruct (nth_error options (j - 1)) as [o |] eqn:Hnth; [reflexivity |].
    apply nth_error_None in Hnth. lia.
  - reflexivity.
Qed.

(** C8. On every message and ordered option list the matcher returns what
    the two-phase search returns: the option at the first position among
    the first five that passes the ordinal test (bare number equal to the
    trimmed message, or one of the fixed patterns occurring in it), else
    the first option whose name occurs in the message ignoring case, else
    nothing. Being a function of its two arguments it is deterministic and
    leaves no effect. On the Downtown/Uptown list, "2" gives Uptown,
    "I'll take the Downtown one" gives Downtown, "3" gives nothing. *)
Theorem C8_selection_matcher (text : string) (options : list choice) :
  _parse_selection text options = match_spec text options
  /\ _parse_selection "2" two_branches = Some (Choice 2 "Uptown" [])
  /\ _parse_selection "I'll take the Downtown one" two_branches
     = Some (Choice 1 "Downtown" [])
  /\ _parse_selection "3" two_branches = None.
Proof.
  split; [apply _parse_selection_spec |].
  repeat split; vm_compute; reflexivity.
Qed.

(** *** Editing *)

Lemma first_keyword_in (table : list (string * (string * string)))
  (message_lower : string) (target : string * string) :
  first_keyword table message_lower = Some target ->
  In target (map snd table).
Proof.
  induction table as [| [keyword t'] rest IH]; simpl; [discriminate |].
  destruct (Py.contains keyword message_lower).
  - intros [= <-]. left. reflexivity.
  - intros H. right. apply IH, H.
Qed.

Lemma handle_edit_command_target (user_message field next_step : string) :
  handle_edit_command user_message = (Some field, next_step) ->
  In (field, next_step) (map snd edit_mappings).
Proof.
  unfold handle_edit_command.
  destruct (first_keyword edit_mappings (Py.lower user_message))
    as [[f n] |] eqn:Hfirst; [| discriminate].
  intros [= <- <-]. eapply first_keyword_in, Hfirst.
Qed.

(** [_handle_edit] when the latest user message names a field. *)
Lemma _handle_edit_named (s : BookingState) (m : message)
  (field next_step : string) :
  latest_message "user" s = Some m ->
  handle_edit_command (content m) = (Some field, next_step) ->
  _handle_edit s
  = update_missing_fields
      (add_message
         (set_current_step next_step
            ((if String.eqb field "branch_id" then set_branch_options []
              else if String.eqb field "service_id" then set_service_options []
              else fun x => x)
               (clear_field field (set_current_step "handle_edit" s))))
         "assistant"
         ("I'll help you update your "
          ++ Py.title (Py.replace_underscore field) ++ ".")).
Proof.
  intros Hlatest Hcmd. unfold _handle_edit.
  change (latest_message "user" (set_current_step "handle_edit" s))
    with (latest_message "user" s).
  rewrite Hlatest, Hcmd.
  destruct (String.eqb field "branch_id"); [reflexivity |].
  destruct (String.eqb field "service_id"); reflexivity.
Qed.

(** C9. When the latest user message is an edit command that names a
    field, the edit handler clears that field and, for a branch or a
    service, its paired options cache; it moves to the step mapped to the
    keyword, appends one acknowledgement to the log and recomputes
    [missing_fields] (with [is_complete], derived from it). Every other booking
    field, the other cache, and the session and control flags keep their
    values. For the command "edit branch" the field is [branch_id]: the
    branch and [branch_options] are cleared, the step is [query_branches]
    and [missing_fields] lists the branch again. *)
Theorem C9_edit_clears_only_target (s : BookingState) (m : message)
  (field next_step : string) :
  latest_message "user" s = Some m ->
  handle_edit_command (content m) = (Some field, next_step) ->
  let s' := _handle_edit s in
  In field editable_fields
  /\ edit_cleared field s'
  /\ edit_frame field s s'
  /\ current_step s' = next_step
  /\ missing_fields s' = get_missing_fields s'
  /\ is_complete s' = Nat.eqb (List.length (missing_fields s')) 0
  /\ conversation_history s'
     = (conversation_history s
        ++ [Message "assistant"
              ("I'll help you update your "
               ++ Py.title (Py.replace_underscore field) ++ ".") now])%list
  /\ (content m = "edit branch" ->
      field = "branch_id" /\ next_step = "query_branches"
      /\ branch_id s' = None /\ branch_options s' = []
      /\ current_step s' = "query_branches"
      /\ In "branch_id" (missing_fields s')).
Proof.
  intros Hlatest Hcmd s'. subst s'.
  rewrite (_handle_edit_named s m field next_step Hlatest Hcmd).
  assert (Htarget := handle_edit_command_target _ _ _ Hcmd).
  assert (Hbranch : content m = "edit branch" ->
                    field = "branch_id" /\ next_step = "query_branches").
  { intros Hm. rewrite Hm in Hcmd. vm_compute in Hcmd.
    injection Hcmd as <- <-. split; reflexivity. }
  simpl in Htarget.
  repeat (destruct Htarget as [[= <- <-] | Htarget]); try contradiction.
  all: split; [simpl; tauto |].
  all: split;
    [unfold edit_cleared; repeat split; intros; try discriminate; reflexivity |].
  all: split;
    [unfold edit_frame; repeat split; intros; try congruence; reflexivity |].
  all: do 4 (split; [reflexivity |]).
  all: intros Hm; destruct (Hbranch Hm) as [Hf Hn]; try discriminate Hf.
  all: repeat split; try reflexivity.
  all: rewrite missing_fields_update; apply in_missing_among.
  all: split; [simpl; tauto | reflexivity].
Qed.

(** *** Routing after extraction *)

(** With no control intent and neither message-driven rule firing, the
    router answers by the precedence on missing fields. *)
Lemma _route_after_extraction_quiet (s : BookingState) (m : message) :
  latest_message "user" s = Some m ->
  Py.mem (detect_user_intent (content m)) control_intents = false ->
  selection_reply s (content m) = false ->
  catalogue_request s (content m) = false ->
  _route_after_extraction s = route_by_missing s.
Proof.
  intros Hlatest Hintent Hsel Hcat.
  unfold _route_after_extraction. rewrite Hlatest, Hintent.
  unfold selection_reply in Hsel. unfold catalogue_request in Hcat.
  cbn [Py.any_in] in Hcat.
  destruct (service_pending s) eqn:Hsp, (branch_pending s) eqn:Hbp;
    cbn [orb andb negb] in *; try rewrite Hsel; cbn [orb andb negb];
    try reflexivity.
  destruct (Py.contains "branch" (Py.lower (content m))); [discriminate |].
  destruct (Py.contains "salon" (Py.lower (content m))); [discriminate |].
  destruct (Py.contains "location" (Py.lower (content m))); [discriminate |].
  destruct (Py.contains "service" (Py.lower (content m))); [discriminate |].
  destruct (Py.contains "treatment" (Py.lower (content m))); [discriminate |].
  reflexivity.
Qed.

(** C6 (amended). After extraction, when the latest user message carries
    no control intent, is not a selection reply to a shown list and does
    not ask for the branch or service catalogue, the next step follows the
    precedence: no branch, [query_branches]; else no service,
    [query_services]; else name or phone missing,
    [collect_customer_info]; else [confirm_details]. *)
Theorem C6_route_precedence (s : BookingState) (m : message) :
  latest_message "user" s = Some m ->
  Py.mem (detect_user_intent (content m)) control_intents = false ->
  selection_reply s (content m) = false ->
  catalogue_request s (content m) = false ->
  (Py.truthy (branch_id s) = false ->
   _route_after_extraction s = "query_branches")
  /\ (Py.truthy (branch_id s) = true -> Py.truthy (service_id s) = false ->
      _route_after_extraction s = "query_services")
  /\ (Py.truthy (branch_id s) = true -> Py.truthy (service_id s) = true ->
      Py.truthy (customer_name s) = false
      \/ Py.truthy (customer_mobile s) = false ->
      _route_after_extraction s = "collect_customer_info")
  /\ (Py.truthy (branch_id s) = true -> Py.truthy (service_id s) = true ->
      Py.truthy (customer_name s) = true ->
      Py.truthy (customer_mobile s) = true ->
      _route_after_extraction s = "confirm_details").
Proof.
  intros Hlatest Hintent Hsel Hcat.
  rewrite (_route_after_extraction_quiet s m Hlatest Hintent Hsel Hcat).
  unfold route_by_missing.
  repeat split.
  - intros ->. reflexivity.
  - intros -> ->. reflexivity.
  - intros -> -> [-> | ->]; cbn [negb orb]; [reflexivity |].
    destruct (Py.truthy (customer_name s)); reflexivity.
  - intros -> -> -> ->. reflexivity.
Qed.

(** *** The edge out of the confirmation step *)

Lemma get_missing_fields_update (s : BookingState) :
  get_missing_fields (update_missing_fields s) = get_missing_fields s.
Proof. reflexivity. Qed.

Lemma get_missing_fields_confirm_details (s : BookingState) :
  get_missing_fields (_confirm_details s) = get_missing_fields s.
Proof. reflexivity. Qed.

Lemma latest_user_confirm_details (s : BookingState) :
  latest_message "user" (_confirm_details s) = latest_message "user" s.
Proof.
  unfold latest_message, _confirm_details, add_message. cbn.
  rewrite rev_app_distr. reflexivity.
Qed.

Lemma length_zero_nil {A} (l : list A) :
  Nat.eqb (List.length l) 0 = true <-> l = [].
Proof. destruct l; simpl; split; intros H; congruence. Qed.

(** The answer of [_check_booking_completeness], by cases. *)
Lemma _check_booking_completeness_answer (s : BookingState) :
  _check_booking_completeness s
  = (update_missing_fields s,
     if confirmed_by_user s
        && Nat.eqb (List.length (get_missing_fields s)) 0
     then "create_booking" else "end").
Proof.
  unfold _check_booking_completeness, confirmed_by_user, confirmation_trigger.
  change (latest_message "user" (update_missing_fields s))
    with (latest_message "user" s).
  rewrite missing_fields_update.
  destruct (latest_message "user" s) as [m |]; [| reflexivity].
  destruct (Py.contains "confirm" (Py.lower (content m))); [| reflexivity].
  destruct (get_missing_fields s); reflexivity.
Qed.

Lemma graph_step_confirm_details (s : BookingState) :
  graph_step N_confirm_details s
  = if confirmed_by_user s && Nat.eqb (List.length (get_missing_fields s)) 0
    then Next N_create_booking (after_confirmation s)
    else Done (after_confirmation s).
Proof.
  unfold graph_step. rewrite _check_booking_completeness_answer.
  unfold confirmed_by_user. rewrite latest_user_confirm_details.
  rewrite get_missing_fields_confirm_details.
  destruct (_ && _); reflexivity.
Qed.

(** The recomputation made by the router repeats the one made by the
    node: the state does not depend on whether the graph library keeps
    what a router writes. *)
Lemma after_confirmation_same (s : BookingState) :
  after_confirmation s = _confirm_details s.
Proof. reflexivity. Qed.

Lemma ready_after_confirmation (s : BookingState) :
  confirmed_by_user s && Nat.eqb (List.length (get_missing_fields s)) 0 = true ->
  ready (after_confirmation s).
Proof.
  intros H. apply andb_prop in H. destruct H as [Hconf Hlen].
  unfold ready, after_confirmation.
  rewrite is_complete_update, missing_fields_update, get_missing_fields_update.
  rewrite get_missing_fields_confirm_details.
  apply length_zero_nil in Hlen as Hnil.
  repeat split; try assumption.
  change (latest_message "user" (update_missing_fields (_confirm_details s)))
    with (latest_message "user" (_confirm_details s)).
  rewrite latest_user_confirm_details.
  unfold confirmed_by_user in Hconf.
  destruct (latest_message "user" s) as [m |]; [| discriminate].
  exists m. split; [reflexivity | exact Hconf].
Qed.

(** *** Invariant of a graph run *)

Lemma edge_lookup_in (key : string) (mapping : list (string * target))
  (t : target) :
  edge_lookup key mapping = Some t -> In t (map snd mapping).
Proof.
  induction mapping as [| [k t'] rest IH]; simpl; [discriminate |].
  destruct (String.eqb k key).
  - intros [= <-]. left. reflexivity.
  - intros H. right. apply IH, H.
Qed.

Lemma follow_next (mapping : list (string * target)) (key : string)
  (s s' : BookingState) (n' : node) :
  follow mapping key s = Next n' s' ->
  In (Goto n') (map snd mapping) /\ s' = s.
Proof.
  unfold follow.
  destruct (edge_lookup key mapping) as [[n |] |] eqn:Hlookup;
    try discriminate.
  intros [= <- <-]. split; [| reflexivity].
  eapply edge_lookup_in, Hlookup.
Qed.

(** A successful or failed booking attempt leaves a set flag set. *)
Lemma is_complete_create_booking (s : BookingState) :
  is_complete s = true -> is_complete (_create_booking s) = true.
Proof.
  intros H. unfold _create_booking.
  destruct (build_booking_request (set_current_step "create_booking" s));
    [exact H |].
  destruct (response_ok (book_appointment b)); [reflexivity | exact H].
Qed.

Lemma graph_step_create_booking_ready (s : BookingState) :
  is_complete s = true ->
  graph_step N_create_booking s = Done (_create_booking s).
Proof.
  intros H. unfold graph_step, _check_booking_success.
  rewrite (is_complete_create_booking s H). reflexivity.
Qed.

Lemma graph_step_well_entered (n n' : node) (s s' : BookingState) :
  well_entered n s ->
  graph_step n s = Next n' s' ->
  well_entered n' s'.
Proof.
  intros [Hnot_error Hready] Hstep. unfold well_entered.
  destruct n; try contradiction.
  - cbn in Hstep. injection Hstep as <- <-. split; [discriminate |]. discriminate.
  - unfold graph_step in Hstep.
    destruct (_extract_booking_info s) as [s1 |]; [| discriminate].
    apply follow_next in Hstep. destruct Hstep as [Hin _].
    simpl in Hin.
    repeat (destruct Hin as [[= <-] | Hin]); try contradiction;
      split; discriminate.
  - unfold graph_step in Hstep.
    apply follow_next in Hstep. destruct Hstep as [Hin _].
    simpl in Hin.
    repeat (destruct Hin as [Hin | Hin]; [try discriminate; injection Hin as <- |]);
      try contradiction; split; discriminate.
  - discriminate.
  - unfold graph_step in Hstep.
    apply follow_next in Hstep. destruct Hstep as [Hin _].
    simpl in Hin.
    repeat (destruct Hin as [[= <-] | Hin]); try contradiction;
      split; discriminate.
  - unfold graph_step in Hstep.
    apply follow_next in Hstep. destruct Hstep as [Hin _].
    simpl in Hin. destruct Hin as [Hin | []]. discriminate.
  - unfold graph_step in Hstep.
    apply follow_next in Hstep. destruct Hstep as [Hin _].
    simpl in Hin. destruct Hin as [Hin | []]. discriminate.
  - unfold graph_step in Hstep.
    apply follow_next in Hstep. destruct Hstep as [Hin _].
    simpl in Hin. destruct Hin as [Hin | []]. discriminate.
  - rewrite graph_step_confirm_details in Hstep.
    destruct (confirmed_by_user s
              && Nat.eqb (List.length (get_missing_fields s)) 0) eqn:Hgo;
      [| discriminate].
    injection Hstep as <- <-. split; [discriminate |].
    intros _. apply ready_after_confirmation, Hgo.
  - rewrite graph_step_create_booking_ready in Hstep; [discriminate |].
    apply (Hready eq_refl).
Qed.

Lemma run_well_entered (fuel : nat) :
  forall (n : node) (s : BookingState),
    well_entered n s ->
    forall (n1 : node) (s1 : BookingState),
      In (n1, s1) (fst (run fuel n s)) -> well_entered n1 s1.
Proof.
  induction fuel as [| fuel IH]; intros n s Hgood n1 s1 Hin; simpl in Hin.
  - contradiction.
  - destruct (graph_step n s) as [n' s' | s' |] eqn:Hstep.
    + destruct (run fuel n' s') as [visited final] eqn:Hrun. simpl in Hin.
      destruct Hin as [[= <- <-] | Hin]; [exact Hgood |].
      apply (IH n' s'); [eapply graph_step_well_entered; eassumption |].
      rewrite Hrun. exact Hin.
    + simpl in Hin. destruct Hin as [[= <- <-] | []]. exact Hgood.
    + simpl in Hin. destruct Hin as [[= <- <-] | []]. exact Hgood.
Qed.

Lemma well_entered_start (s : BookingState) : well_entered N_start s.
Proof. split; discriminate. Qed.

(** A field outside [get_missing_fields] is truthy. *)
Lemma required_truthy (s : BookingState) (field : string) :
  get_missing_fields s = [] -> In field required_fields ->
  Py.truthy (state_get s field) = true.
Proof.
  intros Hnil Hin.
  destruct (Py.truthy (state_get s field)) eqn:Htruthy; [reflexivity |].
  assert (Hmiss : In field (get_missing_fields s)).
  { apply in_missing_among. split; assumption. }
  rewrite Hnil in Hmiss. contradiction.
Qed.

Lemma gateway_calls_origin (visited : list (node * BookingState))
  (request : booking_request) :
  In request (gateway_calls visited) ->
  exists s, In (N_create_booking, s) visited
            /\ build_booking_request (set_current_step "create_booking" s)
               = inr request.
Proof.
  induction visited as [| [n s] rest IH]; simpl; [contradiction |].
  intros Hin.
  assert (Hrest : In request (gateway_calls rest) ->
                  exists s0, ((n, s) = (N_create_booking, s0)
                              \/ In (N_create_booking, s0) rest)
                             /\ build_booking_request
                                  (set_current_step "create_booking" s0)
                                = inr request).
  { intros H. destruct (IH H) as [s0 [H1 H2]]. exists s0. auto. }
  destruct n; try (apply Hrest, Hin).
  destruct (build_booking_request (set_current_step "create_booking" s))
    as [e | r] eqn:Hbuild; [apply Hrest, Hin |].
  destruct Hin as [<- | Hin]; [| apply Hrest, Hin].
  exists s. auto.
Qed.

(** *** The booking handler and the error handler *)

(** A confirmation code that is text never passes the success test. *)
Lemma response_ok_text_code (d : list (string * jval)) (code : string) :
  dict_get "bookingCode" d = Some (JStr code) -> response_ok (Some d) = false.
Proof.
  intros Hcode. unfold response_ok. destruct d; [reflexivity |].
  rewrite Hcode. reflexivity.
Qed.

(** The success test holds only for [True] or the number one. *)
Lemma response_ok_inv (r : option (list (string * jval))) :
  response_ok r = true ->
  exists d, r = Some d
            /\ (dict_get "bookingCode" d = Some (JBool true)
                \/ dict_get "bookingCode" d = Some (JInt 1)).
Proof.
  unfold response_ok. destruct r as [[| p d] |]; try discriminate.
  destruct (dict_get "bookingCode" (p :: d)) as [v |] eqn:Hget;
    [| discriminate].
  intros H. exists (p :: d). split; [reflexivity |].
  destruct v as [| [] | z | c]; try discriminate.
  - left. exact Hget.
  - right. apply Z.eqb_eq in H. subst z. exact Hget.
Qed.

(** The error handler on a message about the date or the time. *)
Lemma _handle_error_date_time (s : BookingState) (error_msg : string) :
  error_message s = Some error_msg ->
  Py.contains "service" (Py.lower error_msg) = false ->
  Py.contains "branch" (Py.lower error_msg) = false ->
  Py.contains "date" (Py.lower error_msg)
  || Py.contains "time" (Py.lower error_msg) = true ->
  exists s', _handle_error s = Some s'
             /\ booking_date s' = None /\ booking_time s' = None
             /\ current_step s' = "collect_customer_info"
             /\ error_message s' = None
             /\ is_complete s' = false
             /\ In "booking_date" (missing_fields s')
             /\ In "booking_time" (missing_fields s').
Proof.
  intros Herr Hservice Hbranch Hdate. unfold _handle_error.
  change (error_message (set_current_step "handle_error" s))
    with (error_message s).
  rewrite Herr, Hservice, Hbranch, Hdate.
  eexists. split; [reflexivity |].
  repeat split.
  - cbn. destruct (negb (Py.truthy (customer_mobile s)));
      destruct (negb (Py.truthy (customer_name s)));
      destruct (negb (Py.truthy (branch_id s)));
      destruct (negb (Py.truthy (service_id s))); reflexivity.
  - cbn [missing_fields set_error_message set_current_step
           update_missing_fields set_is_complete set_missing_fields
           get_missing_fields].
    apply in_missing_among. split; [simpl; tauto | reflexivity].
  - cbn [missing_fields set_error_message set_current_step
           update_missing_fields set_is_complete set_missing_fields
           get_missing_fields].
    apply in_missing_among. split; [simpl; tauto | reflexivity].
Qed.

(** C3. The edge out of the confirmation step leads to [create_booking]
    exactly when, after the recomputation, no required field is missing
    and the latest user message carries the confirmation trigger (the text
    "confirm", case ignored); otherwise the turn ends there. As this is the
    only way into [create_booking], every gateway call of a run started at
    the entry point is made from a state whose six required fields are all
    truthy. *)
Theorem C3_gateway_needs_complete_fields (s : BookingState) :
  (graph_step N_confirm_details s = Next N_create_booking (after_confirmation s)
   <-> get_missing_fields s = [] /\ confirmed_by_user s = true)
  /\ (~ (get_missing_fields s = [] /\ confirmed_by_user s = true) ->
      graph_step N_confirm_details s = Done (after_confirmation s))
  /\ (forall (fuel : nat) (s0 : BookingState) (request : booking_request),
        In request (gateway_calls (fst (run fuel N_start s0))) ->
        exists s1,
          In (N_create_booking, s1) (fst (run fuel N_start s0))
          /\ build_booking_request (set_current_step "create_booking" s1)
             = inr request
          /\ confirmed_by_user s1 = true
          /\ forall field, In field required_fields ->
                           Py.truthy (state_get s1 field) = true).
Proof.
  rewrite graph_step_confirm_details.
  assert (Hgo : confirmed_by_user s
                && Nat.eqb (List.length (get_missing_fields s)) 0 = true
                <-> get_missing_fields s = [] /\ confirmed_by_user s = true).
  { rewrite andb_true_iff, length_zero_nil. tauto. }
  split; [| split].
  - destruct (confirmed_by_user s
              && Nat.eqb (List.length (get_missing_fields s)) 0).
    + split; [intros _; apply Hgo; reflexivity | reflexivity].
    + split; [discriminate |]. intros H. apply Hgo in H. discriminate.
  - intros Hnot.
    destruct (confirmed_by_user s
              && Nat.eqb (List.length (get_missing_fields s)) 0);
      [| reflexivity].
    exfalso. apply Hnot, Hgo. reflexivity.
  - intros fuel s0 request Hcall.
    apply gateway_calls_origin in Hcall. destruct Hcall as [s1 [Hin Hbuild]].
    exists s1. split; [exact Hin |]. split; [exact Hbuild |].
    destruct (run_well_entered fuel N_start s0 (well_entered_start s0) _ _ Hin)
      as [_ Hready].
    destruct (Hready eq_refl) as [_ [_ [Hnil [m [Hlatest Htrigger]]]]].
    split.
    + unfold confirmed_by_user. rewrite Hlatest. exact Htrigger.
    + intros field Hfield. apply required_truthy; assumption.
Qed.

(** C10. Whenever a run started at the entry point enters
    [create_booking], the state already has [is_complete] set and no
    missing field: the flag was set by the recomputation that gates the
    entry. Whatever the gateway answers, [_create_booking] leaves the flag
    set, so the success router answers "end" and the step ends the run;
    the run never enters [handle_error]. *)
Theorem C10_create_booking_entered_complete (fuel : nat)
  (s0 s : BookingState) :
  In (N_create_booking, s) (fst (run fuel N_start s0)) ->
  is_complete s = true
  /\ missing_fields s = []
  /\ is_complete (_create_booking s) = true
  /\ _check_booking_success (_create_booking s) = "end"
  /\ graph_step N_create_booking s = Done (_create_booking s)
  /\ forall s', ~ In (N_handle_error, s') (fst (run fuel N_start s0)).
Proof.
  intros Hin.
  destruct (run_well_entered fuel N_start s0 (well_entered_start s0) _ _ Hin)
    as [_ Hready].
  destruct (Hready eq_refl) as [Hcomplete [Hmissing _]].
  pose proof (is_complete_create_booking s Hcomplete) as Hafter.
  repeat split; try assumption.
  - unfold _check_booking_success. rewrite Hafter. reflexivity.
  - apply graph_step_create_booking_ready, Hcomplete.
  - intros s' Herr.
    destruct (run_well_entered fuel N_start s0 (well_entered_start s0) _ _ Herr)
      as [Hnot _].
    apply Hnot. reflexivity.
Qed.

(** *** Completion flag and session removal *)

Lemma turn_result_input (sessions : gmap string session_data)
  (user_session_id user_input : string)
  (extracted_info : list (string * string)) :
  turn_result sessions user_session_id user_input extracted_info
  = option_map result_of
      (snd (invoke (turn_input sessions user_session_id user_input
                      extracted_info))).
Proof.
  unfold turn_result, turn_input.
  destruct (sessions !! user_session_id); reflexivity.
Qed.

Lemma _is_booking_truly_complete_iff (wr : workflow_result) :
  _is_booking_truly_complete wr = true <->
  wr_is_complete wr = true
  /\ (has_confirmation (rev (conversation_history (wr_state wr))) = true
      \/ (current_step (wr_state wr) = "create_booking"
          /\ is_complete (wr_state wr) = true)).
Proof.
  unfold _is_booking_truly_complete.
  destruct (wr_is_complete wr); cbn [negb].
  - destruct (has_confirmation (rev (conversation_history (wr_state wr)))).
    + tauto.
    + destruct (String.eqb_spec (current_step (wr_state wr)) "create_booking")
        as [Heq | Hne]; cbn [andb].
      * destruct (is_complete (wr_state wr)); intuition discriminate.
      * intuition discriminate.
  - intuition discriminate.
Qed.

Lemma handle_booking_question_removed (sessions : gmap string session_data)
  (user_session_id user_input : string)
  (extracted_info : list (string * string)) (friendly_prompt : string) :
  fst (handle_booking_question sessions user_session_id user_input
         extracted_info friendly_prompt) !! user_session_id = None
  <-> match turn_result sessions user_session_id user_input extracted_info with
      | Some wr => _is_booking_truly_complete wr = true
      | None => True
      end.
Proof.
  unfold handle_booking_question, turn_result.
  destruct (sessions !! user_session_id) as [data |] eqn:Hlookup.
  - destruct (continue_workflow (state data) user_input) as [wr |]; cbn [fst].
    + destruct (_is_booking_truly_complete wr); cbn [fst].
      * rewrite lookup_delete_eq. tauto.
      * rewrite lookup_insert_eq. split; discriminate.
    + rewrite lookup_delete_eq. tauto.
  - destruct (start_workflow user_input extracted_info) as [wr |]; cbn [fst].
    + destruct (_is_booking_truly_complete wr); cbn [fst].
      * rewrite lookup_delete_eq. tauto.
      * rewrite lookup_insert_eq. split; discriminate.
    + rewrite lookup_delete_eq. tauto.
Qed.

(** C1 (amended). After every recomputation [is_complete] holds exactly
    when [missing_fields] is empty, whether or not the gateway was called:
    the state left by the confirmation step has the flag set as soon as no
    required field is missing. True completion is a separate test,
    [_is_booking_truly_complete]: the flag together with a confirmation
    marker in the log or the step [create_booking]. A turn removes the
    session from the registry exactly when the workflow raised or that
    test holds; a turn that ends at [confirm_details] with no marker in
    the log keeps it. *)
Theorem C1_completion_flag_and_removal (s : BookingState)
  (sessions : gmap string session_data) (user_session_id user_input : string)
  (extracted_info : list (string * string)) (friendly_prompt : string) :
  (is_complete (update_missing_fields s) = true
   <-> missing_fields (update_missing_fields s) = [])
  /\ current_step (_confirm_details s) = "confirm_details"
  /\ (is_complete (_confirm_details s) = true
      <-> missing_fields (_confirm_details s) = [])
  /\ (forall wr,
        _is_booking_truly_complete wr = true <->
        wr_is_complete wr = true
        /\ (has_confirmation (rev (conversation_history (wr_state wr))) = true
            \/ (current_step (wr_state wr) = "create_booking"
                /\ is_complete (wr_state wr) = true)))
  /\ (fst (handle_booking_question sessions user_session_id user_input
             extracted_info friendly_prompt) !! user_session_id = None
      <-> match turn_result sessions user_session_id user_input
                  extracted_info with
          | Some wr => _is_booking_truly_complete wr = true
          | None => True
          end)
  /\ (forall wr,
        turn_result sessions user_session_id user_input extracted_info
        = Some wr ->
        current_step (wr_state wr) = "confirm_details" ->
        has_confirmation (rev (conversation_history (wr_state wr))) = false ->
        exists data,
          fst (handle_booking_question sessions user_session_id user_input
                 extracted_info friendly_prompt) !! user_session_id
          = Some data
          /\ state data = wr_state wr).
Proof.
  split; [| split; [| split; [| split; [| split]]]].
  - rewrite is_complete_update, missing_fields_update. apply length_zero_nil.
  - reflexivity.
  - change (is_complete (_confirm_details s))
      with (Nat.eqb (List.length (get_missing_fields s)) 0).
    change (missing_fields (_confirm_details s)) with (get_missing_fields s).
    apply length_zero_nil.
  - apply _is_booking_truly_complete_iff.
  - apply handle_booking_question_removed.
  - intros wr Hturn Hstep Hmarker.
    assert (Hnot : _is_booking_truly_complete wr = false).
    { destruct (_is_booking_truly_complete wr) eqn:Htruly; [| reflexivity].
      apply _is_booking_truly_complete_iff in Htruly.
      destruct Htruly as [_ [Hm | [Hc _]]]; congruence. }
    unfold handle_booking_question. unfold turn_result in Hturn.
    destruct (sessions !! user_session_id) as [data |].
    + rewrite Hturn, Hnot. cbn [fst]. rewrite lookup_insert_eq.
      eexists. split; reflexivity.
    + rewrite Hturn, Hnot. cbn [fst]. rewrite lookup_insert_eq.
      eexists. split; reflexivity.
Qed.

(** ** Further properties of the workflow *)

(** *** Facts on the string primitives *)

Lemma lower_ascii_idem (c : ascii) :
  Py.lower_ascii (Py.lower_ascii c) = Py.lower_ascii c.
Proof. destruct c as [[] [] [] [] [] [] [] []]; reflexivity. Qed.

Lemma lower_idem (s : string) : Py.lower (Py.lower s) = Py.lower s.
Proof.
  induction s as [| c s IH]; simpl; [reflexivity |].
  rewrite lower_ascii_idem, IH. reflexivity.
Qed.

Lemma append_assoc (a b c : string) : (a ++ b) ++ c = a ++ (b ++ c).
Proof.
  induction a as [| x a IH]; [reflexivity |].
  change (String x ((a ++ b) ++ c) = String x (a ++ b ++ c)). f_equal. exact IH.
Qed.

Lemma prefix_spec (pat s : string) :
  String.prefix pat s = true <-> exists post, s = pat ++ post.
Proof.
  revert s. induction pat as [| a pat IH]; intros s; simpl.
  - destruct s; split; intros; eauto.
  - destruct s as [| b s]; simpl.
    + split; [discriminate |]. intros [post H]. discriminate.
    + destruct (ascii_dec a b) as [-> | Hne].
      * rewrite IH. split; intros [post H]; exists post.
        -- rewrite H. reflexivity.
        -- injection H as H. exact H.
      * split; [discriminate |]. intros [post H]. injection H as Hab _.
        congruence.
Qed.

Lemma contains_spec (pat s : string) :
  Py.contains pat s = true <-> exists pre post, s = pre ++ pat ++ post.
Proof.
  induction s as [| c s IH]; cbn [Py.contains].
  - destruct (String.prefix pat "") eqn:Hp.
    + apply prefix_spec in Hp. destruct Hp as [post Hp].
      split; [intros _ | reflexivity]. exists "", post. exact Hp.
    + split; [discriminate |]. intros [pre [post H]].
      destruct pre; simpl in H.
      * assert (String.prefix pat "" = true) by (apply prefix_spec; eauto).
        congruence.
      * discriminate.
  - destruct (String.prefix pat (String c s)) eqn:Hp.
    + apply prefix_spec in Hp. destruct Hp as [post Hp].
      split; [intros _ | reflexivity]. exists "", post. exact Hp.
    + rewrite IH. split.
      * intros [pre [post H]]. exists (String c pre), post. rewrite H. reflexivity.
      * intros [pre [post H]]. destruct pre as [| d pre]; simpl in H.
        -- assert (String.prefix pat (String c s) = true)
             by (apply prefix_spec; eauto).
           congruence.
        -- injection H as -> ->. eauto.
Qed.

Lemma contains_trans (a b c : string) :
  Py.contains a b = true -> Py.contains b c = true -> Py.contains a c = true.
Proof.
  rewrite !contains_spec. intros [p1 [q1 ->]] [p2 [q2 ->]].
  exists (p2 ++ p1), (q1 ++ q2). rewrite !append_assoc. reflexivity.
Qed.

(** A pattern that starts with a non-blank survives [lstrip]. *)
Lemma contains_lstrip (c : ascii) (pat s : string) :
  Py.isspace c = false ->
  Py.contains (String c pat) (Py.lstrip s) = Py.contains (String c pat) s.
Proof.
  intros Hc. induction s as [| d s IH]; [reflexivity |].
  cbn [Py.lstrip]. destruct (Py.isspace d) eqn:Hd; [| reflexivity].
  rewrite IH. cbn [Py.contains String.prefix].
  destruct (ascii_dec c d) as [-> | Hne]; [congruence | reflexivity].
Qed.

Lemma prefix_rstrip (pat s : string) :
  no_blank pat = true -> String.prefix pat s = true ->
  String.prefix pat (Py.rstrip s) = true.
Proof.
  revert s. induction pat as [| a pat IH]; intros s Hnb Hp.
  - destruct (Py.rstrip s); reflexivity.
  - destruct s as [| b s]; [discriminate |].
    cbn in Hnb. apply andb_prop in Hnb. destruct Hnb as [Ha Hnb].
    cbn [String.prefix] in Hp.
    destruct (ascii_dec a b) as [<- | Hne]; [| discriminate].
    specialize (IH s Hnb Hp). cbn [Py.rstrip].
    destruct (Py.rstrip s) as [| r0 r] eqn:Hr.
    + destruct pat; [| discriminate].
      destruct (Py.isspace a); [discriminate |].
      cbn. destruct (ascii_dec a a); [reflexivity | congruence].
    + cbn [String.prefix]. destruct (ascii_dec a a); [exact IH | congruence].
Qed.

Lemma contains_rstrip (c : ascii) (pat s : string) :
  no_blank (String c pat) = true ->
  Py.contains (String c pat) s = true ->
  Py.contains (String c pat) (Py.rstrip s) = true.
Proof.
  intros Hnb. induction s as [| d s IH]; [intros H; exact H |].
  cbn [Py.contains]. 
  destruct (String.prefix (String c pat) (String d s)) eqn:Hp.
  - intros _. apply (prefix_rstrip _ _ Hnb) in Hp.
    destruct (Py.rstrip (String d s)); cbn [Py.contains]; rewrite Hp; reflexivity.
  - intros H. specialize (IH H). cbn [Py.rstrip].
    destruct (Py.rstrip s) as [| r0 r] eqn:Hr; [discriminate |].
    cbn [Py.contains].
    destruct (String.prefix (String c pat) (String d (String r0 r)));
      [reflexivity | exact IH].
Qed.

(** A pattern without blanks occurs in a message exactly when it occurs in
    the trimmed message. *)
Lemma contains_strip_of (c : ascii) (pat s : string) :
  no_blank (String c pat) = true ->
  Py.contains (String c pat) s = true ->
  Py.contains (String c pat) (Py.strip s) = true.
Proof.
  intros Hnb H. unfold Py.strip. apply contains_rstrip; [exact Hnb |].
  rewrite contains_lstrip; [exact H |].
  cbn in Hnb. apply andb_prop in Hnb. destruct Hnb as [Hc _].
  destruct (Py.isspace c); [discriminate | reflexivity].
Qed.


(** *** Keyword collisions *)

Lemma detect_edit_when_update (text : string) :
  Py.contains "update" (Py.lower text) = true ->
  detect_user_intent text = "edit".
Proof.
  intros H. apply (contains_strip_of "u" "pdate") in H; [| reflexivity].
  unfold detect_user_intent. cbn [Py.any_in]. rewrite H.
  destruct (Py.contains "edit" _); [reflexivity |].
  destruct (Py.contains "change" _); [reflexivity |].
  destruct (Py.contains "modify" _); reflexivity.
Qed.

(** X9. A message worded with "update" is an edit command, and since
    "update" contains "date" the edit table always finds a target for it:
    one of the keywords listed before "date" if the message has one, the
    booking date otherwise; never the time or the party size. *)
Theorem update_wording_targets_date (text : string) :
  Py.contains "update" (Py.lower text) = true ->
  detect_user_intent text = "edit"
  /\ exists field next_step,
       handle_edit_command text = (Some field, next_step)
       /\ field <> "booking_time" /\ field <> "total_customer"
       /\ (Py.any_in ["name"; "phone"; "mobile"; "branch"; "location";
                      "salon"; "service"; "treatment"] (Py.lower text) = false ->
           field = "booking_date" /\ next_step = "collect_customer_info").
Proof.
  intros H. split; [apply detect_edit_when_update, H |].
  assert (Hdate : Py.contains "date" (Py.lower text) = true).
  { eapply contains_trans; [| exact H]. reflexivity. }
  unfold handle_edit_command, edit_mappings. cbn [first_keyword Py.any_in].
  repeat match goal with
         | |- context [if Py.contains ?k (Py.lower text) then _ else _] =>
             lazymatch k with
             | "date" => fail
             | _ => destruct (Py.contains k (Py.lower text))
             end
         end;
    try rewrite Hdate;
    (eexists; eexists; split; [reflexivity |]);
    (split; [discriminate |]); (split; [discriminate |]);
    intros Hnone; try discriminate Hnone; split; reflexivity.
Qed.

(** *** Exact confirmation tokens *)

Lemma confirmation_trigger_strip (text : string) :
  confirmation_trigger text = true ->
  Py.contains "confirm" (Py.strip (Py.lower text)) = true.
Proof.
  unfold confirmation_trigger. intros H.
  apply (contains_strip_of "c" "onfirm"); [reflexivity | exact H].
Qed.

(** X8. When the whole trimmed message is "yes", "ok", "proceed" or
    "go ahead", the classifier answers [confirm] but the message does not
    carry the confirmation trigger: the confirmation step ends the turn
    and [create_booking] is not entered, whatever the state. *)
Theorem exact_token_does_not_book (s : BookingState) (m : message) :
  latest_message "user" s = Some m ->
  In (Py.strip (Py.lower (content m))) ["yes"; "ok"; "proceed"; "go ahead"] ->
  detect_user_intent (content m) = "confirm"
  /\ confirmed_by_user s = false
  /\ graph_step N_confirm_details s = Done (after_confirmation s).
Proof.
  intros Hlatest Htoken.
  assert (Hintent : detect_user_intent (content m) = "confirm").
  { unfold detect_user_intent. simpl in Htoken.
    repeat (destruct Htoken as [<- | Htoken]; [reflexivity |]).
    contradiction. }
  assert (Hnot : confirmed_by_user s = false).
  { unfold confirmed_by_user. rewrite Hlatest.
    destruct (confirmation_trigger (content m)) eqn:Htrig; [| reflexivity].
    apply confirmation_trigger_strip in Htrig. simpl in Htoken.
    repeat (destruct Htoken as [Heq | Htoken];
            [rewrite <- Heq in Htrig; discriminate Htrig |]).
    contradiction. }
  split; [exact Hintent |]. split; [exact Hnot |].
  rewrite graph_step_confirm_details, Hnot. reflexivity.
Qed.

(** *** Selection *)

Lemma find_ordinal_in_range (user_msg : string) (n i : nat) :
  find (ordinal_test user_msg) (seq 1 n) = Some i ->
  1 <= i <= n /\ ordinal_test user_msg i = true.
Proof.
  intros H. apply find_some in H. destruct H as [Hin Htest].
  apply in_seq in Hin. split; [lia | exact Htest].
Qed.

(** A returned option is one of the options given. *)
Lemma _parse_selection_member (text : string) (options : list choice)
  (o : choice) :
  _parse_selection text options = Some o -> In o options.
Proof.
  rewrite _parse_selection_spec. unfold match_spec.
  destruct (find _ (seq 1 _)) as [i |].
  - apply nth_error_In.
  - intros Hname. apply find_some in Hname. tauto.
Qed.

(** X10. An option returned by the matcher is one of the options given,
    and the message referred to it: by its position among the first five,
    or by its name. With no options nothing is returned. *)
Theorem _parse_selection_sound (text : string) (options : list choice)
  (o : choice) :
  _parse_selection text options = Some o ->
  In o options
  /\ ((exists i, 1 <= i <= 5 /\ nth_error options (i - 1) = Some o
                 /\ ordinal_test (Py.lower text) i = true)
      \/ Py.contains (Py.lower (choice_name o)) (Py.lower text) = true).
Proof.
  intros Hpick. split; [eapply _parse_selection_member, Hpick |].
  revert Hpick. rewrite _parse_selection_spec. unfold match_spec.
  destruct (find (ordinal_test (Py.lower text))
              (seq 1 (Nat.min 5 (List.length options)))) as [i |] eqn:Hfind.
  - apply find_ordinal_in_range in Hfind. destruct Hfind as [Hrange Htest].
    intros Hnth. left. exists i. repeat split; try lia; assumption.
  - intros Hname. apply find_some in Hname. right. tauto.
Qed.

Lemma _parse_selection_nil (text : string) : _parse_selection text [] = None.
Proof. reflexivity. Qed.

(** X11. Answering with the bare number k, for k from 1 to 5, selects
    the k-th option of the list, whatever the options are called. *)
Theorem bare_number_selects (k : nat) (options : list choice) (o : choice) :
  1 <= k <= 5 ->
  nth_error options (k - 1) = Some o ->
  _parse_selection (Py.str_of_nat k) options = Some o.
Proof.
  intros Hk Hnth.
  assert (Hcases : k = 1 \/ k = 2 \/ k = 3 \/ k = 4 \/ k = 5) by lia.
  destruct Hcases as [-> | [-> | [-> | [-> | ->]]]]; cbn [Nat.sub] in Hnth.
  - destruct options as [| a l]; [discriminate |].
    injection Hnth as ->. reflexivity.
  - destruct options as [| a [| b l]]; try discriminate.
    injection Hnth as ->. reflexivity.
  - destruct options as [| a [| b [| c l]]]; try discriminate.
    injection Hnth as ->. reflexivity.
  - destruct options as [| a [| b [| c [| d l]]]]; try discriminate.
    injection Hnth as ->. reflexivity.
  - destruct options as [| a [| b [| c [| d [| e l]]]]]; try discriminate.
    injection Hnth as ->. reflexivity.
Qed.


(** *** The conversation log *)

Lemma log_extends_refl (s : BookingState) : log_extends s s.
Proof. exists []. split; [rewrite app_nil_r; reflexivity | constructor]. Qed.

Lemma log_extends_same (s s' : BookingState) :
  conversation_history s' = conversation_history s -> log_extends s s'.
Proof.
  intros H. exists []. split; [rewrite app_nil_r; exact H | constructor].
Qed.

Lemma log_extends_trans (s1 s2 s3 : BookingState) :
  log_extends s1 s2 -> log_extends s2 s3 -> log_extends s1 s3.
Proof.
  intros [a1 [H1 F1]] [a2 [H2 F2]]. exists (a1 ++ a2)%list. split.
  - rewrite H2, H1, <- app_assoc. reflexivity.
  - apply Forall_app. split; assumption.
Qed.

Lemma log_extends_one (s s' : BookingState) (r c : string) :
  r <> "user" ->
  conversation_history s' = (conversation_history s ++ [Message r c now])%list ->
  log_extends s s'.
Proof.
  intros Hr H. exists [Message r c now]. split; [exact H |].
  constructor; [exact Hr | constructor].
Qed.

Lemma first_with_role_skip (r : string) (added rest : list message) :
  List.Forall (fun msg => role msg <> r) added ->
  first_with_role r (added ++ rest) = first_with_role r rest.
Proof.
  induction 1 as [| m added Hm _ IH]; [reflexivity |].
  cbn [app first_with_role].
  destruct (String.eqb_spec (role m) r); [contradiction | exact IH].
Qed.

Lemma log_extends_latest_user (s s' : BookingState) :
  log_extends s s' -> latest_message "user" s' = latest_message "user" s.
Proof.
  intros [added [H F]]. unfold latest_message. rewrite H, rev_app_distr.
  apply first_with_role_skip. apply Forall_rev. exact F.
Qed.

Lemma conversation_history_state_set (key value : string) (s : BookingState) :
  conversation_history (state_set key value s) = conversation_history s.
Proof.
  unfold state_set.
  repeat match goal with
         | |- context [if ?c then _ else _] => destruct c
         end; reflexivity.
Qed.

Lemma conversation_history_merge (data : list (string * string))
  (s : BookingState) :
  conversation_history (merge_extraction data s) = conversation_history s.
Proof.
  revert s. induction data as [| [key value] rest IH]; intros s;
    [reflexivity |].
  cbn [merge_extraction].
  destruct (_ && _); rewrite IH; [apply conversation_history_state_set |].
  reflexivity.
Qed.

(** Closes a goal [log_extends s x] where the log of [x] reduces to the
    log of [s], alone or followed by one assistant or system message. *)
Ltac split_pick :=
  match goal with
  | |- context [match (if ?c then ?a else ?b) with
                | Some _ => _
                | None => _
                end] =>
      destruct (if c then a else b) as [? |]
  end.

Ltac log_step :=
  first
    [ apply log_extends_same; reflexivity
    | eapply log_extends_one; [| reflexivity]; discriminate ].

Lemma log_extends_start_node (s : BookingState) : log_extends s (_start_node s).
Proof. unfold _start_node. destruct (negb _); log_step. Qed.

Lemma log_extends_handle_user_intent (s : BookingState) :
  log_extends s (_handle_user_intent s).
Proof.
  unfold _handle_user_intent.
  change (latest_message "user" (set_current_step "handle_user_intent" s))
    with (latest_message "user" s).
  destruct (latest_message "user" s) as [m |]; [| log_step].
  repeat match goal with
         | |- context [if String.eqb ?a ?b then _ else _] =>
             destruct (String.eqb a b)
         end; log_step.
Qed.

Lemma log_extends_show_summary (s : BookingState) :
  log_extends s (_show_summary s).
Proof. unfold _show_summary. log_step. Qed.

Lemma log_extends_handle_edit (s : BookingState) :
  log_extends s (_handle_edit s).
Proof.
  unfold _handle_edit.
  change (latest_message "user" (set_current_step "handle_edit" s))
    with (latest_message "user" s).
  destruct (latest_message "user" s) as [m |]; [| log_step].
  destruct (handle_edit_command (content m)) as [[field |] next] eqn:Hcmd;
    [| log_step].
  apply handle_edit_command_target in Hcmd. simpl in Hcmd.
  repeat (destruct Hcmd as [[= <- <-] | Hcmd]; [log_step |]). contradiction.
Qed.

Lemma log_extends_extract (s s' : BookingState) :
  _extract_booking_info s = Some s' -> log_extends s s'.
Proof.
  unfold _extract_booking_info.
  change (latest_message "user" (set_current_step "extract_info" s))
    with (latest_message "user" s).
  destruct (latest_message "user" s) as [m |];
    [| intros [= <-]; log_step].
  split_pick; [intros [= <-]; log_step |].
  split_pick; [intros [= <-]; log_step |].
  unfold _extract_with_llm.
  destruct (llm_extract _ _) as [data |]; [| discriminate].
  intros [= <-]. apply log_extends_same.
  change (conversation_history
            (merge_extraction data (set_current_step "extract_info" s))
          = conversation_history (set_current_step "extract_info" s)).
  apply conversation_history_merge.
Qed.

Lemma log_extends_query_branches (s : BookingState) :
  log_extends s (_query_branches s).
Proof.
  unfold _query_branches.
  split_pick; [log_step |].
  destruct (fetch_salon_branches _) as [e | [| b l]]; log_step.
Qed.

Lemma log_extends_query_services (s : BookingState) :
  log_extends s (_query_services s).
Proof.
  unfold _query_services.
  split_pick; [log_step |].
  destruct get_services as [e | [| b l]]; log_step.
Qed.

Lemma log_extends_collect (s : BookingState) :
  log_extends s (_collect_customer_info s).
Proof.
  unfold _collect_customer_info.
  destruct (List.app _ _); log_step.
Qed.

Lemma log_extends_confirm_details (s : BookingState) :
  log_extends s (_confirm_details s).
Proof. unfold _confirm_details. log_step. Qed.

Lemma log_extends_create_booking (s : BookingState) :
  log_extends s (_create_booking s).
Proof.
  unfold _create_booking.
  destruct (build_booking_request _) as [e | r]; [log_step |].
  destruct (response_ok _); log_step.
Qed.

Lemma log_extends_handle_error (s s' : BookingState) :
  _handle_error s = Some s' -> log_extends s s'.
Proof.
  unfold _handle_error.
  change (error_message (set_current_step "handle_error" s))
    with (error_message s).
  destruct (error_message s) as [msg |]; [| discriminate].
  intros [= <-].
  destruct (Py.contains "service" _); [log_step |].
  destruct (Py.contains "branch" _); [log_step |].
  destruct (_ || _); log_step.
Qed.

Lemma follow_same_state (mapping : list (string * target)) (key : string)
  (s : BookingState) :
  match follow mapping key s with
  | Next _ s' | Done s' => s' = s
  | Raised => True
  end.
Proof.
  unfold follow. destruct (edge_lookup key mapping) as [[n |] |]; auto.
Qed.

(** One step of the graph only appends to the log. *)
Lemma graph_step_log_extends (n : node) (s : BookingState) :
  match graph_step n s with
  | Next _ s' | Done s' => log_extends s s'
  | Raised => True
  end.
Proof.
  destruct n;
    [cbn [graph_step] | cbn [graph_step] | cbn [graph_step] | cbn [graph_step]
     | cbn [graph_step] | cbn [graph_step] | cbn [graph_step]
     | cbn [graph_step] | | cbn [graph_step] | cbn [graph_step]].
  - apply log_extends_start_node.
  - destruct (_extract_booking_info s) as [s1 |] eqn:Hex; [| exact I].
    pose proof (follow_same_state after_extraction_edges
                  (_route_after_extraction s1) s1) as H.
    destruct (follow _ _ _); try subst; try exact I;
      apply log_extends_extract, Hex.
  - pose proof (follow_same_state user_intent_edges
                  (_route_user_intent (_handle_user_intent s))
                  (_handle_user_intent s)) as H.
    destruct (follow _ _ _); try rewrite H; try exact I;
      apply log_extends_handle_user_intent.
  - apply log_extends_show_summary.
  - pose proof (follow_same_state after_edit_edges
                  (_route_after_edit (_handle_edit s)) (_handle_edit s)) as H.
    destruct (follow _ _ _); try rewrite H; try exact I;
      apply log_extends_handle_edit.
  - pose proof (follow_same_state end_only_edges
                  (_check_if_options_shown (_query_branches s))
                  (_query_branches s)) as H.
    destruct (follow _ _ _); try rewrite H; try exact I;
      apply log_extends_query_branches.
  - pose proof (follow_same_state end_only_edges
                  (_check_if_options_shown (_query_services s))
                  (_query_services s)) as H.
    destruct (follow _ _ _); try rewrite H; try exact I;
      apply log_extends_query_services.
  - pose proof (follow_same_state end_only_edges
                  (_check_if_customer_info_collected (_collect_customer_info s))
                  (_collect_customer_info s)) as H.
    destruct (follow _ _ _); try rewrite H; try exact I;
      apply log_extends_collect.
  - rewrite graph_step_confirm_details, after_confirmation_same.
    destruct (_ && _); apply log_extends_confirm_details.
  - pose proof (follow_same_state booking_success_edges
                  (_check_booking_success (_create_booking s))
                  (_create_booking s)) as H.
    destruct (follow _ _ _); try rewrite H; try exact I;
      apply log_extends_create_booking.
  - destruct (_handle_error s) as [s1 |] eqn:Herr; [| exact I].
    apply log_extends_handle_error, Herr.
Qed.

(** X3. A turn only appends to the conversation log: the log of every
    state a run passes through, and of its final state, is the log it
    started with followed by assistant and system messages. No user
    message is added, dropped or reordered, so the latest user message
    stays the one the turn began with. *)
Theorem run_log_append_only (fuel : nat) (n : node) (s : BookingState) :
  (forall n1 s1, In (n1, s1) (fst (run fuel n s)) -> log_extends s s1)
  /\ (forall final, snd (run fuel n s) = Some final ->
        log_extends s final
        /\ latest_message "user" final = latest_message "user" s).
Proof.
  revert n s. induction fuel as [| fuel IH]; intros n s.
  - split; [intros n1 s1 [] | discriminate].
  - cbn [run]. pose proof (graph_step_log_extends n s) as Hstep.
    destruct (graph_step n s) as [n' s' | s' |].
    + destruct (IH n' s') as [IHv IHf].
      destruct (run fuel n' s') as [visited final'] eqn:Hrun.
      cbn [fst snd] in *. split.
      * intros n1 s1 [[= <- <-] | Hin]; [apply log_extends_refl |].
        eapply log_extends_trans; [exact Hstep | exact (IHv n1 s1 Hin)].
      * intros final Hfinal. destruct (IHf final Hfinal) as [Hext Hlatest].
        assert (Hall : log_extends s final)
          by (eapply log_extends_trans; eassumption).
        split; [exact Hall | apply log_extends_latest_user, Hall].
    + cbn [fst snd]. split.
      * intros n1 s1 [[= <- <-] | []]. apply log_extends_refl.
      * intros final [= <-].
        split; [exact Hstep | apply log_extends_latest_user, Hstep].
    + cbn [fst snd]. split.
      * intros n1 s1 [[= <- <-] | []]. apply log_extends_refl.
      * discriminate.
Qed.


(** *** Shape of the graph *)

Lemma _route_after_extraction_range (s : BookingState) :
  In (_route_after_extraction s)
     ["handle_user_intent"; "query_branches"; "query_services";
      "collect_customer_info"; "confirm_details"].
Proof.
  unfold _route_after_extraction, route_by_missing.
  destruct (latest_message "user" s) as [m |];
    repeat match goal with
           | |- context [if ?c then _ else _] => destruct c
           end; simpl; tauto.
Qed.

Lemma _route_user_intent_range (s : BookingState) :
  In (_route_user_intent s)
     ["show_summary"; "handle_edit"; "start_over"; "confirm_details";
      "extract_info"; "end"].
Proof.
  unfold _route_user_intent.
  destruct (last_user_intent s) as [intent |];
    repeat match goal with
           | |- context [if ?c then _ else _] => destruct c
           end; simpl; tauto.
Qed.

Lemma _route_after_edit_range (s : BookingState) :
  In (_route_after_edit s)
     ["query_branches"; "query_services"; "collect_customer_info";
      "show_summary"].
Proof.
  unfold _route_after_edit.
  repeat match goal with
         | |- context [if ?c then _ else _] => destruct c
         end; simpl; tauto.
Qed.

Lemma _check_if_options_shown_end (s : BookingState) :
  _check_if_options_shown s = "end".
Proof.
  unfold _check_if_options_shown.
  destruct (latest_message "assistant" s); [| reflexivity].
  destruct (_ || _); reflexivity.
Qed.

Lemma _check_if_customer_info_collected_end (s : BookingState) :
  _check_if_customer_info_collected s = "end".
Proof.
  unfold _check_if_customer_info_collected.
  destruct (latest_message "assistant" s); [| reflexivity].
  destruct (_ && _); reflexivity.
Qed.

Lemma _handle_error_none (s : BookingState) :
  _handle_error s = None <-> error_message s = None.
Proof.
  unfold _handle_error.
  change (error_message (set_current_step "handle_error" s))
    with (error_message s).
  destruct (error_message s); split; intros H; congruence.
Qed.

(** X7. The steps that show a list or ask for the customer's details
    always end the turn: after [query_branches], [query_services],
    [collect_customer_info] and [show_summary] the run stops, whatever the
    state and whatever was or was not appended to the log. *)
Theorem asking_steps_end_the_turn (s : BookingState) :
  graph_step N_query_branches s = Done (_query_branches s)
  /\ graph_step N_query_services s = Done (_query_services s)
  /\ graph_step N_collect_customer_info s = Done (_collect_customer_info s)
  /\ graph_step N_show_summary s = Done (_show_summary s).
Proof.
  cbn [graph_step].
  rewrite !_check_if_options_shown_end, _check_if_customer_info_collected_end.
  repeat split; reflexivity.
Qed.

(** X6. Every answer of a router is a key of the edge mapping of its
    node, so a step of the graph fails in two cases only: the extraction
    node raised, or the error node was entered with no error text
    stored. *)
Theorem graph_step_raised_only (n : node) (s : BookingState) :
  graph_step n s = Raised ->
  (n = N_extract_info /\ _extract_booking_info s = None)
  \/ (n = N_handle_error /\ error_message s = None).
Proof.
  destruct n; intros H;
    [cbn [graph_step] in H | cbn [graph_step] in H | cbn [graph_step] in H
     | cbn [graph_step] in H | cbn [graph_step] in H | cbn [graph_step] in H
     | cbn [graph_step] in H | cbn [graph_step] in H |
     | cbn [graph_step] in H | cbn [graph_step] in H].
  - discriminate.
  - destruct (_extract_booking_info s) as [s1 |]; [| left; auto].
    exfalso. pose proof (_route_after_extraction_range s1) as Hr.
    simpl in Hr.
    repeat (destruct Hr as [Hr | Hr]; [rewrite <- Hr in H; discriminate H |]).
    contradiction.
  - exfalso.
    pose proof (_route_user_intent_range (_handle_user_intent s)) as Hr.
    simpl in Hr.
    repeat (destruct Hr as [Hr | Hr]; [rewrite <- Hr in H; discriminate H |]).
    contradiction.
  - discriminate.
  - exfalso.
    pose proof (_route_after_edit_range (_handle_edit s)) as Hr.
    simpl in Hr.
    repeat (destruct Hr as [Hr | Hr]; [rewrite <- Hr in H; discriminate H |]).
    contradiction.
  - rewrite _check_if_options_shown_end in H. discriminate.
  - rewrite _check_if_options_shown_end in H. discriminate.
  - rewrite _check_if_customer_info_collected_end in H. discriminate.
  - rewrite graph_step_confirm_details in H. destruct (_ && _); discriminate.
  - unfold _check_booking_success in H.
    destruct (is_complete (_create_booking s)); discriminate.
  - right. split; [reflexivity |]. apply _handle_error_none.
    destruct (_handle_error s); [discriminate | reflexivity].
Qed.

(** *** Gateway calls of a turn *)

Lemma gateway_calls_skip (n : node) (s : BookingState)
  (rest : list (node * BookingState)) :
  n <> N_create_booking ->
  gateway_calls ((n, s) :: rest) = gateway_calls rest.
Proof. destruct n; intros H; try reflexivity. contradiction. Qed.

Lemma gateway_calls_single (n : node) (s : BookingState) :
  List.length (gateway_calls [(n, s)]) <= 1.
Proof.
  destruct n; cbn [gateway_calls List.length]; try lia.
  destruct (build_booking_request _); cbn [List.length]; lia.
Qed.

Lemma gateway_calls_at_most_once (fuel : nat) :
  forall (n : node) (s : BookingState),
    well_entered n s ->
    List.length (gateway_calls (fst (run fuel n s))) <= 1.
Proof.
  induction fuel as [| fuel IH]; intros n s Hgood; cbn [run].
  - cbn. lia.
  - destruct (graph_step n s) as [n' s' | s' |] eqn:Hstep.
    + pose proof (graph_step_well_entered n n' s s' Hgood Hstep) as Hgood'.
      specialize (IH n' s' Hgood').
      destruct (run fuel n' s') as [visited final]. cbn [fst] in *.
      destruct Hgood as [_ Hready].
      rewrite gateway_calls_skip; [exact IH |].
      intros ->. rewrite graph_step_create_booking_ready in Hstep;
        [discriminate | apply (Hready eq_refl)].
    + apply gateway_calls_single.
    + apply gateway_calls_single.
Qed.

(** X4. A turn calls the booking gateway at most once: a run started
    at the entry point, however long, makes no second call. *)
Theorem turn_calls_gateway_at_most_once (fuel : nat) (s0 : BookingState) :
  List.length (gateway_calls (fst (run fuel N_start s0))) <= 1.
Proof. apply gateway_calls_at_most_once, well_entered_start. Qed.

Lemma truthy_some (o : option string) :
  Py.truthy o = true -> exists c rest, o = Some (String c rest).
Proof. destruct o as [[| c rest] |]; try discriminate. eauto. Qed.

(** X5. Every payload sent to the gateway during a run carries the
    branch and service ids read from the state, parsed as integers, and
    the customer's name and phone as stored: the fallback ids 8850 and
    257170 are never used by the graph, because [create_booking] is only
    entered with both ids set. *)
Theorem gateway_payload_from_state (fuel : nat) (s0 : BookingState)
  (request : booking_request) :
  In request (gateway_calls (fst (run fuel N_start s0))) ->
  exists s1 b v,
    In (N_create_booking, s1) (fst (run fuel N_start s0))
    /\ branch_id s1 = Some b /\ Py.int_of_str b = Some (req_branch_id request)
    /\ service_id s1 = Some v
    /\ Py.int_of_str v = Some (req_service_id request)
    /\ req_customer_name request = customer_name s1
    /\ req_customer_mobile request = customer_mobile s1
    /\ Py.truthy (customer_name s1) = true
    /\ Py.truthy (customer_mobile s1) = true.
Proof.
  intros Hcall. apply gateway_calls_origin in Hcall.
  destruct Hcall as [s1 [Hin Hbuild]].
  destruct (run_well_entered fuel N_start s0 (well_entered_start s0) _ _ Hin)
    as [_ Hready].
  destruct (Hready eq_refl) as [_ [_ [Hnil _]]].
  assert (Hb := required_truthy s1 "branch_id" Hnil ltac:(simpl; tauto)).
  assert (Hv := required_truthy s1 "service_id" Hnil ltac:(simpl; tauto)).
  assert (Hn := required_truthy s1 "customer_name" Hnil ltac:(simpl; tauto)).
  assert (Hm := required_truthy s1 "customer_mobile" Hnil ltac:(simpl; tauto)).
  change (state_get s1 "branch_id") with (branch_id s1) in Hb.
  change (state_get s1 "service_id") with (service_id s1) in Hv.
  change (state_get s1 "customer_name") with (customer_name s1) in Hn.
  change (state_get s1 "customer_mobile") with (customer_mobile s1) in Hm.
  destruct (truthy_some _ Hb) as [cb [rb Hbranch]].
  destruct (truthy_some _ Hv) as [cv [rv Hservice]].
  exists s1, (String cb rb), (String cv rv).
  unfold build_booking_request in Hbuild.
  change (branch_id (set_current_step "create_booking" s1))
    with (branch_id s1) in Hbuild.
  change (service_id (set_current_step "create_booking" s1))
    with (service_id s1) in Hbuild.
  rewrite Hbranch, Hservice in Hbuild. unfold id_or_default in Hbuild.
  destruct (Py.int_of_str (String cb rb)) as [zb |]; [| discriminate].
  destruct (Py.int_of_str (String cv rv)) as [zv |]; [| discriminate].
  injection Hbuild as <-. cbn.
  repeat split; assumption.
Qed.


(** *** Turns opened by a control command *)

Lemma latest_intent_extends (s s' : BookingState) (intent : string) :
  log_extends s s' -> latest_intent s intent -> latest_intent s' intent.
Proof.
  intros Hext [m [Hlatest Hintent]]. exists m.
  rewrite (log_extends_latest_user s s' Hext). auto.
Qed.

Lemma latest_user_said (s : BookingState) (text : string) :
  latest_message "user" (add_message s "user" text)
  = Some (Message "user" text now).
Proof.
  unfold latest_message, add_message. cbn [conversation_history
    set_conversation_history]. rewrite rev_app_distr. reflexivity.
Qed.

Lemma latest_intent_turn_input (sessions : gmap string session_data)
  (user_session_id user_input : string)
  (extracted_info : list (string * string)) :
  latest_intent (turn_input sessions user_session_id user_input extracted_info)
    (detect_user_intent user_input).
Proof.
  unfold turn_input, latest_intent.
  destruct (sessions !! user_session_id) as [data |].
  - exists (Message "user" user_input now). split; [| reflexivity].
    change (latest_message "user"
              (set_current_step "extract_info"
                 (add_message (state data) "user" user_input)))
      with (latest_message "user" (add_message (state data) "user" user_input)).
    apply latest_user_said.
  - exists (Message "user" user_input now). split; [| reflexivity].
    apply latest_user_said.
Qed.

(** After extraction, a control command is handed to the intent handler. *)
Lemma _route_after_extraction_control (s : BookingState) (intent : string) :
  latest_intent s intent -> Py.mem intent control_intents = true ->
  _route_after_extraction s = "handle_user_intent".
Proof.
  intros [m [Hlatest Hintent]] Hmem. unfold _route_after_extraction.
  rewrite Hlatest, Hintent, Hmem. reflexivity.
Qed.

(** The intent handler on a start-over message: what it yields and where
    the router sends it. *)
Lemma _handle_user_intent_start_over (s : BookingState) :
  latest_intent s "start_over" ->
  _handle_user_intent s
  = set_current_step "start"
      (add_message
         (set_conversation_history (conversation_history s)
            (initialize_booking_state (session_id s)))
         "assistant"
         "Let's start over with your booking. What would you like to book?").
Proof.
  intros [m [Hlatest Hintent]]. unfold _handle_user_intent.
  change (latest_message "user" (set_current_step "handle_user_intent" s))
    with (latest_message "user" s).
  rewrite Hlatest, Hintent. reflexivity.
Qed.

Lemma start_over_cycle_step (n : node) (s : BookingState) :
  start_over_cycle n s ->
  match graph_step n s with
  | Next n' s' => start_over_cycle n' s'
  | Done _ => False
  | Raised => True
  end.
Proof.
  intros [Hnode Hintent].
  destruct Hnode as [-> | [-> | ->]]; cbn [graph_step].
  - split; [auto |].
    eapply latest_intent_extends; [apply log_extends_start_node | exact Hintent].
  - destruct (_extract_booking_info s) as [s1 |] eqn:Hex; [| exact I].
    assert (H1 : latest_intent s1 "start_over").
    { eapply latest_intent_extends; [eapply log_extends_extract, Hex |].
      exact Hintent. }
    rewrite (_route_after_extraction_control s1 "start_over" H1 eq_refl).
    cbn. split; [auto | exact H1].
  - assert (H1 : latest_intent (_handle_user_intent s) "start_over").
    { eapply latest_intent_extends;
        [apply log_extends_handle_user_intent | exact Hintent]. }
    rewrite (_handle_user_intent_start_over s Hintent) in *.
    cbn. split; [auto | exact H1].
Qed.

Lemma start_over_cycle_run (fuel : nat) :
  forall (n : node) (s : BookingState),
    start_over_cycle n s -> snd (run fuel n s) = None.
Proof.
  induction fuel as [| fuel IH]; intros n s Hcycle; cbn [run];
    [reflexivity |].
  pose proof (start_over_cycle_step n s Hcycle) as Hstep.
  destruct (graph_step n s) as [n' s' | s' |].
  - specialize (IH n' s' Hstep). destruct (run fuel n' s'). exact IH.
  - contradiction.
  - reflexivity.
Qed.

(** X1. A turn whose message is classified as start-over never reaches
    [END]: the run goes round extraction and the intent handler (the reset
    clears the stored intent, so the router sends the state back to
    extraction, where the same user message is classified again) until
    the step bound is hit or the extractor raises. The workflow call
    therefore fails, and [handle_question] deletes the session and answers
    with its apology. *)
Theorem start_over_never_completes (sessions : gmap string session_data)
  (user_session_id user_input : string)
  (extracted_info : list (string * string)) (friendly_prompt : string)
  (s : BookingState) :
  (latest_intent s "start_over" ->
   forall fuel, snd (run fuel N_start s) = None)
  /\ (detect_user_intent user_input = "start_over" ->
      handle_booking_question sessions user_session_id user_input
        extracted_info friendly_prompt
      = (delete user_session_id sessions, Some apology)).
Proof.
  split.
  - intros Hintent fuel. apply start_over_cycle_run. split; auto.
  - intros Hintent.
    assert (Hnone : turn_result sessions user_session_id user_input
                      extracted_info = None).
    { rewrite turn_result_input. unfold invoke.
      rewrite start_over_cycle_run; [reflexivity |].
      split; [auto |]. rewrite <- Hintent. apply latest_intent_turn_input. }
    unfold handle_booking_question. unfold turn_result in Hnone.
    destruct (sessions !! user_session_id) as [data |]; rewrite Hnone;
      reflexivity.
Qed.

(** The first steps of a turn opened by a control command. *)
Lemma run_to_intent_handler (fuel : nat) (s s2 : BookingState)
  (intent : string) :
  latest_intent s intent -> Py.mem intent control_intents = true ->
  _extract_booking_info (_start_node s) = Some s2 ->
  run (S (S fuel)) N_start s
  = ((N_start, s) :: (N_extract_info, _start_node s)
       :: fst (run fuel N_handle_user_intent s2),
     snd (run fuel N_handle_user_intent s2))
  /\ latest_intent s2 intent.
Proof.
  intros Hintent Hmem Hex.
  assert (H2 : latest_intent s2 intent).
  { eapply latest_intent_extends; [eapply log_extends_extract, Hex |].
    eapply latest_intent_extends; [apply log_extends_start_node | exact Hintent]. }
  split; [| exact H2].
  cbn [run graph_step]. rewrite Hex.
  rewrite (_route_after_extraction_control s2 intent H2 Hmem).
  cbn [follow edge_lookup after_extraction_edges String.eqb Ascii.eqb Bool.eqb].
  destruct (run fuel N_handle_user_intent s2). reflexivity.
Qed.

Lemma _handle_user_intent_cancel (s : BookingState) :
  latest_intent s "cancel" ->
  _handle_user_intent s
  = set_current_step "cancelled"
      (add_message
         (set_last_user_intent (Some "cancel")
            (set_current_step "handle_user_intent" s))
         "assistant"
         "Your booking has been cancelled. Feel free to start a new booking anytime!").
Proof.
  intros [m [Hlatest Hintent]]. unfold _handle_user_intent.
  change (latest_message "user" (set_current_step "handle_user_intent" s))
    with (latest_message "user" s).
  rewrite Hlatest, Hintent. reflexivity.
Qed.

(** X2. A turn whose message is classified as cancel, when extraction
    does not raise, visits the entry, extraction and the intent handler
    and ends there: the step is [cancelled], the reply is the cancellation
    text, no booking data changes in the handler and the gateway is not
    called. The session is not removed for that: the registry entry of a
    continuing session holds the cancelled state after the turn, unless
    the flag and the confirmation marker in the log make the turn count
    as a completed booking. *)
Theorem cancel_turn_keeps_session (sessions : gmap string session_data)
  (user_session_id user_input : string) (data : session_data)
  (s2 : BookingState) (friendly_prompt : string) :
  sessions !! user_session_id = Some data ->
  detect_user_intent user_input = "cancel" ->
  _extract_booking_info
    (_start_node (turn_input sessions user_session_id user_input []))
  = Some s2 ->
  let final := _handle_user_intent s2 in
  invoke (turn_input sessions user_session_id user_input [])
  = ([(N_start, turn_input sessions user_session_id user_input []);
      (N_extract_info,
       _start_node (turn_input sessions user_session_id user_input []));
      (N_handle_user_intent, s2)], Some final)
  /\ current_step final = "cancelled"
  /\ same_booking_data s2 final
  /\ option_map content (latest_message "assistant" final)
     = Some "Your booking has been cancelled. Feel free to start a new booking anytime!"
  /\ (has_confirmation (rev (conversation_history final)) = false ->
      handle_booking_question sessions user_session_id user_input []
        friendly_prompt
      = (<[user_session_id :=
             {| state := final; started_at := started_at data |}]> sessions,
         Some "Your booking has been cancelled. Feel free to start a new booking anytime!")).
Proof.
  intros Hlookup Hintent Hex final.
  pose proof (latest_intent_turn_input sessions user_session_id user_input [])
    as Hlatest.
  rewrite Hintent in Hlatest.
  destruct (run_to_intent_handler 23 _ s2 "cancel" Hlatest eq_refl Hex)
    as [Hrun H2].
  assert (Hfinal : final
                   = set_current_step "cancelled"
                       (add_message
                          (set_last_user_intent (Some "cancel")
                             (set_current_step "handle_user_intent" s2))
                          "assistant"
                          "Your booking has been cancelled. Feel free to start a new booking anytime!"))
    by (apply _handle_user_intent_cancel, H2).
  assert (Hinvoke :
            invoke (turn_input sessions user_session_id user_input [])
            = ([(N_start, turn_input sessions user_session_id user_input []);
                (N_extract_info,
                 _start_node
                   (turn_input sessions user_session_id user_input []));
                (N_handle_user_intent, s2)], Some final)).
  { unfold invoke, recursion_limit. rewrite Hrun.
    cbn [run graph_step]. fold final. rewrite Hfinal. reflexivity. }
  assert (Hreply : option_map content (latest_message "assistant" final)
                   = Some "Your booking has been cancelled. Feel free to start a new booking anytime!").
  { rewrite Hfinal. unfold latest_message, add_message.
    cbn [conversation_history set_conversation_history set_current_step
         set_last_user_intent].
    rewrite rev_app_distr. reflexivity. }
  split; [exact Hinvoke |].
  split; [rewrite Hfinal; reflexivity |].
  split; [rewrite Hfinal; unfold same_booking_data; repeat split; reflexivity |].
  split; [exact Hreply |].
  intros Hmarker. unfold handle_booking_question. rewrite Hlookup.
  assert (Hcont : continue_workflow (state data) user_input
                  = Some (result_of final)).
  { pose proof (turn_result_input sessions user_session_id user_input [])
      as Hturn.
    unfold turn_result in Hturn. rewrite Hlookup in Hturn.
    rewrite Hturn, Hinvoke. reflexivity. }
  rewrite Hcont.
  assert (Hnot : _is_booking_truly_complete (result_of final) = false).
  { destruct (_is_booking_truly_complete (result_of final)) eqn:Htruly;
      [| reflexivity].
    apply _is_booking_truly_complete_iff in Htruly.
    destruct Htruly as [_ [Hm | [Hc _]]].
    - cbn [wr_state result_of] in Hm. congruence.
    - cbn [wr_state result_of] in Hc. rewrite Hfinal in Hc. discriminate Hc. }
  rewrite Hnot. cbn [wr_state wr_response result_of]. rewrite Hreply.
  reflexivity.
Qed.


(** *** Handlers that change no booking data *)

(** X14. Showing the summary changes no booking data: it sets the
    step and the shown flag and appends the summary text. Shown again
    with no other input it appends the same text once more. *)
Theorem show_summary_repeatable (s : BookingState) :
  let s1 := _show_summary s in
  let s2 := _show_summary s1 in
  same_booking_data s s1 /\ same_booking_data s s2
  /\ current_step s2 = "show_summary" /\ booking_summary_shown s2 = true
  /\ conversation_history s2
     = (conversation_history s
        ++ [Message "assistant" (generate_booking_summary s) now;
            Message "assistant" (generate_booking_summary s) now])%list.
Proof.
  cbv zeta. unfold same_booking_data.
  repeat split; try reflexivity.
  unfold _show_summary, add_message.
  cbn [conversation_history set_conversation_history set_current_step
       set_booking_summary_shown].
  rewrite <- app_assoc. reflexivity.
Qed.

(** X12. An edit command that names no known field clears nothing:
    the handler appends the list of editable fields and moves to
    [show_summary], the graph then runs the summary step, so the reply of
    the turn is the booking summary and the data stay as they were. *)
Theorem _handle_edit_unrecognised (s : BookingState) (m : message) :
  latest_message "user" s = Some m ->
  fst (handle_edit_command (content m)) = None ->
  let s' := _handle_edit s in
  same_booking_data s s'
  /\ conversation_history s'
     = (conversation_history s ++ [Message "assistant" edit_options_text now])%list
  /\ graph_step N_handle_edit s = Next N_show_summary s'
  /\ same_booking_data s (_show_summary s')
  /\ option_map content (latest_message "assistant" (_show_summary s'))
     = Some (generate_booking_summary s).
Proof.
  intros Hlatest Hnone. cbv zeta.
  assert (Heq : _handle_edit s
                = set_current_step "show_summary"
                    (add_message (set_current_step "handle_edit" s)
                       "assistant" edit_options_text)).
  { unfold _handle_edit.
    change (latest_message "user" (set_current_step "handle_edit" s))
      with (latest_message "user" s).
    rewrite Hlatest.
    destruct (handle_edit_command (content m)) as [[field |] next];
      [discriminate | reflexivity]. }
  cbn [graph_step]. rewrite Heq.
  split; [unfold same_booking_data; repeat split; reflexivity |].
  split; [reflexivity |].
  split; [reflexivity |].
  split; [unfold same_booking_data; repeat split; reflexivity |].
  unfold _show_summary, latest_message, add_message.
  cbn [conversation_history set_conversation_history set_current_step
       set_booking_summary_shown].
  rewrite rev_app_distr. reflexivity.
Qed.

Lemma _handle_user_intent_keeps_intent (s : BookingState) (m : message) :
  latest_message "user" s = Some m ->
  detect_user_intent (content m) <> "start_over" ->
  last_user_intent (_handle_user_intent s)
  = Some (detect_user_intent (content m)).
Proof.
  intros Hlatest Hne. unfold _handle_user_intent.
  change (latest_message "user" (set_current_step "handle_user_intent" s))
    with (latest_message "user" s).
  rewrite Hlatest.
  pose proof (detect_user_intent_range (content m)) as Hrange.
  unfold six_intents in Hrange. cbn [In] in Hrange.
  destruct Hrange as [Hr | [Hr | [Hr | [Hr | [Hr | [Hr | []]]]]]];
    rewrite <- Hr in *; try reflexivity; congruence.
Qed.

(** X13. On a start-over message the intent handler keeps the session
    id and the log, to which it appends its acknowledgement, and puts
    every other field back to its initial value: all booking fields and
    caches empty, party size one, no error, flags cleared. The stored
    intent is cleared too, so the router answers [extract_info]; with a
    user message in the log the edge from the intent handler back to
    [start] is never taken. *)
Theorem start_over_resets (s : BookingState) (m : message) :
  latest_message "user" s = Some m ->
  (forall s', graph_step N_handle_user_intent s <> Next N_start s')
  /\ (detect_user_intent (content m) = "start_over" ->
      let s' := _handle_user_intent s in
      session_id s' = session_or_fresh (session_id s)
      /\ conversation_history s'
         = (conversation_history s
            ++ [Message "assistant"
                  "Let's start over with your booking. What would you like to book?"
                  now])%list
      /\ customer_mobile s' = None /\ customer_name s' = None
      /\ total_customer s' = Some 1%Z
      /\ branch_id s' = None /\ service_id s' = None
      /\ booking_date s' = None /\ booking_time s' = None
      /\ branch_options s' = [] /\ service_options s' = []
      /\ error_message s' = None /\ is_complete s' = false
      /\ edit_mode s' = false /\ booking_summary_shown s' = false
      /\ missing_fields s' = []
      /\ get_missing_fields s' = required_fields
      /\ current_step s' = "start"
      /\ _route_user_intent s' = "extract_info").
Proof.
  intros Hlatest. split.
  - intros s' Hstep. cbn [graph_step] in Hstep.
    destruct (String.eqb_spec (detect_user_intent (content m)) "start_over")
      as [Hso | Hne].
    + rewrite (_handle_user_intent_start_over s) in Hstep
        by (exists m; auto).
      discriminate Hstep.
    + pose proof (_handle_user_intent_keeps_intent s m Hlatest Hne) as Hkept.
      unfold _route_user_intent in Hstep. rewrite Hkept in Hstep.
      pose proof (detect_user_intent_range (content m)) as Hrange.
      unfold six_intents in Hrange. cbn [In] in Hrange.
      destruct Hrange as [Hr | [Hr | [Hr | [Hr | [Hr | [Hr | []]]]]]];
        rewrite <- Hr in *; try congruence; discriminate Hstep.
  - intros Hintent. cbv zeta.
    rewrite (_handle_user_intent_start_over s) by (exists m; auto).
    repeat split; reflexivity.
Qed.

(** *** The booking payload *)


(** *** The registry *)

(** X16. A booking turn for one key leaves the sessions of all other
    keys as they were. *)
Theorem handle_booking_question_isolated
  (sessions : gmap string session_data) (user_session_id user_input : string)
  (extracted_info : list (string * string)) (friendly_prompt : string)
  (other : string) :
  other <> user_session_id ->
  fst (handle_booking_question sessions user_session_id user_input
         extracted_info friendly_prompt) !! other
  = sessions !! other.
Proof.
  intros Hne. unfold handle_booking_question.
  destruct (sessions !! user_session_id) as [data |].
  - destruct (continue_workflow _ _) as [wr |]; cbn [fst].
    + destruct (_is_booking_truly_complete wr); cbn [fst].
      * rewrite lookup_delete_ne, lookup_insert_ne by congruence. reflexivity.
      * rewrite lookup_insert_ne by congruence. reflexivity.
    + rewrite lookup_delete_ne by congruence. reflexivity.
  - destruct (start_workflow _ _) as [wr |]; cbn [fst].
    + destruct (_is_booking_truly_complete wr); cbn [fst].
      * rewrite lookup_delete_ne, lookup_insert_ne by congruence. reflexivity.
      * rewrite lookup_insert_ne by congruence. reflexivity.
    + rewrite lookup_delete_ne by congruence. reflexivity.
Qed.

(** X17. A session that survives a turn keeps the start time it was
    created with: the turn stores the new state under the old
    [started_at], so activity does not renew the age that the idle sweep
    measures. A session created in the turn is stamped with the clock. *)
Theorem session_start_time_kept
  (sessions : gmap string session_data) (user_session_id user_input : string)
  (extracted_info : list (string * string)) (friendly_prompt : string)
  (after : session_data) :
  fst (handle_booking_question sessions user_session_id user_input
         extracted_info friendly_prompt) !! user_session_id = Some after ->
  started_at after
  = match sessions !! user_session_id with
    | Some before => started_at before
    | None => now
    end.
Proof.
  unfold handle_booking_question.
  destruct (sessions !! user_session_id) as [data |].
  - destruct (continue_workflow _ _) as [wr |]; cbn [fst].
    + destruct (_is_booking_truly_complete wr); cbn [fst].
      * rewrite lookup_delete_eq. discriminate.
      * rewrite lookup_insert_eq. intros [= <-]. reflexivity.
    + rewrite lookup_delete_eq. discriminate.
  - destruct (start_workflow _ _) as [wr |]; cbn [fst].
    + destruct (_is_booking_truly_complete wr); cbn [fst].
      * rewrite lookup_delete_eq. discriminate.
      * rewrite lookup_insert_eq. intros [= <-]. reflexivity.
    + rewrite lookup_delete_eq. discriminate.
Qed.


(** *** Sweeping and clearing the registry *)

Lemma scan_inactive_some (older : string -> option bool)
  (items : list (string * session_data)) :
  (forall item, In item items -> older (started_at (snd item)) <> None) ->
  scan_inactive older items
  = Some (map fst
            (List.filter
               (fun item => match older (started_at (snd item)) with
                            | Some true => true
                            | _ => false
                            end) items)).
Proof.
  induction items as [| [k d] rest IH]; intros Hall; [reflexivity |].
  cbn [scan_inactive List.filter snd].
  assert (Hd := Hall (k, d) (or_introl eq_refl)). cbn [snd] in Hd.
  rewrite IH by (intros item Hin; apply Hall; right; exact Hin).
  destruct (older (started_at d)) as [[|] |]; [reflexivity | reflexivity |].
  congruence.
Qed.

Lemma scan_inactive_none (older : string -> option bool)
  (items : list (string * session_data)) (item : string * session_data) :
  In item items -> older (started_at (snd item)) = None ->
  scan_inactive older items = None.
Proof.
  induction items as [| [k d] rest IH]; intros Hin Hnone; [contradiction |].
  cbn [scan_inactive]. destruct Hin as [<- | Hin].
  - cbn [snd] in Hnone. rewrite Hnone. reflexivity.
  - rewrite (IH Hin Hnone). destruct (older (started_at d)); reflexivity.
Qed.

Lemma lookup_foldl_delete_None (l : list string)
  (m : gmap string session_data) (k : string) :
  m !! k = None ->
  foldl (fun m session_id => delete session_id m) m l !! k = None.
Proof.
  revert m. induction l as [| a l IH]; intros m H; [exact H |].
  cbn [foldl]. apply IH. rewrite lookup_delete_None. auto.
Qed.

Lemma lookup_foldl_delete_in (l : list string)
  (m : gmap string session_data) (k : string) :
  In k l ->
  foldl (fun m session_id => delete session_id m) m l !! k = None.
Proof.
  revert m. induction l as [| a l IH]; intros m Hin; [contradiction |].
  cbn [foldl]. destruct (decide (a = k)) as [-> | Hne].
  - apply lookup_foldl_delete_None, lookup_delete_eq.
  - destruct Hin as [-> | Hin]; [contradiction |]. apply IH, Hin.
Qed.

Lemma lookup_foldl_delete_notin (l : list string)
  (m : gmap string session_data) (k : string) :
  ~ In k l ->
  foldl (fun m session_id => delete session_id m) m l !! k = m !! k.
Proof.
  revert m. induction l as [| a l IH]; intros m Hnotin; [reflexivity |].
  cbn [foldl]. rewrite IH by (intros H; apply Hnotin; right; exact H).
  apply lookup_delete_ne. intros ->. apply Hnotin. left. reflexivity.
Qed.

Lemma size_foldl_delete (l : list string) :
  forall m : gmap string session_data,
    List.NoDup l -> (forall k, In k l -> is_Some (m !! k)) ->
    List.length l
    + size (foldl (fun m session_id => delete session_id m) m l)
    = size m.
Proof.
  induction l as [| a l IH]; intros m Hnodup Hall; [reflexivity |].
  cbn [foldl List.length]. inversion Hnodup as [| ? ? Hnotin Hnodup']; subst.
  assert (Ha : is_Some (m !! a)) by (apply Hall; left; reflexivity).
  assert (Hsize : size m = S (size (delete a m))).
  { destruct Ha as [d Hd].
    rewrite <- (insert_delete_id m a d Hd) at 1.
    rewrite map_size_insert_None by apply lookup_delete_eq. reflexivity. }
  rewrite Hsize, <- (IH (delete a m) Hnodup'); [lia |].
  intros k Hin. rewrite lookup_delete_ne; [apply Hall; right; exact Hin |].
  intros ->. contradiction.
Qed.

Lemma NoDup_map_fst_filter {A B} (f : A * B -> bool) (l : list (A * B)) :
  List.NoDup (map fst l) -> List.NoDup (map fst (List.filter f l)).
Proof.
  induction l as [| x l IH]; intros H; [constructor |].
  cbn [map] in H. inversion H as [| ? ? Hnotin Hnodup]; subst.
  cbn [List.filter]. destruct (f x); [| apply IH, Hnodup].
  cbn [map]. constructor; [| apply IH, Hnodup].
  intros Hin. apply Hnotin. apply in_map_iff in Hin.
  destruct Hin as [y [Hy Hin]]. apply filter_In in Hin.
  apply in_map_iff. exists y. tauto.
Qed.

(** X18. The idle sweep removes exactly the sessions older than the
    limit and returns how many it removed; the sessions it keeps are
    untouched. When the start time of some session cannot be read, the
    exception leaves the scan before anything is deleted: the registry
    stays as it was, expired sessions included, and zero is returned. *)
Theorem cleanup_removes_exactly_expired
  (age_exceeds : string -> Z -> option bool) (max_age_minutes : Z)
  (sessions : gmap string session_data) :
  ((exists k d, sessions !! k = Some d
                /\ age_exceeds (started_at d) max_age_minutes = None) ->
   cleanup_inactive_sessions age_exceeds max_age_minutes sessions
   = (sessions, 0))
  /\ ((forall k d, sessions !! k = Some d ->
                   age_exceeds (started_at d) max_age_minutes <> None) ->
      (forall k,
         fst (cleanup_inactive_sessions age_exceeds max_age_minutes sessions)
           !! k
         = match sessions !! k with
           | Some d => if expired age_exceeds max_age_minutes d then None
                       else Some d
           | None => None
           end)
      /\ snd (cleanup_inactive_sessions age_exceeds max_age_minutes sessions)
         + size (fst (cleanup_inactive_sessions age_exceeds max_age_minutes
                        sessions))
         = size sessions).
Proof.
  unfold cleanup_inactive_sessions. split.
  - intros [k [d [Hlookup Hnone]]].
    rewrite (scan_inactive_none _ _ (k, d)); [reflexivity | | exact Hnone].
    apply list_elem_of_In, elem_of_map_to_list. exact Hlookup.
  - intros Hall.
    rewrite scan_inactive_some.
    2:{ intros [k d] Hin. apply list_elem_of_In, elem_of_map_to_list in Hin.
        cbn [snd]. eapply Hall, Hin. }
    cbn [fst snd].
    set (old := fun item : string * session_data =>
                  match age_exceeds (started_at (snd item)) max_age_minutes with
                  | Some true => true
                  | _ => false
                  end).
    assert (Hmem : forall k, In k (map fst (List.filter old (map_to_list sessions)))
                             <-> exists d, sessions !! k = Some d
                                           /\ expired age_exceeds
                                                max_age_minutes d = true).
    { intros k. rewrite in_map_iff. split.
      - intros [[k' d] [Hk Hin]]. cbn [fst] in Hk. subst k'.
        apply filter_In in Hin. destruct Hin as [Hin Hold].
        apply list_elem_of_In, elem_of_map_to_list in Hin.
        exists d. split; [exact Hin | exact Hold].
      - intros [d [Hlookup Hold]]. exists (k, d). split; [reflexivity |].
        apply filter_In. split; [| exact Hold].
        apply list_elem_of_In, elem_of_map_to_list. exact Hlookup. }
    split.
    + intros k.
      destruct (sessions !! k) as [d |] eqn:Hlookup.
      * destruct (expired age_exceeds max_age_minutes d) eqn:Hold.
        -- apply lookup_foldl_delete_in, Hmem. eauto.
        -- rewrite lookup_foldl_delete_notin; [exact Hlookup |].
           intros Hin. apply Hmem in Hin. destruct Hin as [d' [Hd' Hold']].
           congruence.
      * apply lookup_foldl_delete_None, Hlookup.
    + apply size_foldl_delete.
      * apply NoDup_map_fst_filter. apply NoDup_ListNoDup.
        apply NoDup_fst_map_to_list.
      * intros k Hin. apply Hmem in Hin. destruct Hin as [d [Hd _]]. eauto.
Qed.

(** X19. Clearing with a key removes that session and no other, and
    leaves the registry alone when the key has no session. Clearing with
    no key, or with the empty string, empties the whole registry. *)
Theorem clear_booking_session_effect (session_id : option string)
  (sessions : gmap string session_data) :
  (Py.truthy session_id = false ->
   fst (clear_booking_session session_id sessions) = ∅)
  /\ (forall k, session_id = Some k -> k <> "" ->
        fst (clear_booking_session session_id sessions) !! k = None
        /\ (forall other, other <> k ->
              fst (clear_booking_session session_id sessions) !! other
              = sessions !! other)
        /\ (sessions !! k = None ->
            fst (clear_booking_session session_id sessions) = sessions)).
Proof.
  unfold clear_booking_session. split.
  - destruct session_id as [[| c r] |]; intros H; try reflexivity.
    discriminate H.
  - intros k -> Hk. destruct k as [| c r]; [contradiction |].
    destruct (sessions !! String c r) eqn:Hlookup; cbn [fst].
    + split; [apply lookup_delete_eq |].
      split; [| discriminate].
      intros other Hne. apply lookup_delete_ne. congruence.
    + split; [exact Hlookup |]. split; reflexivity.
Qed.

(** *** Extraction that finds nothing *)

Lemma merge_extraction_unusable (data : list (string * string))
  (s : BookingState) :
  nothing_usable data -> merge_extraction data s = s.
Proof.
  induction 1 as [| [key value] rest Hmember _ IH]; [reflexivity |].
  cbn [merge_extraction]. cbn [fst snd] in Hmember.
  destruct Hmember as [-> | [-> | ->]]; cbn.
  - exact IH.
  - rewrite andb_false_r. exact IH.
  - rewrite andb_false_r. exact IH.
Qed.

(** X20. An extraction whose members are all unusable (the key
    [next_step], an empty value, the text [Unknown]) changes no field:
    the extraction step only recomputes the missing fields, so a field
    that was set stays set. *)
Theorem _extract_with_llm_unusable (s : BookingState) (user_message : string)
  (data : list (string * string)) :
  llm_extract user_message s = Some data ->
  nothing_usable data ->
  _extract_with_llm s user_message = Some (update_missing_fields s)
  /\ same_booking_fields s (update_missing_fields s).
Proof.
  intros Hllm Hnone. unfold _extract_with_llm.
  rewrite Hllm, (merge_extraction_unusable data s Hnone).
  split; [reflexivity |]. unfold same_booking_fields. repeat split; reflexivity.
Qed.

(** *** Picking from the cached lists *)

Lemma pick_from_cache (pending : bool) (latest : option message)
  (options : list choice) (o : choice) :
  (if pending
   then match latest with
        | Some m => _parse_selection (content m) options
        | None => None
        end
   else None) = Some o ->
  pending = true /\ In o options.
Proof.
  destruct pending; [| discriminate].
  destruct latest as [m |]; [| discriminate].
  intros H. apply _parse_selection_member in H. tauto.
Qed.

(** X21. The query steps never invent an id. [_query_branches] leaves the
    service, the customer and the schedule fields alone, and either
    leaves the branch id as it is or, when a list was shown and no branch
    chosen yet, sets it to the id of one of the cached branches, keeping
    the cache. [_query_services] does the same for the service. *)
Theorem query_steps_pick_from_cache (s : BookingState) :
  (booking_fields_but_branch s (_query_branches s)
   /\ (branch_id (_query_branches s) = branch_id s
       \/ (branch_pending s = true
           /\ In (branch_id (_query_branches s))
                (stored_ids (branch_options s))
           /\ branch_options (_query_branches s) = branch_options s)))
  /\ (booking_fields_but_service s (_query_services s)
      /\ (service_id (_query_services s) = service_id s
          \/ (service_pending s = true
              /\ In (service_id (_query_services s))
                   (stored_ids (service_options s))
              /\ service_options (_query_services s) = service_options s))).
Proof.
  split.
  - unfold _query_branches.
    match goal with
    | |- context [match ?p with Some _ => _ | None => _ end] =>
        destruct p as [o |] eqn:Hpick
    end.
    + apply pick_from_cache in Hpick. destruct Hpick as [Hpending Hin].
      split; [unfold booking_fields_but_branch; repeat split; reflexivity |].
      right. split; [exact Hpending |]. split; [| reflexivity].
      unfold stored_ids. apply in_map_iff. exists o. split; [reflexivity |].
      exact Hin.
    + destruct (fetch_salon_branches _) as [e | [| b l]];
        (split; [unfold booking_fields_but_branch; repeat split; reflexivity
                | left; reflexivity]).
  - unfold _query_services.
    match goal with
    | |- context [match ?p with Some _ => _ | None => _ end] =>
        destruct p as [o |] eqn:Hpick
    end.
    + apply pick_from_cache in Hpick. destruct Hpick as [Hpending Hin].
      split; [unfold booking_fields_but_service; repeat split; reflexivity |].
      right. split; [exact Hpending |]. split; [| reflexivity].
      unfold stored_ids. apply in_map_iff. exists o. split; [reflexivity |].
      exact Hin.
    + destruct get_services as [e | [| b l]];
        (split; [unfold booking_fields_but_service; repeat split; reflexivity
                | left; reflexivity]).
Qed.

(** *** The turn that books *)

Lemma _handle_user_intent_confirm (s : BookingState) :
  latest_intent s "confirm" ->
  _handle_user_intent s
  = set_current_step "confirm_details"
      (set_last_user_intent (Some "confirm")
         (set_current_step "handle_user_intent" s)).
Proof.
  intros [m [Hlatest Hintent]]. unfold _handle_user_intent.
  change (latest_message "user" (set_current_step "handle_user_intent" s))
    with (latest_message "user" s).
  rewrite Hlatest, Hintent. reflexivity.
Qed.

(** X22. A turn whose message is classified as confirm and contains
    "confirm", on a state that has all six fields after extraction, runs
    start, extraction, the intent handler, the confirmation step and
    [create_booking], and ends there. The gateway is called once, with
    the payload built from that state, whatever the step and the stored
    error of the previous turn were. When the answer passes the success
    test the turn counts as a completed booking and the session is
    removed; when it does not, and the log has no confirmation marker,
    the session is kept. *)
Theorem confirm_turn_books (s s2 : BookingState) (request : booking_request) :
  latest_intent s "confirm" ->
  confirmed_by_user s = true ->
  _extract_booking_info (_start_node s) = Some s2 ->
  get_missing_fields s2 = [] ->
  let entry := after_confirmation (_handle_user_intent s2) in
  build_booking_request (set_current_step "create_booking" entry)
  = inr request ->
  invoke s
  = ([(N_start, s); (N_extract_info, _start_node s);
      (N_handle_user_intent, s2);
      (N_confirm_details, _handle_user_intent s2);
      (N_create_booking, entry)], Some (_create_booking entry))
  /\ gateway_calls (fst (invoke s)) = [request]
  /\ same_booking_fields s2 (_create_booking entry)
  /\ (response_ok (book_appointment request) = true ->
      _is_booking_truly_complete (result_of (_create_booking entry)) = true)
  /\ (response_ok (book_appointment request) = false ->
      current_step (_create_booking entry) = "handle_error"
      /\ (has_confirmation
            (rev (conversation_history (_create_booking entry))) = false ->
          _is_booking_truly_complete (result_of (_create_booking entry))
          = false)).
Proof.
  intros Hintent Hconf Hex Hnil entry Hbuild.
  destruct (run_to_intent_handler 23 s s2 "confirm" Hintent eq_refl Hex)
    as [Hrun H2].
  pose proof (_handle_user_intent_confirm s2 H2) as Hs3.
  assert (Hlatest2 : latest_message "user" s2 = latest_message "user" s).
  { apply log_extends_latest_user.
    eapply log_extends_trans;
      [apply log_extends_start_node | eapply log_extends_extract, Hex]. }
  assert (Hgo : confirmed_by_user (_handle_user_intent s2)
                && Nat.eqb (List.length
                              (get_missing_fields (_handle_user_intent s2))) 0
                = true).
  { rewrite Hs3.
    change (get_missing_fields
              (set_current_step "confirm_details"
                 (set_last_user_intent (Some "confirm")
                    (set_current_step "handle_user_intent" s2))))
      with (get_missing_fields s2).
    rewrite Hnil. unfold confirmed_by_user in *.
    change (latest_message "user"
              (set_current_step "confirm_details"
                 (set_last_user_intent (Some "confirm")
                    (set_current_step "handle_user_intent" s2))))
      with (latest_message "user" s2).
    rewrite Hlatest2, Hconf. reflexivity. }
  pose proof (ready_after_confirmation _ Hgo) as Hready. fold entry in Hready.
  destruct Hready as [Hcomplete _].
  assert (Hstep3 : graph_step N_handle_user_intent s2
                   = Next N_confirm_details (_handle_user_intent s2)).
  { cbn [graph_step]. rewrite Hs3. reflexivity. }
  assert (Hstep4 : graph_step N_confirm_details (_handle_user_intent s2)
                   = Next N_create_booking entry).
  { rewrite graph_step_confirm_details, Hgo. reflexivity. }
  assert (Hstep5 : graph_step N_create_booking entry
                   = Done (_create_booking entry))
    by (apply graph_step_create_booking_ready, Hcomplete).
  assert (Hinvoke :
            invoke s
            = ([(N_start, s); (N_extract_info, _start_node s);
                (N_handle_user_intent, s2);
                (N_confirm_details, _handle_user_intent s2);
                (N_create_booking, entry)], Some (_create_booking entry))).
  { unfold invoke, recursion_limit. rewrite Hrun.
    change (run 23 N_handle_user_intent s2)
      with (match graph_step N_handle_user_intent s2 with
            | Next n' s' =>
                let '(visited, final) := run 22 n' s' in
                ((N_handle_user_intent, s2) :: visited, final)
            | Done s' => ([(N_handle_user_intent, s2)], Some s')
            | Raised => ([(N_handle_user_intent, s2)], None)
            end).
    rewrite Hstep3.
    change (run 22 N_confirm_details (_handle_user_intent s2))
      with (match graph_step N_confirm_details (_handle_user_intent s2) with
            | Next n' s' =>
                let '(visited, final) := run 21 n' s' in
                ((N_confirm_details, _handle_user_intent s2) :: visited, final)
            | Done s' => ([(N_confirm_details, _handle_user_intent s2)], Some s')
            | Raised => ([(N_confirm_details, _handle_user_intent s2)], None)
            end).
    rewrite Hstep4.
    change (run 21 N_create_booking entry)
      with (match graph_step N_create_booking entry with
            | Next n' s' =>
                let '(visited, final) := run 20 n' s' in
                ((N_create_booking, entry) :: visited, final)
            | Done s' => ([(N_create_booking, entry)], Some s')
            | Raised => ([(N_create_booking, entry)], None)
            end).
    rewrite Hstep5. reflexivity. }
  split; [exact Hinvoke |].
  split.
  { rewrite Hinvoke. cbn [fst gateway_calls]. rewrite Hbuild. reflexivity. }
  assert (Hfields : same_booking_fields s2 (_create_booking entry)).
  { unfold _create_booking. rewrite Hbuild.
    destruct (response_ok (book_appointment request));
      unfold entry, after_confirmation; rewrite Hs3;
      unfold same_booking_fields; repeat split; reflexivity. }
  split; [exact Hfields |].
  split.
  - intros Hok. apply _is_booking_truly_complete_iff.
    unfold _create_booking. rewrite Hbuild, Hok.
    cbn [wr_is_complete wr_state result_of]. split; [reflexivity |].
    right. split; reflexivity.
  - intros Hfail.
    assert (Hcur : current_step (_create_booking entry) = "handle_error").
    { unfold _create_booking. rewrite Hbuild, Hfail. reflexivity. }
    split; [exact Hcur |]. intros Hmarker.
    destruct (_is_booking_truly_complete (result_of (_create_booking entry)))
      eqn:Htruly; [| reflexivity].
    apply _is_booking_truly_complete_iff in Htruly.
    destruct Htruly as [_ [Hm | [Hc _]]].
    + cbn [wr_state result_of] in Hm. congruence.
    + cbn [wr_state result_of] in Hc. rewrite Hcur in Hc. discriminate Hc.
Qed.

End Workflow.

(** ** The claims on concrete dialogues *)

(** C1, counterexample. Jane's dialogue up to the summary: the session
    sits at [confirm_details] with no missing field, the gateway has not
    been called in any of the three turns, and [is_complete] is already
    true. *)
Lemma C1_counterexample :
  exists data,
    @converse (sample_world jane_llm gateway_with_code) ∅ "jane"
      jane_until_summary !! "jane" = Some data
    /\ @calls_during (sample_world jane_llm gateway_with_code) ∅ "jane"
         jane_until_summary = []
    /\ missing_fields (state data) = []
    /\ current_step (state data) = "confirm_details"
    /\ is_complete (state data) = true.
Proof.
  eexists. split; [vm_compute; reflexivity |].
  repeat split; vm_compute; reflexivity.
Qed.

(** C6, counterexample. Branch, service, name and phone are all set and
    the message "which salon is closest?" carries no control intent; the
    precedence gives [confirm_details], the router answers
    [query_branches]. *)
Lemma C6_counterexample :
  let s := said "which salon is closest?" filled_state in
  latest_message "user" s
  = Some (Message "user" "which salon is closest?" "2026-11-30T10:00:00")
  /\ detect_user_intent "which salon is closest?" = "provide_info"
  /\ Py.truthy (branch_id s) = true
  /\ Py.truthy (service_id s) = true
  /\ Py.truthy (customer_name s) = true
  /\ Py.truthy (customer_mobile s) = true
  /\ route_by_missing s = "confirm_details"
  /\ _route_after_extraction s = "query_branches"
  /\ _route_after_extraction s <> "confirm_details".
Proof.
  repeat split; try (vm_compute; reflexivity). vm_compute. discriminate.
Qed.

(** C2 at the failing input. The gateway is called once, with Jane's
    booking, and answers with id 42 and confirmation code "BK001"; the
    handler takes the failure branch: no confirmation is appended, the
    error text is stored, the step becomes [handle_error] and the session
    stays in the registry. The same dialogue with the boolean [true] under
    [bookingCode] is the one that confirms and removes the session. *)
Theorem C2_confirmation_code_rejected :
  @calls_during (sample_world jane_llm gateway_with_code) ∅ "jane"
    (jane_until_summary ++ ["confirm"])
  = [BookingRequest (Some "Jane") (Some "555-1234") (Some 1%Z) 1 7
       (Some "2026-12-01") (Some "14:00")]
  /\ (exists data,
        @converse (sample_world jane_llm gateway_with_code) ∅ "jane"
          (jane_until_summary ++ ["confirm"]) !! "jane" = Some data
        /\ current_step (state data) = "handle_error"
        /\ error_message (state data) = Some "Unknown error occurred"
        /\ option_map content (latest_message "assistant" (state data))
           = Some (failed_message (Some "Unknown error occurred"))
        /\ has_confirmation (conversation_history (state data)) = false)
  /\ @converse (sample_world jane_llm gateway_with_flag) ∅ "jane"
       (jane_until_summary ++ ["confirm"]) !! "jane" = None.
Proof.
  split; [vm_compute; reflexivity |].
  split; [| vm_compute; reflexivity].
  eexists. split; [vm_compute; reflexivity |].
  repeat split; vm_compute; reflexivity.
Qed.

(** C4 at the failing input. The gateway rejects Jane's booking with
    "Invalid date". The turn visits [create_booking] and ends there: the
    error node is not entered, date and time keep their values, the error
    text stays stored and [is_complete] is true; the session is kept.
    Applied by hand to that state, [_handle_error] does clear date and
    time, move to [collect_customer_info] and drop the error text. *)
Theorem C4_error_node_skipped :
  exists data before,
    @converse (sample_world jane_llm gateway_rejecting_date) ∅ "jane"
      jane_until_summary = before
    /\ @converse (sample_world jane_llm gateway_rejecting_date) ∅ "jane"
         (jane_until_summary ++ ["confirm"]) !! "jane" = Some data
    /\ map fst (fst (@invoke (sample_world jane_llm gateway_rejecting_date)
                       (@turn_input
                          (sample_world jane_llm gateway_rejecting_date)
                          before "jane" "confirm" [])))
       = [N_start; N_extract_info; N_handle_user_intent; N_confirm_details;
          N_create_booking]
    /\ current_step (state data) = "handle_error"
    /\ error_message (state data) = Some "Invalid date"
    /\ booking_date (state data) = Some "2026-12-01"
    /\ booking_time (state data) = Some "14:00"
    /\ is_complete (state data) = true
    /\ (exists s',
          @_handle_error (sample_world jane_llm gateway_rejecting_date)
            (state data) = Some s'
          /\ booking_date s' = None /\ booking_time s' = None
          /\ current_step s' = "collect_customer_info"
          /\ error_message s' = None
          /\ is_complete s' = false).
Proof.
  eexists. eexists. split; [reflexivity |].
  split; [vm_compute; reflexivity |].
  repeat split; try (vm_compute; reflexivity).
  eexists. split; [vm_compute; reflexivity |].
  repeat split; vm_compute; reflexivity.
Qed.

(** The trigger is the text "confirm": the exact token "yes" is classified
    as a confirmation by the intent classifier, yet the turn it opens ends
    at the confirmation step without a gateway call. *)
Lemma yes_does_not_trigger :
  detect_user_intent "yes" = "confirm"
  /\ confirmed_by_user (said "yes" filled_state) = false
  /\ map fst (fst (@invoke (sample_world quiet_llm gateway_with_flag)
                     (said "yes" filled_state)))
     = [N_start; N_extract_info; N_handle_user_intent; N_confirm_details].
Proof. repeat split; vm_compute; reflexivity. Qed.

(** ** The theorems at concrete inputs *)

(** C9 at the command "edit branch" on a state with every field filled:
    the branch and its cache are cleared, the service stays. *)
Lemma C9_witness :
  branch_id (@_handle_edit (sample_world quiet_llm gateway_with_code)
               (said "edit branch" filled_state)) = None
  /\ branch_options (@_handle_edit (sample_world quiet_llm gateway_with_code)
                       (said "edit branch" filled_state)) = []
  /\ In "branch_id"
       (missing_fields (@_handle_edit (sample_world quiet_llm gateway_with_code)
                          (said "edit branch" filled_state))).
Proof.
  pose proof (@C9_edit_clears_only_target
                (sample_world quiet_llm gateway_with_code)
                (said "edit branch" filled_state)
                (Message "user" "edit branch" "2026-11-30T10:00:00")
                "branch_id" "query_branches" eq_refl eq_refl) as H.
  cbv zeta in H.
  destruct H as [_ [_ [_ [_ [_ [_ [_ Hbranch]]]]]]].
  destruct (Hbranch eq_refl) as [_ [_ [Hid [Hoptions [_ Hmissing]]]]].
  split; [exact Hid |]. split; [exact Hoptions | exact Hmissing].
Defined.

(** C6 at a greeting on a state with every field filled: the precedence
    reaches its last case. *)
Lemma C6_witness :
  _route_after_extraction (said "hello" filled_state) = "confirm_details".
Proof.
  apply (C6_route_precedence (said "hello" filled_state)
           (Message "user" "hello" "2026-11-30T10:00:00"));
    vm_compute; reflexivity.
Defined.

(** C3 at the turn in which the user confirms a filled booking: the one
    gateway call comes from a state with all six fields. *)
Lemma C3_witness :
  exists s1,
    In (N_create_booking, s1)
       (fst (@run (sample_world quiet_llm gateway_with_code) 25 N_start
               (said "confirm" filled_state)))
    /\ @build_booking_request (sample_world quiet_llm gateway_with_code)
         (set_current_step "create_booking" s1)
       = inr (BookingRequest (Some "Jane") (Some "555-1234") (Some 1%Z) 1 7
                (Some "2026-12-01") (Some "14:00"))
    /\ confirmed_by_user s1 = true
    /\ forall field, In field required_fields ->
                     Py.truthy (state_get s1 field) = true.
Proof.
  apply (proj2 (proj2 (@C3_gateway_needs_complete_fields
                         (sample_world quiet_llm gateway_with_code)
                         filled_state))).
  vm_compute. left. reflexivity.
Defined.

(** C10 at the same turn: [create_booking] is entered with the flag set
    and the success router answers "end". *)
Lemma C10_witness :
  exists s,
    In (N_create_booking, s)
       (fst (@run (sample_world quiet_llm gateway_rejecting_date) 25 N_start
               (said "confirm" filled_state)))
    /\ is_complete s = true
    /\ _check_booking_success
         (@_create_booking (sample_world quiet_llm gateway_rejecting_date) s)
       = "end".
Proof.
  assert (Hin : exists s,
             In (N_create_booking, s)
                (fst (@run (sample_world quiet_llm gateway_rejecting_date) 25
                        N_start (said "confirm" filled_state)))).
  { eexists. vm_compute. do 4 right. left. reflexivity. }
  destruct Hin as [s Hin]. exists s. split; [exact Hin |].
  destruct (@C10_create_booking_entered_complete
              (sample_world quiet_llm gateway_rejecting_date) 25
              (said "confirm" filled_state) s Hin)
    as [Hcomplete [_ [_ [Hend _]]]].
  split; [exact Hcomplete | exact Hend].
Defined.

(** C1 at the third turn of Jane's dialogue: the turn ends at
    [confirm_details] and the session is kept. *)
Lemma C1_witness :
  exists data,
    fst (@handle_booking_question (sample_world jane_llm gateway_with_code)
           (@converse (sample_world jane_llm gateway_with_code) ∅ "jane"
              ["I'd like a haircut tomorrow at 2pm, I'm Jane, 555-1234"; "1"])
           "jane" "Classic Haircut" [] "") !! "jane" = Some data
    /\ is_complete (state data) = true.
Proof.
  assert (Hturn : exists wr,
             @turn_result (sample_world jane_llm gateway_with_code)
               (@converse (sample_world jane_llm gateway_with_code) ∅ "jane"
                  ["I'd like a haircut tomorrow at 2pm, I'm Jane, 555-1234";
                   "1"])
               "jane" "Classic Haircut" [] = Some wr
             /\ current_step (wr_state wr) = "confirm_details"
             /\ has_confirmation (rev (conversation_history (wr_state wr)))
                = false
             /\ is_complete (wr_state wr) = true).
  { eexists. split; [vm_compute; reflexivity |].
    repeat split; vm_compute; reflexivity. }
  destruct Hturn as [wr [Hresult [Hstep [Hmarker Hflag]]]].
  destruct (@C1_completion_flag_and_removal
              (sample_world jane_llm gateway_with_code) filled_state
              (@converse (sample_world jane_llm gateway_with_code) ∅ "jane"
                 ["I'd like a haircut tomorrow at 2pm, I'm Jane, 555-1234";
                  "1"])
              "jane" "Classic Haircut" [] "")
    as [_ [_ [_ [_ [_ Hkept]]]]].
  destruct (Hkept wr Hresult Hstep Hmarker) as [data [Hlookup Hstate]].
  exists data. split; [exact Hlookup |]. rewrite Hstate. exact Hflag.
Defined.

(** ** The further properties at concrete inputs *)

(** X1 on a new key: "start over" deletes the session and apologises. *)
Lemma X1_witness :
  @handle_booking_question (sample_world quiet_llm gateway_with_code) ∅
    "jane" "start over" [] ""
  = (delete "jane" ∅, Some apology).
Proof.
  apply (proj2 (@start_over_never_completes
                  (sample_world quiet_llm gateway_with_code) ∅ "jane"
                  "start over" [] "" filled_state)).
  vm_compute. reflexivity.
Defined.

(** X2 after Jane's summary: "cancel" leaves her session in the registry,
    at the step [cancelled]. *)
Lemma X2_witness :
  exists data,
    fst (@handle_booking_question (sample_world jane_llm gateway_with_code)
           (@converse (sample_world jane_llm gateway_with_code) ∅ "jane"
              jane_until_summary)
           "jane" "cancel" [] "") !! "jane" = Some data
    /\ current_step (state data) = "cancelled".
Proof.
  assert (H : exists data s2,
             @converse (sample_world jane_llm gateway_with_code) ∅ "jane"
               jane_until_summary !! "jane" = Some data
             /\ @_extract_booking_info (sample_world jane_llm gateway_with_code)
                  (@_start_node (sample_world jane_llm gateway_with_code)
                     (@turn_input (sample_world jane_llm gateway_with_code)
                        (@converse (sample_world jane_llm gateway_with_code)
                           ∅ "jane" jane_until_summary)
                        "jane" "cancel" []))
                = Some s2
             /\ has_confirmation
                  (rev (conversation_history
                          (@_handle_user_intent
                             (sample_world jane_llm gateway_with_code) s2)))
                = false).
  { eexists. eexists. split; [vm_compute; reflexivity |].
    split; [vm_compute; reflexivity | vm_compute; reflexivity]. }
  destruct H as [data [s2 [Hlookup [Hextract Hmarker]]]].
  destruct (@cancel_turn_keeps_session
              (sample_world jane_llm gateway_with_code) _ "jane" "cancel"
              data s2 "" Hlookup eq_refl Hextract)
    as [_ [Hstep [_ [_ Hkept]]]].
  rewrite (Hkept Hmarker). cbn [fst]. rewrite lookup_insert_eq.
  eexists. split; [reflexivity | exact Hstep].
Defined.

(** X3 on a greeting: the run ends and the latest user message of its
    final state is the greeting. *)
Lemma X3_witness :
  exists final,
    snd (@run (sample_world quiet_llm gateway_with_code) 25 N_start
           (said "hello" filled_state)) = Some final
    /\ latest_message "user" final
       = Some (Message "user" "hello" "2026-11-30T10:00:00").
Proof.
  assert (H : exists final,
             snd (@run (sample_world quiet_llm gateway_with_code) 25 N_start
                    (said "hello" filled_state)) = Some final).
  { eexists. vm_compute. reflexivity. }
  destruct H as [final Hfinal]. exists final. split; [exact Hfinal |].
  destruct (proj2 (@run_log_append_only
                     (sample_world quiet_llm gateway_with_code) 25 N_start
                     (said "hello" filled_state)) final Hfinal)
    as [_ Hlatest].
  rewrite Hlatest. reflexivity.
Defined.

(** X5 at the turn in which the user confirms a filled booking. *)
Lemma X5_witness :
  exists s1 b v,
    In (N_create_booking, s1)
       (fst (@run (sample_world quiet_llm gateway_with_code) 25 N_start
               (said "confirm" filled_state)))
    /\ branch_id s1 = Some b /\ Py.int_of_str b = Some 1%Z
    /\ service_id s1 = Some v /\ Py.int_of_str v = Some 7%Z
    /\ Some "Jane" = customer_name s1
    /\ Some "555-1234" = customer_mobile s1
    /\ Py.truthy (customer_name s1) = true
    /\ Py.truthy (customer_mobile s1) = true.
Proof.
  apply (@gateway_payload_from_state
           (sample_world quiet_llm gateway_with_code) 25
           (said "confirm" filled_state)
           (BookingRequest (Some "Jane") (Some "555-1234") (Some 1%Z) 1 7
              (Some "2026-12-01") (Some "14:00"))).
  vm_compute. left. reflexivity.
Defined.

(** X6 at the error node entered with no error text stored. *)
Lemma X6_witness :
  (N_handle_error = N_extract_info
   /\ @_extract_booking_info (sample_world quiet_llm gateway_with_code)
        filled_state = None)
  \/ (N_handle_error = N_handle_error /\ error_message filled_state = None).
Proof.
  apply (@graph_step_raised_only (sample_world quiet_llm gateway_with_code)
           N_handle_error filled_state).
  reflexivity.
Defined.

(** X8 at the message "yes" on a filled booking. *)
Lemma X8_witness :
  detect_user_intent "yes" = "confirm"
  /\ confirmed_by_user (said "yes" filled_state) = false
  /\ @graph_step (sample_world quiet_llm gateway_with_code) N_confirm_details
       (said "yes" filled_state)
     = Done (@after_confirmation (sample_world quiet_llm gateway_with_code)
               (said "yes" filled_state)).
Proof.
  apply (@exact_token_does_not_book (sample_world quiet_llm gateway_with_code)
           (said "yes" filled_state)
           (Message "user" "yes" "2026-11-30T10:00:00")).
  - reflexivity.
  - vm_compute. left. reflexivity.
Defined.

(** X9 at "Update my time": the date is the target. *)
Lemma X9_witness :
  detect_user_intent "Update my time" = "edit"
  /\ exists field next_step,
       handle_edit_command "Update my time" = (Some field, next_step)
       /\ field <> "booking_time" /\ field <> "total_customer"
       /\ (Py.any_in ["name"; "phone"; "mobile"; "branch"; "location";
                      "salon"; "service"; "treatment"]
             (Py.lower "Update my time") = false ->
           field = "booking_date" /\ next_step = "collect_customer_info").
Proof.
  apply (update_wording_targets_date "Update my time").
  vm_compute. reflexivity.
Defined.

(** X10 at the reply "2" to the two branches. *)
Lemma X10_witness :
  In (Choice 2 "Uptown" []) two_branches
  /\ ((exists i, 1 <= i <= 5
                 /\ nth_error two_branches (i - 1) = Some (Choice 2 "Uptown" [])
                 /\ ordinal_test (Py.lower "2") i = true)
      \/ Py.contains (Py.lower (choice_name (Choice 2 "Uptown" [])))
           (Py.lower "2") = true).
Proof.
  apply (_parse_selection_sound "2" two_branches (Choice 2 "Uptown" [])).
  vm_compute. reflexivity.
Defined.

(** X11 at the second of the two branches. *)
Lemma X11_witness :
  _parse_selection (Py.str_of_nat 2) two_branches
  = Some (Choice 2 "Uptown" []).
Proof.
  apply (bare_number_selects 2 two_branches (Choice 2 "Uptown" [])).
  - lia.
  - reflexivity.
Defined.

(** X12 at the bare command "edit". *)
Lemma X12_witness :
  @graph_step (sample_world quiet_llm gateway_with_code) N_handle_edit
    (said "edit" filled_state)
  = Next N_show_summary
      (@_handle_edit (sample_world quiet_llm gateway_with_code)
         (said "edit" filled_state)).
Proof.
  destruct (@_handle_edit_unrecognised
              (sample_world quiet_llm gateway_with_code)
              (said "edit" filled_state)
              (Message "user" "edit" "2026-11-30T10:00:00")
              eq_refl eq_refl)
    as [_ [_ [Hstep _]]].
  exact Hstep.
Defined.

(** X13 at "start over" on a filled booking: the name is gone, the
    session id stays. *)
Lemma X13_witness :
  customer_name (@_handle_user_intent
                   (sample_world quiet_llm gateway_with_code)
                   (said "start over" filled_state)) = None
  /\ session_id (@_handle_user_intent
                   (sample_world quiet_llm gateway_with_code)
                   (said "start over" filled_state)) = Some "session-1".
Proof.
  destruct (proj2 (@start_over_resets
                     (sample_world quiet_llm gateway_with_code)
                     (said "start over" filled_state)
                     (Message "user" "start over" "2026-11-30T10:00:00")
                     eq_refl) eq_refl)
    as [Hid [_ [_ [Hname _]]]].
  split; [exact Hname | exact Hid].
Defined.


(** X16: a turn of "jane" leaves the session of "bob" alone. *)
Lemma X16_witness :
  fst (@handle_booking_question (sample_world quiet_llm gateway_with_code)
         two_sessions "jane" "hello" [] "") !! "bob"
  = two_sessions !! "bob".
Proof.
  apply (@handle_booking_question_isolated
           (sample_world quiet_llm gateway_with_code) two_sessions "jane"
           "hello" [] "" "bob").
  discriminate.
Defined.

(** X17: a turn of "bob" keeps the start time of his session. *)
Lemma X17_witness :
  exists after,
    fst (@handle_booking_question (sample_world quiet_llm gateway_with_code)
           two_sessions "bob" "hello" [] "") !! "bob" = Some after
    /\ started_at after = "2026-11-30T09:55:00".
Proof.
  assert (H : exists after,
             fst (@handle_booking_question
                    (sample_world quiet_llm gateway_with_code)
                    two_sessions "bob" "hello" [] "") !! "bob" = Some after).
  { eexists. vm_compute. reflexivity. }
  destruct H as [after Hafter]. exists after. split; [exact Hafter |].
  rewrite (@session_start_time_kept
             (sample_world quiet_llm gateway_with_code) two_sessions "bob"
             "hello" [] "" after Hafter).
  reflexivity.
Defined.

(** X18 on the two sessions: one is removed, one is kept. *)
Lemma X18_witness :
  snd (cleanup_inactive_sessions early_start_is_old 30 two_sessions)
  + size (fst (cleanup_inactive_sessions early_start_is_old 30 two_sessions))
  = size two_sessions.
Proof.
  apply (proj2 (cleanup_removes_exactly_expired early_start_is_old 30
                  two_sessions)).
  intros k d _. discriminate.
Defined.

(** X19 on the two sessions: clearing "ann" removes her session. *)
Lemma X19_witness :
  fst (clear_booking_session (Some "ann") two_sessions) !! "ann" = None.
Proof.
  apply (proj2 (clear_booking_session_effect (Some "ann") two_sessions)
           "ann" eq_refl).
  discriminate.
Defined.

(** X20 at an answer with nothing usable, on a filled booking. *)
Lemma X20_witness :
  @_extract_with_llm (sample_world vague_llm gateway_with_code) filled_state
    "hm"
  = Some (update_missing_fields filled_state).
Proof.
  assert (Hnone : nothing_usable
                    [("customer_name", "Unknown"); ("booking_date", "");
                     ("next_step", "collect_customer_info")]).
  { unfold nothing_usable.
    repeat (constructor; [cbn; auto |]). constructor. }
  apply (proj1 (@_extract_with_llm_unusable
                  (sample_world vague_llm gateway_with_code) filled_state "hm"
                  _ eq_refl Hnone)).
Defined.

(** X22 at "confirm" on a filled booking, with a gateway that answers
    [true] under [bookingCode]: one call, with Jane's booking. *)
Lemma X22_witness :
  @gateway_calls (sample_world quiet_llm gateway_with_flag)
    (fst (@invoke (sample_world quiet_llm gateway_with_flag)
            (said "confirm" filled_state)))
  = [BookingRequest (Some "Jane") (Some "555-1234") (Some 1%Z) 1 7
       (Some "2026-12-01") (Some "14:00")].
Proof.
  assert (H : exists s2,
             @_extract_booking_info (sample_world quiet_llm gateway_with_flag)
               (@_start_node (sample_world quiet_llm gateway_with_flag)
                  (said "confirm" filled_state)) = Some s2
             /\ get_missing_fields s2 = []
             /\ @build_booking_request
                  (sample_world quiet_llm gateway_with_flag)
                  (set_current_step "create_booking"
                     (@after_confirmation
                        (sample_world quiet_llm gateway_with_flag)
                        (@_handle_user_intent
                           (sample_world quiet_llm gateway_with_flag) s2)))
                = inr (BookingRequest (Some "Jane") (Some "555-1234")
                         (Some 1%Z) 1 7 (Some "2026-12-01") (Some "14:00"))).
  { eexists. split; [vm_compute; reflexivity |].
    split; [vm_compute; reflexivity | vm_compute; reflexivity]. }
  destruct H as [s2 [Hextract [Hnil Hbuild]]].
  destruct (@confirm_turn_books (sample_world quiet_llm gateway_with_flag)
              (said "confirm" filled_state) s2 _
              (ex_intro _ (Message "user" "confirm" "2026-11-30T10:00:00")
                 (conj eq_refl eq_refl))
              eq_refl Hextract Hnil Hbuild)
    as [_ [Hcalls _]].
  exact Hcalls.
Defined.
